(** * Versioned artifacts: key/version codec and the two repository backends

    A shallow embedding of the [versioned] package:
    - [s3_only_backend.py]   (module [S3Only]),
    - [dynamodb.py]          (module [Dynamodb]),
    - [s3_and_dynamodb_backend.py] (module [Hybrid]),
    - [core.py]              (module [Core]).

    Python values are embedded as follows: [int] is [Z], [str] is [string],
    [Optional[Union[int, str]]] is the inductive [pyver], a raised exception
    is the [Raise] constructor of [result].  The object store and the
    metadata index are finite maps threaded through every operation. *)

From Stdlib Require Import ZArith String Ascii.
From stdpp Require Import base decidable numbers option strings list gmap sorting.

Local Open Scope string_scope.
Local Open Scope Z_scope.

(** ** Python primitives on [str] and [int] *)

Module Py.

(** The exceptions the modelled code can raise. [ClientError] stands for the
    error the object store reports for a missing key. *)
Inductive exn : Type :=
  | ArtifactNotFoundError
  | AliasNotFoundError
  | ValueError
  | TypeError
  | KeyError
  | IndexError
  | ClientError.

Inductive result (A : Type) : Type :=
  | Ok (a : A)
  | Raise (e : exn).
Arguments Ok {A} a.
Arguments Raise {A} e.

Definition bind {A B} (m : result A) (k : A -> result B) : result B :=
  match m with
  | Ok a => k a
  | Raise e => Raise e
  end.

Definition of_option {A} (e : exn) (o : option A) : result A :=
  match o with
  | Some a => Ok a
  | None => Raise e
  end.

(** ['0' * n] *)
Fixpoint zeros (n : nat) : string :=
  match n with
  | O => ""
  | S n' => String "0" (zeros n')
  end.

Definition is_sign (c : ascii) : bool :=
  Ascii.eqb c "+" || Ascii.eqb c "-".

(** [s.zfill(width)]: pad with zeros on the left, after a leading sign. *)
Definition zfill (width : nat) (s : string) : string :=
  let pad := zeros (width - String.length s) in
  match s with
  | String c s' => if is_sign c then String c (pad +:+ s') else pad +:+ s
  | EmptyString => pad
  end.

(** [s.lstrip("0")] *)
Fixpoint lstrip0 (s : string) : string :=
  match s with
  | String c s' => if Ascii.eqb c "0" then lstrip0 s' else s
  | EmptyString => ""
  end.

(** [s.startswith(p)] *)
Definition startswith (s p : string) : bool := String.prefix p s.

(** [c in s] for a one-character [c] *)
Fixpoint contains (c : ascii) (s : string) : bool :=
  match s with
  | String d s' => Ascii.eqb c d || contains c s'
  | EmptyString => false
  end.

(** [s.split(sep)] for a one-character separator *)
Fixpoint split (sep : ascii) (s : string) : list string :=
  match s with
  | EmptyString => [""]
  | String c s' =>
      if Ascii.eqb c sep then "" :: split sep s'
      else match split sep s' with
           | w :: ws => String c w :: ws
           | [] => [String c ""]
           end
  end.

Definition digit_char (d : Z) : ascii := ascii_of_N (48 + Z.to_N d).

Definition digit_val (c : ascii) : option Z :=
  let n := Z.of_N (N_of_ascii c) in
  if (48 <=? n) && (n <=? 57) then Some (n - 48) else None.

(** [c.isalpha()] on ASCII letters *)
Definition isalpha (c : ascii) : bool :=
  let n := Z.of_N (N_of_ascii c) in
  ((65 <=? n) && (n <=? 90)) || ((97 <=? n) && (n <=? 122)).

(** Decimal digits of a non-negative integer, most significant first. The
    fuel only bounds the recursion; [str_int] always gives enough. *)
Fixpoint str_digits (fuel : nat) (n : Z) : string :=
  match fuel with
  | O => ""
  | S f =>
      if n <? 10 then String (digit_char n) ""
      else str_digits f (n / 10) +:+ String (digit_char (n mod 10)) ""
  end.

Definition str_nonneg (n : Z) : string :=
  str_digits (S (Z.to_nat (Z.log2 n))) n.

(** [str(z)] for an [int] *)
Definition str_int (z : Z) : string :=
  if z <? 0 then String "-" (str_nonneg (- z)) else str_nonneg z.

Fixpoint parse_digits (acc : Z) (s : string) : option Z :=
  match s with
  | EmptyString => Some acc
  | String c s' =>
      match digit_val c with
      | Some d => parse_digits (10 * acc + d) s'
      | None => None
      end
  end.

(** [int(s)]: an optional sign followed by at least one decimal digit.
    Surrounding white space and digit-group underscores, which Python also
    accepts, are not part of any version string and are rejected here. *)
Definition int_of_str (s : string) : option Z :=
  match s with
  | EmptyString => None
  | String c s' =>
      if Ascii.eqb c "-" then
        match s' with
        | EmptyString => None
        | _ => Z.opp <$> parse_digits 0 s'
        end
      else if Ascii.eqb c "+" then
        match s' with
        | EmptyString => None
        | _ => parse_digits 0 s'
        end
      else parse_digits 0 s
  end.

(** [l[start:]] with Python's treatment of a negative start. *)
Definition slice_from {A} (start : Z) (l : list A) : list A :=
  let len := Z.of_nat (List.length l) in
  let start' := if start <? 0 then Z.max (len + start) 0 else start in
  drop (Z.to_nat start') l.

(** [[f(x) for x in l]] where [f] may raise: the first failure ends the
    comprehension. *)
Fixpoint list_comprehension {A B} (f : A -> result B) (l : list A)
    : result (list B) :=
  match l with
  | [] => Ok []
  | x :: l' =>
      match f x with
      | Ok y =>
          match list_comprehension f l' with
          | Ok ys => Ok (y :: ys)
          | Raise e => Raise e
          end
      | Raise e => Raise e
      end
  end.

End Py.

Export Py.

#[global] Instance result_ret : MRet result := @Ok.
#[global] Instance result_bind : MBind result := fun A B k m => Py.bind m k.

(** ** Constants *)

(** Modelled from the spec: [constants.py] is not among the sources. The
    sentinel and the padding width are the ones the docstring of
    [encode_filename] shows ([LATEST -> 000000_LATEST],
    [2 -> 999998_000002]); the metadata key is the literal the hybrid
    backend reads back. *)
Definition LATEST_VERSION : string := "LATEST".
Definition VERSION_ZFILL : nat := 6.
Definition METADATA_KEY_ARTIFACT_SHA256 : string := "artifact_sha256".

(** A version argument: [None], an [int] or a [str]. *)
Inductive pyver : Type :=
  | VNone
  | VInt (z : Z)
  | VStr (s : string).

(** [str(version)] *)
Definition str_of (v : pyver) : string :=
  match v with
  | VNone => "None"
  | VInt z => str_int z
  | VStr s => s
  end.


(** ** The external stores

    The object store and the metadata index are the two collaborators of
    the repository.  They are modelled as finite maps; every write appends
    an [event] to a trace so that the order of writes can be observed. *)

Module Store.

Abbreviation bytes := (list Byte.byte).

(** An object key is the path of the object below the bucket. *)
Abbreviation key := string.

(** The JSON document stored for an alias by the object-store-only backend
    ([json.dumps(alias_obj.to_dict())]). *)
Inductive pyweight : Type :=
  | WNone
  | WInt (z : Z)
  | WOther.

Record alias_document : Type := {
  doc_name : string;
  doc_alias : string;
  doc_update_at : string;
  doc_version : string;
  doc_secondary_version : option string;
  doc_secondary_version_weight : pyweight;
  doc_version_s3uri : string;
  doc_secondary_version_s3uri : option string;
}.

Inductive body : Type :=
  | Bytes (b : bytes)
  | Json (d : alias_document).

Record s3object : Type := {
  obj_body : body;
  obj_metadata : gmap string string;
  obj_last_modified : Z;
  obj_etag : string;
}.

(** A row of the index table. Attributes are optional, as in the table. *)
Record item : Type := {
  it_update_at : option Z;
  it_is_deleted : option bool;
  it_sha256 : option string;
  it_version : option string;
  it_secondary_version : option string;
  it_secondary_version_weight : pyweight;
}.

Inductive event : Type :=
  | S3PutObject (k : key)
  | S3CopyObject (src dst : key)
  | S3DeleteObject (k : key)
  | DdbPutItem (pk sk : string)
  | DdbUpdateItem (pk sk : string)
  | DdbDeleteItem (pk sk : string).

Record world : Type := {
  s3 : gmap key s3object;
  table : gmap (string * string) item;
  clock : Z;
  trace : list event;
}.

(** The content hash ([hashes.of_bytes] after [hashes.use_sha256()]) and the
    entity tag the object store derives from a body are external pure
    functions. *)
Class Hashes : Type := {
  of_bytes : bytes -> string;
  etag_of : body -> string;
}.

(** Computations that read and write the stores and may raise. *)
Definition M (A : Type) : Type := world -> result A * world.

Definition ret {A} (a : A) : M A := fun w => (Ok a, w).

Definition bind {A B} (m : M A) (k : A -> M B) : M B :=
  fun w =>
    match m w with
    | (Ok a, w') => k a w'
    | (Raise e, w') => (Raise e, w')
    end.

Definition raise {A} (e : exn) : M A := fun w => (Raise e, w).

Definition lift {A} (r : result A) : M A := fun w => (r, w).

Definition log (e : event) (w : world) : world :=
  {| s3 := s3 w; table := table w; clock := clock w; trace := (trace w ++ [e])%list |}.

Definition set_s3 (m : gmap key s3object) (w : world) : world :=
  {| s3 := m; table := table w; clock := clock w; trace := trace w |}.

Definition set_table (t : gmap (string * string) item) (w : world) : world :=
  {| s3 := s3 w; table := t; clock := clock w; trace := trace w |}.

(** [get_utc_now()] *)
Definition get_utc_now : M Z := fun w => (Ok (clock w), w).

(** Time passing between two calls. *)
Definition advance (d : Z) (w : world) : world :=
  {| s3 := s3 w; table := table w; clock := clock w + d; trace := trace w |}.

(** *** Object store *)

(** [S3Path.exists()] *)
Definition exists_object (k : key) : M bool :=
  fun w => (Ok (bool_decide (is_Some (s3 w !! k))), w).

(** [S3Path.head_object()] and the attributes read through it. *)
Definition head_object (k : key) : M s3object :=
  fun w => (of_option ClientError (s3 w !! k), w).

(** The object a write at time [t] stores. *)
Definition stored `{Hashes} (b : body) (metadata : gmap string string) (t : Z)
    : s3object :=
  {| obj_body := b; obj_metadata := metadata; obj_last_modified := t;
     obj_etag := etag_of b |}.

(** [S3Path.write_bytes] / [S3Path.write_text] *)
Definition put_object `{Hashes} (k : key) (b : body)
    (metadata : gmap string string) : M unit :=
  fun w =>
    (Ok tt,
     log (S3PutObject k) (set_s3 (<[k := stored b metadata (clock w)]> (s3 w)) w)).

(** A server-side copy made at time [t] keeps body, metadata and entity
    tag. *)
Definition copied (o : s3object) (t : Z) : s3object :=
  {| obj_body := obj_body o; obj_metadata := obj_metadata o;
     obj_last_modified := t; obj_etag := obj_etag o |}.

(** [S3Path.copy_to] *)
Definition copy_object (src dst : key) : M unit :=
  fun w =>
    match s3 w !! src with
    | None => (Raise ClientError, w)
    | Some o =>
        (Ok tt,
         log (S3CopyObject src dst)
           (set_s3 (<[dst := copied o (clock w)]> (s3 w)) w))
    end.

(** [S3Path.delete()] on one object *)
Definition delete_object (k : key) : M unit :=
  fun w => (Ok tt, log (S3DeleteObject k) (set_s3 (delete k (s3 w)) w)).

Definition key_le (a b : key * s3object) : Prop := String.le a.1 b.1.

#[global] Instance key_le_dec : RelDecision key_le.
Proof. intros a b. unfold key_le. apply _. Defined.

(** The objects whose key starts with [dir], in the order of the keys. *)
Definition objects_under (dir : key) (m : gmap key s3object) : list (key * s3object) :=
  merge_sort key_le
    (filter (fun kv => String.prefix dir kv.1 = true) (map_to_list m)).

(** [S3Path.iter_objects()] on a directory *)
Definition iter_objects (dir : key) : M (list (key * s3object)) :=
  fun w => (Ok (objects_under dir (s3 w)), w).

(** [S3Path.fname]: the last component without its extension. *)
Fixpoint rfind_dot (s : string) (i : nat) : option nat :=
  match s with
  | EmptyString => None
  | String c s' =>
      match rfind_dot s' (S i) with
      | Some j => Some j
      | None => if Ascii.eqb c "." then Some i else None
      end
  end.

Definition basename (k : key) : string := List.last (split "/" k) "".

Definition fname (k : key) : string :=
  let basename := basename k in
  match rfind_dot basename 0 with
  | Some i =>
      if bool_decide (0 < i < String.length basename - 1)%nat
      then String.substring 0 i basename else basename
  | None => basename
  end.

(** *** Metadata index *)

(** [Model.get(hash_key, range_key)] *)
Definition get_item (pk sk : string) : M (option item) :=
  fun w => (Ok (table w !! (pk, sk)), w).

(** [Model.save()] *)
Definition put_item (pk sk : string) (i : item) : M unit :=
  fun w => (Ok tt, log (DdbPutItem pk sk) (set_table (<[(pk, sk) := i]> (table w)) w)).

Definition empty_item : item :=
  {| it_update_at := None; it_is_deleted := None; it_sha256 := None;
     it_version := None; it_secondary_version := None;
     it_secondary_version_weight := WNone |}.

(** [Model.update(actions=[...])]: the mutation is applied to the row, which
    is created when it does not exist. *)
Definition update_item (pk sk : string) (f : item -> item) : M unit :=
  fun w =>
    let i := default empty_item (table w !! (pk, sk)) in
    (Ok tt, log (DdbUpdateItem pk sk) (set_table (<[(pk, sk) := f i]> (table w)) w)).

(** [Model.delete()] *)
Definition delete_item (pk sk : string) : M unit :=
  fun w => (Ok tt, log (DdbDeleteItem pk sk) (set_table (delete (pk, sk) (table w)) w)).

Definition sk_ge (a b : string * item) : Prop := String.le b.1 a.1.

#[global] Instance sk_ge_dec : RelDecision sk_ge.
Proof. intros a b. unfold sk_ge. apply _. Defined.

(** The rows of one partition, by descending sort key. *)
Definition partition_desc (pk : string) (t : gmap (string * string) item)
    : list (string * item) :=
  merge_sort sk_ge
    ((fun kv => (kv.1.2, kv.2)) <$> filter (fun kv => kv.1.1 = pk) (map_to_list t)).

(** [Model.query(hash_key, scan_index_forward=False)] *)
Definition query_desc (pk : string) : M (list (string * item)) :=
  fun w => (Ok (partition_desc pk (table w)), w).

(** [S3Path.parent] of an object: the directory of its key, which ends with
    the separator; the root of the bucket is the empty prefix. *)
Definition parent (k : key) : key :=
  match removelast (split "/" k) with
  | [] => ""
  | parts => String.concat "/" parts +:+ "/"
  end.

(** [S3Path.delete()] on a directory: every object below it is deleted, in
    the order of the listing; nothing happens when there is none. *)
Definition delete_dir (dir : key) : M unit :=
  fun w =>
    (Ok tt,
     {| s3 := filter (fun kv => String.prefix dir kv.1 = false) (s3 w);
        table := table w;
        clock := clock w;
        trace := (trace w ++
                  ((fun kv => S3DeleteObject kv.1) <$> objects_under dir (s3 w)))%list |}).

Definition sk_le (a b : string * item) : Prop := String.le a.1 b.1.

#[global] Instance sk_le_dec : RelDecision sk_le.
Proof. intros a b. unfold sk_le. apply _. Defined.

(** The rows of one partition, by ascending sort key. *)
Definition partition_asc (pk : string) (t : gmap (string * string) item)
    : list (string * item) :=
  merge_sort sk_le
    ((fun kv => (kv.1.2, kv.2)) <$> filter (fun kv => kv.1.1 = pk) (map_to_list t)).

(** [Model.query(hash_key)] *)
Definition query_asc (pk : string) : M (list (string * item)) :=
  fun w => (Ok (partition_asc pk (table w)), w).

(** [Model.scan()]: every row of the table. The order of a scan is not
    specified; it is the order in which the map enumerates its rows. *)
Definition scan : M (list (string * string * item)) :=
  fun w => (Ok (map_to_list (table w)), w).

(** [batch.delete(item)] for each key, inside [with Model.batch_write()]. *)
Fixpoint batch_delete (keys : list (string * string)) : M unit :=
  match keys with
  | [] => ret tt
  | (pk, sk) :: rest => bind (delete_item pk sk) (fun _ => batch_delete rest)
  end.

End Store.

Export Store.

#[global] Instance M_ret : MRet M := @Store.ret.
#[global] Instance M_bind : MBind M := fun A B k m => Store.bind m k.

(** ** [s3_only_backend.py] *)

Module S3Only.

Definition encode_version (version : pyver) : string :=
  match version with
  | VNone => LATEST_VERSION
  | _ => str_of version
  end.

Definition encode_filename (version : pyver) : result string :=
  let version := encode_version version in
  if String.eqb version LATEST_VERSION then
    Ok (zeros VERSION_ZFILL +:+ "_" +:+ LATEST_VERSION)
  else
    n ← of_option ValueError (int_of_str version);
    Ok (zfill VERSION_ZFILL (str_int (10 ^ Z.of_nat VERSION_ZFILL - n))
          +:+ "_" +:+ zfill VERSION_ZFILL version).

Definition decode_filename (version : string) : result string :=
  if startswith version (zeros VERSION_ZFILL) then Ok LATEST_VERSION
  else
    field ← of_option IndexError (split "_" version !! 1%nat);
    n ← of_option ValueError (int_of_str field);
    Ok (str_int n).

Definition validate_alias_name (alias : string) : result unit :=
  if String.eqb alias LATEST_VERSION then Raise ValueError
  else if contains "-" alias then Raise ValueError
  else
    match alias with
    | EmptyString => Raise IndexError
    | String c _ => if isalpha c then Ok tt else Raise ValueError
    end.

Record Artifact : Type := {
  name : string;
  version : string;
  update_at : Z;
  s3uri : string;
  sha256 : string;
}.

Record Alias : Type := {
  alias_name : string;
  alias : string;
  alias_update_at : Z;
  alias_version : string;
  secondary_version : option string;
  secondary_version_weight : pyweight;
  version_s3uri : string;
  secondary_version_s3uri : option string;
}.

Record Repository : Type := {
  s3_bucket : string;
  s3_prefix : string;
  suffix : string;
}.

Section Repository.
Context `{Hashes} (self : Repository).

Definition uri (k : key) : string := "s3://" +:+ s3_bucket self +:+ "/" +:+ k.

Definition _get_artifact_s3dir (name : string) : key :=
  s3_prefix self +:+ "/" +:+ name +:+ "/".

Definition _get_artifact_s3path (name : string) (version : pyver) : result key :=
  f ← encode_filename version;
  Ok (_get_artifact_s3dir name +:+ "versions/" +:+ f +:+ suffix self).

Definition _get_alias_s3path (name alias : string) : key :=
  _get_artifact_s3dir name +:+ "aliases/" +:+ alias +:+ ".json".

(** [s3path.metadata[METADATA_KEY_ARTIFACT_SHA256]] *)
Definition metadata_sha256 (o : s3object) : result string :=
  of_option KeyError (obj_metadata o !! METADATA_KEY_ARTIFACT_SHA256).

(** The record built from the attributes of the object at [k]. *)
Definition artifact_at (name version : string) (k : key) : M Artifact :=
  o ← head_object k;
  sha ← lift (metadata_sha256 o);
  mret {| name := name; version := version; update_at := obj_last_modified o;
          s3uri := uri k; sha256 := sha |}.

Definition write_artifact (name : string) (content : bytes)
    (metadata : option (gmap string string)) (artifact_sha256 : string)
    (s3path : key) : M Artifact :=
  let final_metadata : gmap string string :=
    {[ "artifact_name" := name; "artifact_sha256" := artifact_sha256 ]} in
  let final_metadata :=
    match metadata with
    | Some m => m ∪ final_metadata
    | None => final_metadata
    end in
  _ ← put_object s3path (Bytes content) final_metadata;
  o ← head_object s3path;
  mret {| name := name; version := LATEST_VERSION;
          update_at := obj_last_modified o; s3uri := uri s3path;
          sha256 := artifact_sha256 |}.

Definition put_artifact (name : string) (content : bytes)
    (metadata : option (gmap string string)) : M Artifact :=
  let artifact_sha256 := of_bytes content in
  s3path ← lift (_get_artifact_s3path name (VStr LATEST_VERSION));
  found ← exists_object s3path;
  if found : bool then
    o ← head_object s3path;
    stored ← lift (metadata_sha256 o);
    if String.eqb stored artifact_sha256 then
      mret {| name := name; version := LATEST_VERSION;
              update_at := obj_last_modified o; s3uri := uri s3path;
              sha256 := artifact_sha256 |}
    else write_artifact name content metadata artifact_sha256 s3path
  else write_artifact name content metadata artifact_sha256 s3path.

Definition publish_artifact_version (name : string) : M Artifact :=
  s3path_list ← iter_objects (_get_artifact_s3dir name);
  let s3path_list := take 2 s3path_list in
  s3path_latest ← lift (_get_artifact_s3path name (VStr LATEST_VERSION));
  match s3path_list with
  | [] => raise ArtifactNotFoundError
  | [_] =>
      let new_version := "1" in
      s3path_new ← lift (_get_artifact_s3path name (VStr new_version));
      _ ← copy_object s3path_latest s3path_new;
      artifact_at name new_version s3path_new
  | _ :: (k_previous, o_previous) :: _ =>
      previous_version ← lift (decode_filename (fname k_previous));
      n ← lift (of_option ValueError (int_of_str previous_version));
      let new_version := str_int (n + 1) in
      s3path_new ← lift (_get_artifact_s3path name (VStr new_version));
      o_latest ← head_object s3path_latest;
      if String.eqb (obj_etag o_previous) (obj_etag o_latest) then
        sha ← lift (metadata_sha256 o_previous);
        mret {| name := name; version := previous_version;
                update_at := obj_last_modified o_previous;
                s3uri := uri k_previous; sha256 := sha |}
      else
        _ ← copy_object s3path_latest s3path_new;
        artifact_at name new_version s3path_new
  end.

Definition delete_artifact_version (name : string) (version : pyver) : M unit :=
  k ← lift (_get_artifact_s3path name version);
  delete_object k.

Definition put_alias (name alias : string) (version secondary_version : pyver)
    (secondary_version_weight : pyweight) : M Alias :=
  if contains "-" alias then raise ValueError
  else
    let version := encode_version version in
    secondary ←
      match secondary_version with
      | VNone => mret None
      | _ =>
          let secondary_version := encode_version secondary_version in
          match secondary_version_weight with
          | WInt w =>
              if negb ((0 <=? w) && (w <? 100)) then raise ValueError
              else if String.eqb version secondary_version then raise ValueError
              else mret (Some secondary_version)
          | _ => raise TypeError
          end
      end;
    version_s3path ← lift (_get_artifact_s3path name (VStr version));
    let version_s3uri := uri version_s3path in
    found ← exists_object version_s3path;
    if negb found then raise ArtifactNotFoundError
    else
      secondary_version_s3uri ←
        match secondary with
        | Some secondary_version =>
            secondary_version_s3path ←
              lift (_get_artifact_s3path name (VStr secondary_version));
            found ← exists_object secondary_version_s3path;
            if negb found then raise ArtifactNotFoundError
            else mret (Some (uri secondary_version_s3path))
        | None => mret None
        end;
      let alias_s3path := _get_alias_s3path name alias in
      _ ← put_object alias_s3path
            (Json {| doc_name := name; doc_alias := alias;
                     doc_update_at := "unknown"; doc_version := version;
                     doc_secondary_version := secondary;
                     doc_secondary_version_weight := secondary_version_weight;
                     doc_version_s3uri := version_s3uri;
                     doc_secondary_version_s3uri := secondary_version_s3uri |})
            ∅;
      o ← head_object alias_s3path;
      mret {| alias_name := name; alias := alias;
              alias_update_at := obj_last_modified o;
              alias_version := version; secondary_version := secondary;
              secondary_version_weight := secondary_version_weight;
              version_s3uri := version_s3uri;
              secondary_version_s3uri := secondary_version_s3uri |}.

End Repository.

(** [Alias._version_weight]. The field is declared [Optional[int]]; no value
    is given for a weight outside that type. *)
Definition _version_weight (self : Alias) : option Z :=
  match secondary_version_weight self with
  | WNone => Some 100
  | WInt w => Some (100 - w)
  | WOther => None
  end.

(** [Alias.random_artifact], for the value [r] that [random.randint(1, 100)]
    draws. The result is the chosen URI, which is [None] when the secondary
    URI is chosen and the alias has none. *)
Definition random_artifact (r : Z) (self : Alias) : option (option string) :=
  weight ← _version_weight self;
  Some (if r <=? weight then Some (version_s3uri self)
        else secondary_version_s3uri self).

Section Reading.
Context (self : Repository).

(** Whether the message of the [ValueError] that [int] raises for a literal
    contains ["Not Found"] or ["does not exist"]; the message quotes the
    literal. *)
Context (int_error_says_not_found : string -> bool).

(** What [Alias.from_dict(json.loads(text))] gives for a body that is not
    the document [put_alias] writes; an error is the one that leaves
    [_get_alias_object]. *)
Context (alias_of_bytes : bytes -> result alias_document).

Definition s3dir_artifact_store : key := s3_prefix self +:+ "/".

(** The [except] clause of [_get_artifact_object]. The error of the object
    store for a missing key says ["Not Found"]; the message of a [KeyError]
    is the key. *)
Definition artifact_not_found (version : pyver) (e : exn) : exn :=
  match e with
  | ClientError => ArtifactNotFoundError
  | ValueError =>
      if int_error_says_not_found (str_of version) then ArtifactNotFoundError
      else ValueError
  | _ => e
  end.

Definition _get_artifact_object (name : string) (version : pyver) : M Artifact :=
  fun w =>
    match (s3path ← lift (_get_artifact_s3path self name version);
           artifact_at self name (encode_version version) s3path) w with
    | (Raise e, w') => (Raise (artifact_not_found version e), w')
    | (Ok artifact, w') => (Ok artifact, w')
    end.

Definition get_latest_published_artifact_version_number (name : string) : M Z :=
  s3path_list ← iter_objects (_get_artifact_s3dir self name);
  match take 2 s3path_list with
  | [] | [_] => mret 0
  | _ :: (k, _) :: _ =>
      version ← lift (decode_filename (fname k));
      lift (of_option ValueError (int_of_str version))
  end.

(** The [except] clause of [_get_alias_object]. *)
Definition alias_not_found (e : exn) : exn :=
  match e with
  | ClientError => AliasNotFoundError
  | _ => e
  end.

(** [Alias.from_dict] of the stored document, with [update_at] replaced by
    the time of the last modification. *)
Definition alias_of_document (d : alias_document) (update_at : Z) : Alias :=
  {| alias_name := doc_name d; alias := doc_alias d; alias_update_at := update_at;
     alias_version := doc_version d;
     secondary_version := doc_secondary_version d;
     secondary_version_weight := doc_secondary_version_weight d;
     version_s3uri := doc_version_s3uri d;
     secondary_version_s3uri := doc_secondary_version_s3uri d |}.

Definition _get_alias_object (name alias : string) : M Alias :=
  fun w =>
    match (o ← head_object (_get_alias_s3path self name alias);
           d ← lift (match obj_body o with
                     | Json d => Ok d
                     | Bytes b => alias_of_bytes b
                     end);
           mret (alias_of_document d (obj_last_modified o))) w with
    | (Raise e, w') => (Raise (alias_not_found e), w')
    | (Ok a, w') => (Ok a, w')
    end.

Definition get_artifact_version (name : string) (version : pyver) : M Artifact :=
  _get_artifact_object name version.

(** One element of the comprehension of [list_artifact_versions]. *)
Definition listed_artifact (name : string) (entry : key * s3object)
    : result Artifact :=
  version ← decode_filename (fname entry.1);
  sha ← metadata_sha256 entry.2;
  Ok {| name := name; version := version;
        update_at := obj_last_modified entry.2; s3uri := uri self entry.1;
        sha256 := sha |}.

Definition list_artifact_versions (name : string) : M (list Artifact) :=
  s3path_list ← iter_objects (_get_artifact_s3dir self name);
  lift (list_comprehension (listed_artifact name) s3path_list).

Definition get_alias (name alias : string) : M Alias :=
  _get_alias_object name alias.

Definition delete_alias (name alias : string) : M unit :=
  delete_object (_get_alias_s3path self name alias).

Definition purge_artifact (name : string) : M unit :=
  delete_dir (_get_artifact_s3dir self name).

Definition purge_all : M unit := delete_dir s3dir_artifact_store.

End Reading.

End S3Only.

(** ** [dynamodb.py] *)

Module Dynamodb.

Definition encode_version (version : pyver) : string :=
  zfill VERSION_ZFILL (str_of version).

(** Modelled from the spec: [encode_version_sk] is called by the hybrid
    backend and exercised by [tests/test_dynamodb.py], but the [dynamodb]
    module among the sources does not define it. Following the spec,
    [None] and the sentinel give the sentinel, an integer or numeric string
    is rendered as a zero-padded decimal of width [VERSION_ZFILL]. *)
Definition encode_version_sk (version : pyver) : string :=
  match version with
  | VNone => LATEST_VERSION
  | _ => zfill VERSION_ZFILL (lstrip0 (str_of version))
  end.

(** Modelled from the spec: [encode_alias_pk] is missing from the sources
    as well; it wraps the name in the markers [Alias.new] uses for [pk]. *)
Definition encode_alias_pk (name : string) : string :=
  "__" +:+ name +:+ "-alias".

Module Artifact.

Record t : Type := {
  pk : string;
  sk : string;
  update_at : option Z;
  is_deleted : option bool;
  sha256 : option string;
}.

(** [Artifact.new(name, version)]; [now] is the value the default
    [get_utc_now] gives [update_at] when the instance is created. *)
Definition new (now : Z) (name : string) (version : pyver) : t :=
  match version with
  | VNone =>
      {| pk := name; sk := LATEST_VERSION; update_at := Some now;
         is_deleted := Some false; sha256 := None |}
  | _ =>
      {| pk := name; sk := encode_version version; update_at := Some now;
         is_deleted := Some false; sha256 := None |}
  end.

Definition name (self : t) : string := pk self.

Definition version (self : t) : string := lstrip0 (sk self).

Definition set_sha256 (v : option string) (self : t) : t :=
  {| pk := pk self; sk := sk self; update_at := update_at self;
     is_deleted := is_deleted self; sha256 := v |}.

Definition set_update_at (v : option Z) (self : t) : t :=
  {| pk := pk self; sk := sk self; update_at := v;
     is_deleted := is_deleted self; sha256 := sha256 self |}.

(** The row written by [save()] and the instance read back from a row. *)
Definition to_item (self : t) : item :=
  {| it_update_at := update_at self; it_is_deleted := is_deleted self;
     it_sha256 := sha256 self; it_version := None;
     it_secondary_version := None; it_secondary_version_weight := WNone |}.

Definition of_item (pk sk : string) (i : item) : t :=
  {| pk := pk; sk := sk; update_at := it_update_at i;
     is_deleted := it_is_deleted i; sha256 := it_sha256 i |}.

Definition save (self : t) : M unit := put_item (pk self) (sk self) (to_item self).

End Artifact.

Module Alias.

Record t : Type := {
  pk : string;
  sk : string;
  update_at : option Z;
  version : string;
  additional_version : option string;
  additional_version_weight : pyweight;
}.

(** [Alias.new(name, alias, version, additional_version,
    additional_version_weight)]. *)
Definition new (now : Z) (name alias : string) (version additional_version : pyver)
    (additional_version_weight : pyweight) : result t :=
  let version :=
    match version with
    | VNone => VStr LATEST_VERSION
    | _ => version
    end in
  let version := encode_version version in
  additional ←
    match additional_version with
    | VNone => Ok None
    | _ =>
        let additional_version := encode_version additional_version in
        if String.eqb version additional_version then Raise ValueError
        else Ok (Some additional_version)
    end;
  Ok {| pk := "__" +:+ name +:+ "-alias"; sk := alias; update_at := Some now;
        version := version; additional_version := additional;
        additional_version_weight := additional_version_weight |}.

(** ["-".join(self.pk.split("-")[:-1])[2:]] *)
Definition name (self : t) : string :=
  let joined := String.concat "-" (removelast (split "-" (pk self))) in
  String.substring 2 (String.length joined - 2) joined.

Definition alias (self : t) : string := sk self.

Definition to_item (self : t) : item :=
  {| it_update_at := update_at self; it_is_deleted := None; it_sha256 := None;
     it_version := Some (version self);
     it_secondary_version := additional_version self;
     it_secondary_version_weight := additional_version_weight self |}.

Definition save (self : t) : M unit := put_item (pk self) (sk self) (to_item self).

End Alias.

End Dynamodb.

(** ** [s3_and_dynamodb_backend.py] *)

Module Hybrid.

Record Artifact : Type := {
  name : string;
  version : string;
  update_at : option Z;
  s3uri : string;
  sha256 : option string;
}.

Record Alias : Type := {
  alias_name : string;
  alias : string;
  alias_update_at : option Z;
  alias_version : string;
  secondary_version : option string;
  secondary_version_weight : pyweight;
  version_s3uri : string;
  secondary_version_s3uri : option string;
}.

Record Repository : Type := {
  s3_bucket : string;
  s3_prefix : string;
  suffix : string;
}.

Section Repository.
Context `{Hashes} (self : Repository).

Definition uri (k : key) : string := "s3://" +:+ s3_bucket self +:+ "/" +:+ k.

Definition get_artifact_s3path (name version : string) : key :=
  s3_prefix self +:+ "/" +:+ name +:+ "/" +:+
  Dynamodb.encode_version_sk (VStr version) +:+ suffix self.

Definition _get_artifact_object (artifact : Dynamodb.Artifact.t) : Artifact :=
  {| name := Dynamodb.Artifact.name artifact;
     version := Dynamodb.Artifact.version artifact;
     update_at := Dynamodb.Artifact.update_at artifact;
     s3uri := uri (get_artifact_s3path (Dynamodb.Artifact.name artifact)
                     (Dynamodb.Artifact.version artifact));
     sha256 := Dynamodb.Artifact.sha256 artifact |}.

Definition write_artifact (name : string) (content : bytes)
    (metadata : option (gmap string string)) (artifact_sha256 : string)
    (artifact : Dynamodb.Artifact.t) (s3path : key) : M Artifact :=
  let final_metadata : gmap string string :=
    {[ "artifact_name" := name; "artifact_sha256" := artifact_sha256 ]} in
  let final_metadata :=
    match metadata with
    | Some m => m ∪ final_metadata
    | None => final_metadata
    end in
  _ ← put_object s3path (Bytes content) final_metadata;
  o ← head_object s3path;
  let artifact := Dynamodb.Artifact.set_update_at (Some (obj_last_modified o)) artifact in
  _ ← Dynamodb.Artifact.save artifact;
  mret (_get_artifact_object artifact).

Definition put_artifact (name : string) (content : bytes)
    (metadata : option (gmap string string)) : M Artifact :=
  now ← get_utc_now;
  let artifact := Dynamodb.Artifact.new now name VNone in
  let artifact_sha256 := of_bytes content in
  let artifact := Dynamodb.Artifact.set_sha256 (Some artifact_sha256) artifact in
  let s3path := get_artifact_s3path name LATEST_VERSION in
  found ← exists_object s3path;
  if found : bool then
    o ← head_object s3path;
    stored ← lift (of_option KeyError (obj_metadata o !! "artifact_sha256"));
    if String.eqb stored artifact_sha256 then
      let artifact :=
        Dynamodb.Artifact.set_update_at (Some (obj_last_modified o)) artifact in
      mret (_get_artifact_object artifact)
    else write_artifact name content metadata artifact_sha256 artifact s3path
  else write_artifact name content metadata artifact_sha256 artifact s3path.

Definition _get_artifact_dynamodb_item (name : string) (version : pyver)
    : M Dynamodb.Artifact.t :=
  let sk := Dynamodb.encode_version_sk version in
  row ← get_item name sk;
  match row with
  | None => raise ArtifactNotFoundError
  | Some i =>
      let artifact := Dynamodb.Artifact.of_item name sk i in
      if default false (Dynamodb.Artifact.is_deleted artifact)
      then raise ArtifactNotFoundError
      else mret artifact
  end.

Definition get_artifact_version (name : string) (version : pyver) : M Artifact :=
  let version :=
    match version with
    | VNone => VStr LATEST_VERSION
    | _ => version
    end in
  artifact ← _get_artifact_dynamodb_item name version;
  mret (_get_artifact_object artifact).

(** The rows a query with [filter_condition=Artifact.is_deleted == False]
    returns. *)
Definition live (row : string * item) : bool :=
  bool_decide (it_is_deleted row.2 = Some false).

Definition list_artifact_versions (name : string) : M (list Artifact) :=
  rows ← query_desc name;
  mret ((fun row => _get_artifact_object (Dynamodb.Artifact.of_item name row.1 row.2))
          <$> filter (fun row => live row = true) rows).

Definition publish_artifact_version (name : string) : M Artifact :=
  rows ← query_desc name;
  let artifacts :=
    (fun row => Dynamodb.Artifact.of_item name row.1 row.2) <$> take 2 rows in
  new_version ←
    match artifacts with
    | [] => raise ArtifactNotFoundError
    | [_] => mret (Dynamodb.encode_version (VInt 1))
    | _ :: previous :: _ =>
        n ← lift (of_option ValueError
                    (int_of_str (Dynamodb.Artifact.version previous)));
        mret (str_int (n + 1))
    end;
  let s3path_old := get_artifact_s3path name LATEST_VERSION in
  let s3path_new := get_artifact_s3path name new_version in
  _ ← copy_object s3path_old s3path_new;
  o ← head_object s3path_new;
  now ← get_utc_now;
  let artifact := Dynamodb.Artifact.new now name (VStr new_version) in
  let artifact :=
    Dynamodb.Artifact.set_sha256
      (hd_error artifacts ≫= Dynamodb.Artifact.sha256) artifact in
  let artifact :=
    Dynamodb.Artifact.set_update_at (Some (obj_last_modified o)) artifact in
  _ ← Dynamodb.Artifact.save artifact;
  mret (_get_artifact_object artifact).

Definition mark_deleted (i : item) : item :=
  {| it_update_at := it_update_at i; it_is_deleted := Some true;
     it_sha256 := it_sha256 i; it_version := it_version i;
     it_secondary_version := it_secondary_version i;
     it_secondary_version_weight := it_secondary_version_weight i |}.

Definition delete_artifact_version (name : string) (version : pyver) : M unit :=
  let version :=
    match version with
    | VNone => VStr LATEST_VERSION
    | _ => version
    end in
  now ← get_utc_now;
  let artifact := Dynamodb.Artifact.new now name version in
  update_item (Dynamodb.Artifact.pk artifact) (Dynamodb.Artifact.sk artifact)
    mark_deleted.

(** [put_alias]. After the two lookups the source calls [Alias.new] with
    the keywords [secondary_version] and [secondary_version_weight]. The
    [Alias.new] of [dynamodb.py] has no such parameters (they are
    [additional_version] and [additional_version_weight]), so the call
    raises [TypeError] before anything is saved. *)
#[using="self"] Definition put_alias (name alias : string) (version secondary_version : pyver)
    (secondary_version_weight : pyweight) : M Alias :=
  if contains "-" alias then raise ValueError
  else
    let version := Dynamodb.encode_version version in
    secondary ←
      match secondary_version with
      | VNone => mret None
      | _ =>
          let secondary_version := Dynamodb.encode_version secondary_version in
          match secondary_version_weight with
          | WInt w =>
              if negb ((0 <=? w) && (w <? 100)) then raise ValueError
              else if String.eqb version secondary_version then raise ValueError
              else mret (Some secondary_version)
          | _ => raise TypeError
          end
      end;
    _ ← _get_artifact_dynamodb_item name (VStr version);
    _ ← match secondary with
        | Some secondary_version =>
            _ ← _get_artifact_dynamodb_item name (VStr secondary_version);
            mret tt
        | None => mret tt
        end;
    raise TypeError.

(** The loop of [purge_artifact_versions]. *)
Fixpoint purge_loop (name : string) (expire : Z) (candidates : list Artifact)
    (deleted_artifact_list : list Artifact) : M (list Artifact) :=
  match candidates with
  | [] => mret deleted_artifact_list
  | artifact :: rest =>
      t ← lift (of_option TypeError (update_at artifact));
      if t <? expire then
        _ ← delete_artifact_version name (VStr (version artifact));
        purge_loop name expire rest (deleted_artifact_list ++ [artifact])%list
      else purge_loop name expire rest deleted_artifact_list
  end.

Definition purge_artifact_versions (name : string) (keep_last_n : Z)
    (purge_older_than_secs : Z) : M (Z * list Artifact) :=
  artifact_list ← list_artifact_versions name;
  purge_time ← get_utc_now;
  let expire := purge_time - purge_older_than_secs in
  deleted_artifact_list ←
    purge_loop name expire (slice_from (keep_last_n + 1) artifact_list) [];
  mret (purge_time, deleted_artifact_list).

Definition s3dir_artifact_store : key := s3_prefix self +:+ "/".

Definition purge_artifact (name : string) : M unit :=
  let s3path := get_artifact_s3path name LATEST_VERSION in
  let s3dir := parent s3path in
  _ ← delete_dir s3dir;
  artifacts ← query_asc name;
  _ ← batch_delete ((fun row => (name, row.1)) <$> artifacts);
  aliases ← query_asc (Dynamodb.encode_alias_pk name);
  batch_delete ((fun row => (Dynamodb.encode_alias_pk name, row.1)) <$> aliases).

Definition purge_all : M unit :=
  _ ← delete_dir s3dir_artifact_store;
  items ← scan;
  batch_delete (fst <$> items).

End Repository.

End Hybrid.

(** ** [core.py] *)

Module Core.

Record Artifact : Type := {
  name : string;
  version : string;
  update_at : option Z;
  s3uri : string;
  sha256 : option string;
}.

Record Repository : Type := {
  s3_bucket : string;
  s3_prefix : string;
}.

Section Repository.
Context `{Hashes} (self : Repository).

Definition _get_s3path (name version : string) : key :=
  s3_prefix self +:+ "/" +:+ name +:+ "/" +:+ Dynamodb.encode_version (VStr version).

Definition _get_artifact_object (artifact : Dynamodb.Artifact.t) : Artifact :=
  {| name := Dynamodb.Artifact.name artifact;
     version := Dynamodb.Artifact.version artifact;
     update_at := Dynamodb.Artifact.update_at artifact;
     s3uri := "s3://" +:+ s3_bucket self +:+ "/" +:+
              _get_s3path (Dynamodb.Artifact.name artifact)
                (Dynamodb.Artifact.version artifact);
     sha256 := Dynamodb.Artifact.sha256 artifact |}.

Definition write_artifact (name : string) (content : bytes)
    (metadata : option (gmap string string)) (artifact_sha256 : string)
    (artifact : Dynamodb.Artifact.t) (s3path : key) : M Artifact :=
  let final_metadata : gmap string string :=
    {[ "artifact_name" := name; "artifact_sha256" := artifact_sha256 ]} in
  let final_metadata :=
    match metadata with
    | Some m => m ∪ final_metadata
    | None => final_metadata
    end in
  _ ← put_object s3path (Bytes content) final_metadata;
  _ ← Dynamodb.Artifact.save artifact;
  mret (_get_artifact_object artifact).

Definition put_artifact (name : string) (content : bytes)
    (metadata : option (gmap string string)) : M Artifact :=
  now ← get_utc_now;
  let artifact := Dynamodb.Artifact.new now name VNone in
  let artifact_sha256 := of_bytes content in
  let artifact := Dynamodb.Artifact.set_sha256 (Some artifact_sha256) artifact in
  let s3path := _get_s3path name LATEST_VERSION in
  found ← exists_object s3path;
  if found : bool then
    o ← head_object s3path;
    stored ← lift (of_option KeyError (obj_metadata o !! "artifact_sha256"));
    if String.eqb stored artifact_sha256 then mret (_get_artifact_object artifact)
    else write_artifact name content metadata artifact_sha256 artifact s3path
  else write_artifact name content metadata artifact_sha256 artifact s3path.

Definition publish_artifact_version (name : string) : M Artifact :=
  rows ← query_desc name;
  let artifacts :=
    (fun row => Dynamodb.Artifact.of_item name row.1 row.2) <$> take 2 rows in
  new_version ←
    match artifacts with
    | [] => raise ArtifactNotFoundError
    | [_] => mret "1"
    | _ :: previous :: _ =>
        n ← lift (of_option ValueError
                    (int_of_str (Dynamodb.Artifact.version previous)));
        mret (str_int (n + 1))
    end;
  now ← get_utc_now;
  let artifact := Dynamodb.Artifact.new now name (VStr new_version) in
  let artifact :=
    Dynamodb.Artifact.set_sha256
      (hd_error artifacts ≫= Dynamodb.Artifact.sha256) artifact in
  _ ← Dynamodb.Artifact.save artifact;
  let s3path_old := _get_s3path name LATEST_VERSION in
  let s3path_new := _get_s3path name new_version in
  _ ← copy_object s3path_old s3path_new;
  mret (_get_artifact_object artifact).

Definition _get_artifact_dynamodb_item (name : string) (version : pyver)
    : M Dynamodb.Artifact.t :=
  let sk := Dynamodb.encode_version version in
  row ← get_item name sk;
  match row with
  | None => raise ArtifactNotFoundError
  | Some i =>
      let artifact := Dynamodb.Artifact.of_item name sk i in
      if default false (Dynamodb.Artifact.is_deleted artifact)
      then raise ArtifactNotFoundError
      else mret artifact
  end.

Definition get_artifact_version (name : string) (version : pyver) : M Artifact :=
  let version :=
    match version with
    | VNone => VStr LATEST_VERSION
    | _ => version
    end in
  artifact ← _get_artifact_dynamodb_item name version;
  mret (_get_artifact_object artifact).

Definition list_artifact_versions (name : string) : M (list Artifact) :=
  rows ← query_desc name;
  mret ((fun row => _get_artifact_object (Dynamodb.Artifact.of_item name row.1 row.2))
          <$> filter (fun row => Hybrid.live row = true) rows).

Definition delete_artifact_version (name : string) (version : pyver) : M unit :=
  let version :=
    match version with
    | VNone => VStr LATEST_VERSION
    | _ => version
    end in
  now ← get_utc_now;
  let artifact := Dynamodb.Artifact.new now name version in
  update_item (Dynamodb.Artifact.pk artifact) (Dynamodb.Artifact.sk artifact)
    Hybrid.mark_deleted.

End Repository.

End Core.

(** ** Vocabulary of the statements *)

Module Spec.

(** [s] is a non-empty string of decimal digits. *)
Fixpoint all_digits (s : string) : bool :=
  match s with
  | EmptyString => true
  | String c s' => bool_decide (is_Some (digit_val c)) && all_digits s'
  end.

Definition numeric (s : string) : bool :=
  negb (String.eqb s "") && all_digits s.

(** The numeral of exactly [w] decimal digits for [n], as the spec's
    "zero-padded decimal of fixed width". *)
Fixpoint decimal (w : nat) (n : Z) : string :=
  match w with
  | O => ""
  | S w' => decimal w' (n / 10) +:+ String (digit_char (n mod 10)) ""
  end.

(** The version inputs of the data model: [None], the sentinel, a positive
    integer that fits the padding width, or a numeric string (possibly
    already zero-padded) of at most that width. *)
Definition valid_version (v : pyver) : bool :=
  match v with
  | VNone => true
  | VInt n => (1 <=? n) && (n <? 10 ^ Z.of_nat VERSION_ZFILL)
  | VStr s =>
      String.eqb s LATEST_VERSION
      || (numeric s && bool_decide (String.length s ≤ VERSION_ZFILL)%nat)
  end.

(** The canonical unpadded form of a version. *)
Definition canonical (v : pyver) : string :=
  match v with
  | VNone => LATEST_VERSION
  | VInt n => str_int n
  | VStr s =>
      match int_of_str s with
      | Some n => str_int n
      | None => s
      end
  end.

(** A version string whose digits are all zero. *)
Definition all_zero (v : pyver) : bool :=
  match v with
  | VStr s => numeric s && String.eqb (lstrip0 s) ""
  | _ => false
  end.

(** Strict lexicographic order of keys, the order of an object listing. *)
Definition key_lt (a b : string) : Prop := (a ?= b)%string = Lt.

(** The key of the [LATEST] object of an artifact in the object-store-only
    backend. *)
Definition s3only_latest_key (self : S3Only.Repository) (name : string) : key :=
  S3Only._get_artifact_s3dir self name +:+ "versions/" +:+ "000000_LATEST"
    +:+ S3Only.suffix self.

(** The key of the numbered version [m] in the object-store-only backend. *)
Definition s3only_version_key (self : S3Only.Repository) (name : string) (m : Z)
    : key :=
  S3Only._get_artifact_s3dir self name +:+ "versions/"
    +:+ (zfill VERSION_ZFILL (str_int (10 ^ Z.of_nat VERSION_ZFILL - m))
           +:+ "_" +:+ zfill VERSION_ZFILL (str_int m))
    +:+ S3Only.suffix self.

(** The key and the sort key of the numbered version [m] in the hybrid
    backend. *)
Definition hybrid_version_key (self : Hybrid.Repository) (name : string) (m : Z)
    : key :=
  Hybrid.get_artifact_s3path self name (str_int m).

Definition hybrid_sort_key (m : Z) : string := Dynamodb.encode_version (VInt m).

(** The version an operation works on when called with [None]. *)
Definition or_latest (version : pyver) : pyver :=
  match version with
  | VNone => VStr LATEST_VERSION
  | _ => version
  end.

#[global] Instance pyver_eq_dec : EqDecision pyver.
Proof. solve_decision. Defined.

(** The requests [put_alias] refuses before it reads or writes anything: a
    hyphen in the alias name, or, when a secondary version is given, a
    weight that is not an integer or not in [0, 100), or a primary version
    with the rendering of the secondary one. [encode] is the rendering the
    backend compares. *)
Definition refused_alias_request (encode : pyver -> string) (alias : string)
    (version secondary_version : pyver) (secondary_version_weight : pyweight)
    : Prop :=
  contains "-" alias = true \/
  (secondary_version <> VNone /\
   (match secondary_version_weight with
    | WInt z => ~ (0 <= z < 100)
    | _ => True
    end \/
    encode version = encode secondary_version)).

(** The exceptions a failed validation raises. *)
Definition validation_error (e : exn) : Prop := e = ValueError \/ e = TypeError.

(** The live versions of an artifact as [list_artifact_versions] returns
    them: the rows of the partition that are not flagged, by descending sort
    key. *)
Definition live_versions (self : Hybrid.Repository) (name : string) (w : world)
    : list Hybrid.Artifact :=
  (fun row => Hybrid._get_artifact_object self
                (Dynamodb.Artifact.of_item name row.1 row.2))
    <$> filter (fun row => Hybrid.live row = true) (partition_desc name (table w)).

(** A record last updated strictly before [expire]. *)
Definition older (expire : Z) (a : Hybrid.Artifact) : bool :=
  match Hybrid.update_at a with
  | Some t => t <? expire
  | None => false
  end.

(** The row [delete_artifact_version] addresses for a listed record, and
    the world after flagging it. *)
Definition row_of (name : string) (a : Hybrid.Artifact) : string * string :=
  (name, Dynamodb.encode_version (VStr (Hybrid.version a))).

Definition flag (name : string) (w : world) (a : Hybrid.Artifact) : world :=
  log (DdbUpdateItem (row_of name a).1 (row_of name a).2)
    (set_table
       (<[row_of name a := Hybrid.mark_deleted
                             (default empty_item (table w !! row_of name a))]>
          (table w)) w).

(** Caller metadata that leaves the reserved hash entry alone. *)
Definition keeps_hash (metadata : option (gmap string string)) : Prop :=
  match metadata with
  | Some m => m !! "artifact_sha256" = None
  | None => True
  end.

(** The metadata [put_artifact] stores with the object. *)
Definition final_metadata (name artifact_sha256 : string)
    (metadata : option (gmap string string)) : gmap string string :=
  match metadata with
  | Some m => m ∪ {[ "artifact_name" := name; "artifact_sha256" := artifact_sha256 ]}
  | None => {[ "artifact_name" := name; "artifact_sha256" := artifact_sha256 ]}
  end.

(** The index row [Artifact.save()] writes for a live artifact. *)
Definition artifact_item (update_at : Z) (sha256 : option string) : item :=
  {| it_update_at := Some update_at; it_is_deleted := Some false;
     it_sha256 := sha256; it_version := None; it_secondary_version := None;
     it_secondary_version_weight := WNone |}.

(** The JSON document [put_alias] stores for the alias it returns; the
    stored time is a placeholder. *)
Definition alias_document_of (a : S3Only.Alias) : alias_document :=
  {| doc_name := S3Only.alias_name a;
     doc_alias := S3Only.alias a;
     doc_update_at := "unknown";
     doc_version := S3Only.alias_version a;
     doc_secondary_version := S3Only.secondary_version a;
     doc_secondary_version_weight := S3Only.secondary_version_weight a;
     doc_version_s3uri := S3Only.version_s3uri a;
     doc_secondary_version_s3uri := S3Only.secondary_version_s3uri a |}.

(** The world after [put_alias] stored the document of [a] at key [k]. *)
Definition with_alias `{Hashes} (k : key) (a : S3Only.Alias) (w : world) : world :=
  log (S3PutObject k)
    (set_s3 (<[k := stored (Json (alias_document_of a)) ∅ (clock w)]> (s3 w)) w).

End Spec.

Export Spec.

(** ** Concrete runs

    A small repository and the worlds a short session produces. They are
    used to evaluate the operations on explicit inputs. *)

Module Scenario.

(** Transparent stand-ins for the external hash functions: the digest of a
    body is the body itself under a tag, so distinct bodies have distinct
    digests. *)
Definition hashes : Hashes :=
  {| of_bytes := fun b => "sha256:" +:+ string_of_list_byte b;
     etag_of := fun b =>
       match b with
       | Bytes b => "md5:" +:+ string_of_list_byte b
       | Json d => "md5:" +:+ doc_alias d
       end |}.

Definition s3repo : S3Only.Repository :=
  {| S3Only.s3_bucket := "bucket"; S3Only.s3_prefix := "versioned";
     S3Only.suffix := "" |}.

Definition hrepo : Hybrid.Repository :=
  {| Hybrid.s3_bucket := "bucket"; Hybrid.s3_prefix := "versioned";
     Hybrid.suffix := "" |}.

Definition crepo : Core.Repository :=
  {| Core.s3_bucket := "bucket"; Core.s3_prefix := "versioned" |}.

Definition v1 : bytes := list_byte_of_string "v1".
Definition v2 : bytes := list_byte_of_string "v2".
Definition v3 : bytes := list_byte_of_string "v3".

Definition empty : world := {| s3 := ∅; table := ∅; clock := 0; trace := [] |}.

(** The world after a call; one unit of time passes before the next. *)
Definition step {A} (m : M A) (w : world) : world := advance 1 (m w).2.

(** Object-store-only backend: put, publish, put, publish, delete the most
    recent numbered version, put. *)
Definition s1 : world := step (S3Only.put_artifact (H := hashes) s3repo "app" v1 None) empty.
Definition s2 : world := step (S3Only.publish_artifact_version s3repo "app") s1.
Definition s3 : world := step (S3Only.put_artifact (H := hashes) s3repo "app" v2 None) s2.
Definition s4 : world := step (S3Only.publish_artifact_version s3repo "app") s3.
Definition s5 : world := step (S3Only.delete_artifact_version s3repo "app" (VInt 2)) s4.
Definition s6 : world := step (S3Only.put_artifact (H := hashes) s3repo "app" v3 None) s5.

(** Hybrid backend: the same session. *)
Definition h1 : world := step (Hybrid.put_artifact (H := hashes) hrepo "app" v1 None) empty.
Definition h2 : world := step (Hybrid.publish_artifact_version hrepo "app") h1.
Definition h3 : world := step (Hybrid.put_artifact (H := hashes) hrepo "app" v2 None) h2.
Definition h4 : world := step (Hybrid.publish_artifact_version hrepo "app") h3.
Definition h5 : world := step (Hybrid.delete_artifact_version "app" (VInt 2)) h4.
Definition h6 : world := step (Hybrid.put_artifact (H := hashes) hrepo "app" v3 None) h5.

(** [core.py]: put, then publish. *)
Definition c1 : world := step (Core.put_artifact (H := hashes) crepo "app" v1 None) empty.

End Scenario.

(** * Facts about the Python primitives *)

#[local] Arguments String.append !_ _ / : simpl nomatch.

Section StringFacts.

Lemma append_assoc (a b c : string) : (a +:+ b) +:+ c = a +:+ (b +:+ c).
Proof. induction a as [|x a IH]; simpl; [done|]. by f_equal. Qed.

Lemma append_nil_r (a : string) : a +:+ "" = a.
Proof. induction a as [|x a IH]; simpl; [done|]. by f_equal. Qed.

Lemma length_append (a b : string) :
  String.length (a +:+ b) = (String.length a + String.length b)%nat.
Proof. induction a as [|x a IH]; simpl; [done|]. by f_equal. Qed.

Lemma length_zeros (k : nat) : String.length (zeros k) = k.
Proof. induction k; simpl; congruence. Qed.

Lemma zeros_add (j k : nat) : zeros (j + k) = zeros j +:+ zeros k.
Proof. induction j; simpl; congruence. Qed.

Lemma zeros_snoc (k : nat) : zeros k +:+ "0" = zeros (S k).
Proof. induction k; simpl; [done|]. by f_equal. Qed.

Lemma lstrip0_zeros_app (k : nat) (s : string) : lstrip0 (zeros k +:+ s) = lstrip0 s.
Proof. induction k; simpl; done. Qed.

Lemma compare_refl (s : string) : (s ?= s)%string = Eq.
Proof.
  induction s as [|c s IH]; simpl; [done|].
  unfold Ascii.compare. by rewrite N.compare_refl.
Qed.

Lemma compare_app_same (p a b : string) :
  (p +:+ a ?= p +:+ b)%string = (a ?= b)%string.
Proof.
  induction p as [|c p IH]; simpl; [done|].
  unfold Ascii.compare. by rewrite N.compare_refl.
Qed.

Lemma compare_app_lt (a b x y : string) :
  String.length a = String.length b ->
  (a ?= b)%string = Lt -> (a +:+ x ?= b +:+ y)%string = Lt.
Proof.
  revert b. induction a as [|c a IH]; intros [|d b] Hlen Hlt; simplify_eq/=.
  destruct (Ascii.compare c d); [eauto|done|done].
Qed.

Lemma prefix_app (p s : string) : String.prefix p (p +:+ s) = true.
Proof.
  induction p as [|c p IH]; simpl; [by destruct s|].
  destruct (ascii_dec c c); [done|congruence].
Qed.

Lemma prefix_same_length (p s t : string) :
  String.length p = String.length s ->
  String.prefix p (s +:+ t) = bool_decide (p = s).
Proof.
  revert s. induction p as [|c p IH]; intros [|d s] Hlen; simplify_eq/=.
  - by destruct t.
  - destruct (ascii_dec c d) as [->|Hne].
    + rewrite IH by done. apply bool_decide_ext. naive_solver.
    + symmetry. apply bool_decide_eq_false. congruence.
Qed.

End StringFacts.

Section DecimalFacts.

Local Ltac digit_cases d :=
  let n := fresh "n" in
  let Hn := fresh "Hn" in
  assert (exists n, d = Z.of_nat n /\ (n < 10)%nat) as (n & -> & Hn)
    by (exists (Z.to_nat d); lia);
  do 10 (destruct n as [|n]; [try reflexivity|]); try lia.

Lemma digit_val_digit_char (d : Z) :
  0 <= d < 10 -> digit_val (digit_char d) = Some d.
Proof. intros Hd. digit_cases d. Qed.

Lemma digit_char_digit_val (c : ascii) (d : Z) :
  digit_val c = Some d -> 0 <= d < 10 /\ digit_char d = c.
Proof.
  destruct c as [[] [] [] [] [] [] [] []]; intros Hc; vm_compute in Hc;
    try discriminate Hc; injection Hc as <-; (split; [lia|reflexivity]).
Qed.

Lemma is_sign_digit_char (d : Z) : 0 <= d < 10 -> is_sign (digit_char d) = false.
Proof. intros Hd. digit_cases d. Qed.

Lemma digit_char_eqb_zero (d : Z) :
  0 <= d < 10 -> Ascii.eqb (digit_char d) "0" = bool_decide (d = 0).
Proof. intros Hd. digit_cases d. Qed.

Lemma digit_char_not_sep (d : Z) (c : ascii) :
  0 <= d < 10 -> digit_val c = None -> Ascii.eqb (digit_char d) c = false.
Proof.
  intros Hd Hc. apply Ascii.eqb_neq. intros <-.
  by rewrite digit_val_digit_char in Hc.
Qed.

(** *** [str] of a non-negative integer *)

Lemma str_digits_fuel (f g : nat) (n : Z) :
  0 <= n < 2 ^ Z.of_nat f -> (1 <= f <= g)%nat ->
  str_digits g n = str_digits f n.
Proof.
  revert g n. induction f as [|f IH]; intros g n Hn Hfg; [lia|].
  destruct g as [|g]; [lia|]. simpl.
  destruct (Z.ltb_spec n 10) as [|Hge]; [done|].
  f_equal. rewrite Nat2Z.inj_succ, Z.pow_succ_r in Hn by lia.
  assert (0 <= n / 10 < 2 ^ Z.of_nat f).
  { split; [apply Z.div_pos; lia|].
    apply Z.div_lt_upper_bound; lia. }
  assert (1 <= f)%nat.
  { destruct f; [|lia]. simpl in *. lia. }
  apply IH; [done|lia].
Qed.

Lemma str_nonneg_unfold (n : Z) :
  0 <= n ->
  str_nonneg n =
    if n <? 10 then String (digit_char n) ""
    else str_nonneg (n / 10) +:+ String (digit_char (n mod 10)) "".
Proof.
  intros Hn. unfold str_nonneg at 1. simpl.
  destruct (Z.ltb_spec n 10) as [|Hge]; [done|]. f_equal.
  assert (0 < n / 10) by (apply Z.div_str_pos; lia).
  pose proof (Z.log2_spec n ltac:(lia)) as [Hlo Hhi].
  rewrite Z.pow_succ_r in Hhi by apply Z.log2_nonneg.
  assert (n / 10 < 2 ^ Z.log2 n) by (apply Z.div_lt_upper_bound; lia).
  assert (Z.log2 (n / 10) < Z.log2 n) by (apply Z.log2_lt_pow2; lia).
  pose proof (Z.log2_nonneg (n / 10)).
  unfold str_nonneg. apply str_digits_fuel; [|lia].
  rewrite Nat2Z.inj_succ, Z2Nat.id by lia.
  pose proof (Z.log2_spec (n / 10) ltac:(lia)). lia.
Qed.

Lemma str_nonneg_ind (P : Z -> Prop) :
  (forall n, 0 <= n < 10 -> P n) ->
  (forall n, 10 <= n -> P (n / 10) -> P n) ->
  forall n, 0 <= n -> P n.
Proof.
  intros Hsmall Hbig n.
  induction n as [n IH] using (well_founded_induction (Z.lt_wf 0)). intros Hn.
  destruct (Z_lt_le_dec n 10); [apply Hsmall; lia|].
  apply Hbig; [done|]. apply IH.
  - split; [apply Z.div_pos; lia|apply Z.div_lt; lia].
  - apply Z.div_pos; lia.
Qed.

End DecimalFacts.

Section NumeralFacts.

Lemma digit_not_sign (c : ascii) (d : Z) :
  digit_val c = Some d ->
  Ascii.eqb c "-" = false /\ Ascii.eqb c "+" = false /\ is_sign c = false /\
  Ascii.eqb c "_" = false /\ Ascii.eqb c "L" = false.
Proof.
  destruct c as [[] [] [] [] [] [] [] []]; intros Hc; vm_compute in Hc;
    try discriminate Hc; repeat split; reflexivity.
Qed.

Lemma all_digits_app (a b : string) :
  all_digits (a +:+ b) = all_digits a && all_digits b.
Proof.
  induction a as [|c a IH]; simpl; [done|]. rewrite IH. by rewrite andb_assoc.
Qed.

Lemma all_digits_zeros (k : nat) : all_digits (zeros k) = true.
Proof. induction k; simpl; [done|]. by rewrite IHk. Qed.

Lemma all_digits_digit (d : Z) :
  0 <= d < 10 -> all_digits (String (digit_char d) "") = true.
Proof.
  intros Hd. simpl. rewrite digit_val_digit_char by done.
  rewrite andb_true_r. by apply bool_decide_eq_true.
Qed.

Lemma all_digits_str_nonneg (n : Z) : 0 <= n -> all_digits (str_nonneg n) = true.
Proof.
  intros Hn. pattern n; apply str_nonneg_ind;
    [clear n Hn; intros n Hs|clear n Hn; intros n Hb IH|done];
    rewrite str_nonneg_unfold by lia.
  - destruct (Z.ltb_spec n 10); [|lia]. by apply all_digits_digit.
  - destruct (Z.ltb_spec n 10); [lia|].
    rewrite all_digits_app, IH, all_digits_digit; [done|].
    apply Z.mod_pos_bound; lia.
Qed.

(** The first character of [str(n)] is a digit, and not ['0'] for [n > 0]. *)
Lemma str_nonneg_head (n : Z) :
  0 <= n ->
  exists c s d, str_nonneg n = String c s /\ digit_val c = Some d /\
                (0 < n -> d <> 0).
Proof.
  intros Hn. pattern n; apply str_nonneg_ind;
    [clear n Hn; intros n Hs|clear n Hn; intros n Hb IH|done];
    rewrite str_nonneg_unfold by lia.
  - destruct (Z.ltb_spec n 10); [|lia].
    exists (digit_char n), "", n. rewrite digit_val_digit_char by done.
    split_and!; [done..|lia].
  - destruct (Z.ltb_spec n 10); [lia|].
    destruct IH as (c & s & d & -> & Hc & Hd).
    exists c, (s +:+ String (digit_char (n mod 10)) ""), d.
    split_and!; [done..|]. intros _. apply Hd. apply Z.div_str_pos; lia.
Qed.

Lemma str_nonneg_nonempty (n : Z) : 0 <= n -> str_nonneg n <> "".
Proof. intros Hn. destruct (str_nonneg_head n Hn) as (c & s & d & -> & _). done. Qed.

Lemma lstrip0_str_nonneg (n : Z) : 0 < n -> lstrip0 (str_nonneg n) = str_nonneg n.
Proof.
  intros Hn. destruct (str_nonneg_head n) as (c & s & d & Hs & Hc & Hd); [lia|].
  rewrite Hs. simpl. apply digit_char_digit_val in Hc as [Hr <-].
  rewrite digit_char_eqb_zero by done.
  rewrite bool_decide_eq_false_2; [done|]. by apply Hd.
Qed.

Lemma parse_digits_app (acc : Z) (a b : string) :
  parse_digits acc (a +:+ b) = parse_digits acc a ≫= fun x => parse_digits x b.
Proof.
  revert acc. induction a as [|c a IH]; intros acc; simpl; [done|].
  destruct (digit_val c); [apply IH|done].
Qed.

Lemma parse_digits_zeros (k : nat) (s : string) :
  parse_digits 0 (zeros k +:+ s) = parse_digits 0 s.
Proof. induction k; simpl; done. Qed.

Lemma parse_digits_str_nonneg (n : Z) :
  0 <= n -> parse_digits 0 (str_nonneg n) = Some n.
Proof.
  intros Hn. pattern n; apply str_nonneg_ind;
    [clear n Hn; intros n Hs|clear n Hn; intros n Hb IH|done];
    rewrite str_nonneg_unfold by lia.
  - destruct (Z.ltb_spec n 10); [|lia]. simpl.
    rewrite digit_val_digit_char by done. f_equal; lia.
  - destruct (Z.ltb_spec n 10); [lia|].
    rewrite parse_digits_app, IH. simpl.
    rewrite digit_val_digit_char by (apply Z.mod_pos_bound; lia).
    pose proof (Z.div_mod n 10). f_equal; lia.
Qed.

(** [int] reads a string that starts with a digit as its digits. *)
Lemma int_of_str_digit_head (c : ascii) (s : string) (d : Z) :
  digit_val c = Some d -> int_of_str (String c s) = parse_digits 0 (String c s).
Proof.
  intros Hc. destruct (digit_not_sign c d Hc) as (Hm & Hp & _).
  unfold int_of_str. by rewrite Hm, Hp.
Qed.

Lemma int_of_str_str_nonneg (n : Z) : 0 <= n -> int_of_str (str_nonneg n) = Some n.
Proof.
  intros Hn. destruct (str_nonneg_head n Hn) as (c & s & d & Hs & Hc & _).
  rewrite <-(parse_digits_str_nonneg n Hn), Hs. by eapply int_of_str_digit_head.
Qed.

Lemma int_of_str_str_int (z : Z) : int_of_str (str_int z) = Some z.
Proof.
  unfold str_int. destruct (Z.ltb_spec z 0) as [Hneg|Hpos].
  - destruct (str_nonneg_head (- z)) as (c & s & d & Hs & Hc & _); [lia|].
    cbn [int_of_str]. rewrite Ascii.eqb_refl, Hs, <-Hs.
    rewrite parse_digits_str_nonneg by lia. simpl. f_equal. lia.
  - by apply int_of_str_str_nonneg.
Qed.

Lemma str_int_not_latest (z : Z) : String.eqb (str_int z) LATEST_VERSION = false.
Proof.
  apply String.eqb_neq. unfold str_int.
  destruct (Z.ltb_spec z 0) as [Hneg|Hpos]; [done|].
  destruct (str_nonneg_head z Hpos) as (c & s & d & -> & Hc & _).
  destruct (digit_not_sign c d Hc) as (_ & _ & _ & _ & HL).
  apply Ascii.eqb_neq in HL. intros [= ? ?]. done.
Qed.

End NumeralFacts.

Section FixedWidthFacts.

Lemma length_decimal (w : nat) (n : Z) : String.length (decimal w n) = w.
Proof.
  revert n. induction w as [|w IH]; intros n; simpl; [done|].
  rewrite length_append, IH. simpl. lia.
Qed.

Lemma decimal_zero (w : nat) : decimal w 0 = zeros w.
Proof.
  induction w as [|w IH]; simpl; [done|].
  change (0 `div` 10) with 0. rewrite IH. apply zeros_snoc.
Qed.

Lemma all_digits_decimal (w : nat) (n : Z) : all_digits (decimal w n) = true.
Proof.
  revert n. induction w as [|w IH]; intros n; simpl; [done|].
  rewrite all_digits_app, IH, all_digits_digit; [done|].
  apply Z.mod_pos_bound; lia.
Qed.

Lemma parse_digits_decimal (w : nat) (n : Z) :
  0 <= n < 10 ^ Z.of_nat w -> parse_digits 0 (decimal w n) = Some n.
Proof.
  revert n. induction w as [|w IH]; intros n Hn; simpl.
  - f_equal. simpl in Hn. lia.
  - rewrite Nat2Z.inj_succ, Z.pow_succ_r in Hn by lia.
    rewrite parse_digits_app, IH.
    + simpl. rewrite digit_val_digit_char by (apply Z.mod_pos_bound; lia).
      pose proof (Z.div_mod n 10). f_equal; lia.
    + split; [apply Z.div_pos; lia|apply Z.div_lt_upper_bound; lia].
Qed.

(** A fixed-width numeral is [str] padded with zeros on the left. *)
Lemma decimal_str_nonneg (w : nat) (n : Z) :
  (1 <= w)%nat -> 0 <= n < 10 ^ Z.of_nat w ->
  (String.length (str_nonneg n) <= w)%nat /\
  decimal w n = zeros (w - String.length (str_nonneg n)) +:+ str_nonneg n.
Proof.
  revert n. induction w as [|w IH]; intros n Hw Hn; [lia|].
  rewrite Nat2Z.inj_succ, Z.pow_succ_r in Hn by lia.
  rewrite str_nonneg_unfold by lia. simpl decimal.
  destruct (Z.ltb_spec n 10) as [Hlt|Hge].
  - rewrite Z.div_small, Z.mod_small, decimal_zero by lia.
    simpl. split; [lia|]. by rewrite Nat.sub_0_r.
  - assert (1 <= w)%nat.
    { destruct w; [|lia]. simpl in Hn. lia. }
    destruct (IH (n / 10)) as [Hlen Heq]; [done| |].
    { split; [apply Z.div_pos; lia|apply Z.div_lt_upper_bound; lia]. }
    rewrite length_append. simpl String.length. split; [lia|].
    rewrite Heq, append_assoc. do 2 f_equal. lia.
Qed.

(** [zfill] on a string that does not start with a sign. *)
Lemma zfill_unsigned (w : nat) (c : ascii) (s : string) :
  is_sign c = false ->
  zfill w (String c s) = zeros (w - String.length (String c s)) +:+ String c s.
Proof. intros Hc. unfold zfill. by rewrite Hc. Qed.

Lemma zfill_digits (w : nat) (s : string) :
  all_digits s = true -> zfill w s = zeros (w - String.length s) +:+ s.
Proof.
  destruct s as [|c s]; intros Hs; [by rewrite append_nil_r|].
  apply zfill_unsigned. simpl in Hs. apply andb_true_iff in Hs as [Hc _].
  apply bool_decide_eq_true in Hc as [d Hc].
  by destruct (digit_not_sign c d Hc) as (_ & _ & ? & _).
Qed.

Lemma zfill_str_nonneg (w : nat) (n : Z) :
  (1 <= w)%nat -> 0 <= n < 10 ^ Z.of_nat w ->
  zfill w (str_nonneg n) = decimal w n.
Proof.
  intros Hw Hn. destruct (decimal_str_nonneg w n Hw Hn) as [_ ->].
  apply zfill_digits, all_digits_str_nonneg. lia.
Qed.

Lemma lstrip0_zfill_str_nonneg (w : nat) (n : Z) :
  0 < n -> lstrip0 (zfill w (str_nonneg n)) = str_nonneg n.
Proof.
  intros Hn. rewrite zfill_digits by (apply all_digits_str_nonneg; lia).
  rewrite lstrip0_zeros_app. by apply lstrip0_str_nonneg.
Qed.

Lemma digit_char_compare (a b : Z) :
  0 <= a < 10 -> 0 <= b < 10 -> a < b ->
  Ascii.compare (digit_char a) (digit_char b) = Lt.
Proof.
  intros Ha Hb Hab. unfold Ascii.compare, digit_char.
  rewrite !N_ascii_embedding by lia. apply N.compare_lt_iff. lia.
Qed.

(** On numerals of one width the order of the keys is the order of the
    numbers. *)
Lemma decimal_lt (w : nat) (a b : Z) :
  0 <= a -> a < b -> b < 10 ^ Z.of_nat w ->
  (decimal w a ?= decimal w b)%string = Lt.
Proof.
  revert a b. induction w as [|w IH]; intros a b Ha Hab Hb.
  { simpl in Hb. lia. }
  rewrite Nat2Z.inj_succ, Z.pow_succ_r in Hb by lia. simpl.
  pose proof (Z.div_mod a 10). pose proof (Z.div_mod b 10).
  pose proof (Z.mod_pos_bound a 10). pose proof (Z.mod_pos_bound b 10).
  destruct (decide (a / 10 = b / 10)) as [Heq|Hne].
  - rewrite Heq, compare_app_same. simpl.
    rewrite digit_char_compare; [done|lia..].
  - apply compare_app_lt.
    + by rewrite !length_decimal.
    + apply IH.
      * apply Z.div_pos; lia.
      * assert (a / 10 <= b / 10) by (apply Z.div_le_mono; lia). lia.
      * apply Z.div_lt_upper_bound; lia.
Qed.

Lemma decimal_ne_zeros (w : nat) (n : Z) :
  0 < n -> n < 10 ^ Z.of_nat w -> decimal w n <> zeros w.
Proof.
  intros Hn Hw Heq. rewrite <-decimal_zero in Heq.
  pose proof (decimal_lt w 0 n ltac:(lia) Hn Hw) as Hlt.
  by rewrite Heq, compare_refl in Hlt.
Qed.

(** *** Digit strings *)

Lemma str_nonneg_snoc (acc d : Z) :
  0 < acc -> 0 <= d < 10 ->
  str_nonneg (10 * acc + d) = str_nonneg acc +:+ String (digit_char d) "".
Proof.
  intros Hacc Hd. rewrite str_nonneg_unfold by lia.
  destruct (Z.ltb_spec (10 * acc + d) 10); [lia|].
  replace ((10 * acc + d) / 10) with acc by (apply Z.div_unique with d; lia).
  replace ((10 * acc + d) mod 10) with d by (apply Z.mod_unique with acc; lia).
  done.
Qed.

Lemma parse_digits_positive (acc : Z) (s : string) :
  0 < acc -> all_digits s = true ->
  exists n, parse_digits acc s = Some n /\ (0 < n) /\
            (str_nonneg n = str_nonneg acc +:+ s).
Proof.
  revert acc. induction s as [|c s IH]; intros acc Hacc Hs; simpl.
  { exists acc. by rewrite append_nil_r. }
  simpl in Hs. apply andb_true_iff in Hs as [Hc Hs].
  apply bool_decide_eq_true in Hc as [d Hc]. rewrite Hc.
  pose proof (digit_char_digit_val c d Hc) as [Hd Hcd].
  destruct (IH (10 * acc + d)) as (n & Hn & Hpos & Hstr); [lia|done|].
  exists n. split_and!; [done..|].
  rewrite Hstr, str_nonneg_snoc, append_assoc by lia. simpl. by rewrite Hcd.
Qed.

(** A digit string reads as a number whose [str] is the string without its
    leading zeros (nothing is left of an all-zero string). *)
Lemma parse_digits_canonical (s : string) :
  all_digits s = true ->
  exists n, parse_digits 0 s = Some n /\ (0 <= n) /\
            (n = 0 -> lstrip0 s = "") /\
            (0 < n -> lstrip0 s = str_nonneg n).
Proof.
  induction s as [|c s IH]; intros Hs; simpl.
  { exists 0. split_and!; [done..|lia]. }
  simpl in Hs. apply andb_true_iff in Hs as [Hc Hs].
  apply bool_decide_eq_true in Hc as [d Hc]. rewrite Hc.
  pose proof (digit_char_digit_val c d Hc) as [Hd Hcd].
  rewrite <-Hcd, digit_char_eqb_zero by done.
  destruct (decide (d = 0)) as [->|Hne].
  - rewrite bool_decide_eq_true_2 by done. simpl. by apply IH.
  - rewrite bool_decide_eq_false_2 by done.
    destruct (parse_digits_positive (10 * 0 + d) s) as (n & Hn & Hpos & Hstr);
      [lia|done|].
    exists n. split_and!; [done|lia|lia|]. intros _. rewrite Hstr.
    replace (10 * 0 + d) with d by lia.
    rewrite (str_nonneg_unfold d) by lia.
    destruct (Z.ltb_spec d 10); [done|lia].
Qed.

End FixedWidthFacts.

(** * The key/version codec *)

Section CodecFacts.

Lemma split_digits (sep : ascii) (s : string) :
  digit_val sep = None -> all_digits s = true -> split sep s = [s].
Proof.
  intros Hsep. induction s as [|c s IH]; intros Hs; simpl; [done|].
  simpl in Hs. apply andb_true_iff in Hs as [Hc Hs].
  apply bool_decide_eq_true in Hc as [d Hc].
  destruct (Ascii.eqb_spec c sep) as [->|_]; [congruence|].
  by rewrite IH.
Qed.

Lemma split_digits_sep (sep : ascii) (a b : string) :
  digit_val sep = None -> all_digits a = true ->
  split sep (a +:+ String sep b) = a :: split sep b.
Proof.
  intros Hsep. induction a as [|c a IH]; intros Ha; simpl.
  { by rewrite Ascii.eqb_refl. }
  simpl in Ha. apply andb_true_iff in Ha as [Hc Ha].
  apply bool_decide_eq_true in Hc as [d Hc].
  destruct (Ascii.eqb_spec c sep) as [->|_]; [congruence|].
  by rewrite IH.
Qed.

Lemma int_of_str_digits (s : string) :
  all_digits s = true -> s <> "" -> int_of_str s = parse_digits 0 s.
Proof.
  destruct s as [|c s]; intros Hs Hne; [done|].
  simpl in Hs. apply andb_true_iff in Hs as [Hc _].
  apply bool_decide_eq_true in Hc as [d Hc]. by eapply int_of_str_digit_head.
Qed.

Lemma parse_digits_bound (acc : Z) (s : string) (n : Z) :
  0 <= acc -> parse_digits acc s = Some n ->
  acc * 10 ^ Z.of_nat (String.length s) <= n
    < (acc + 1) * 10 ^ Z.of_nat (String.length s).
Proof.
  revert acc. induction s as [|c s IH]; intros acc Hacc Hp.
  { simpl in *. simplify_eq. lia. }
  cbn [parse_digits] in Hp. destruct (digit_val c) as [d|] eqn:Hc; [|done].
  apply digit_char_digit_val in Hc as [Hd _].
  apply IH in Hp; [|lia].
  cbn [String.length]. rewrite Nat2Z.inj_succ, Z.pow_succ_r by lia.
  assert (0 < 10 ^ Z.of_nat (String.length s)) by (apply Z.pow_pos_nonneg; lia).
  nia.
Qed.

Lemma all_zero_zeros (s : string) :
  all_digits s = true -> lstrip0 s = "" -> s = zeros (String.length s).
Proof.
  induction s as [|c s IH]; intros Hs Hz; simpl in *; [done|].
  destruct (Ascii.eqb_spec c "0") as [->|_]; [|done].
  apply andb_true_iff in Hs as [_ Hs]. f_equal. by apply IH.
Qed.

Lemma numeric_spec (s : string) :
  numeric s = true <-> s <> "" /\ all_digits s = true.
Proof.
  unfold numeric. rewrite andb_true_iff, negb_true_iff, String.eqb_neq. done.
Qed.

(** The file name of a numbered version inside the padding width. *)
Lemma encode_filename_int (n : Z) :
  1 <= n < 10 ^ Z.of_nat VERSION_ZFILL ->
  S3Only.encode_filename (VInt n) =
    Ok (decimal VERSION_ZFILL (10 ^ Z.of_nat VERSION_ZFILL - n)
          +:+ "_" +:+ decimal VERSION_ZFILL n).
Proof.
  intros Hn. unfold S3Only.encode_filename, S3Only.encode_version, str_of.
  rewrite str_int_not_latest, int_of_str_str_int. cbn [of_option mbind result_bind Py.bind].
  unfold str_int.
  destruct (Z.ltb_spec (10 ^ Z.of_nat VERSION_ZFILL - n) 0); [lia|].
  destruct (Z.ltb_spec n 0); [lia|].
  rewrite !zfill_str_nonneg by (unfold VERSION_ZFILL in *; lia). done.
Qed.

Lemma decode_filename_fields (a b : string) (n : Z) :
  all_digits a = true -> all_digits b = true -> b <> "" ->
  startswith (a +:+ "_" +:+ b) (zeros VERSION_ZFILL) = false ->
  parse_digits 0 b = Some n ->
  S3Only.decode_filename (a +:+ "_" +:+ b) = Ok (str_int n).
Proof.
  intros Ha Hb Hne Hpre Hn. unfold S3Only.decode_filename. rewrite Hpre.
  change ("_" +:+ b) with (String "_" b).
  rewrite split_digits_sep, split_digits by done. cbn [lookup list_lookup of_option].
  cbn [mbind result_bind Py.bind]. rewrite int_of_str_digits, Hn by done. done.
Qed.

End CodecFacts.

Lemma key_lt_le (a b : string) : key_lt a b -> String.le a b.
Proof. unfold key_lt, String.le, String.leb. by intros ->. Qed.

(** C8. [encode_filename] maps a numeric version [n] to the complement
    [10^W - n], zero-padded to the width [W = 6], followed by the
    zero-padded version ([encode_filename(2) = "999998_000002"]), and maps
    [LATEST] and [None] to the complement zero ["000000_LATEST"]. For
    versions [a < b] in range the file name of [b] is strictly below the
    file name of [a], and the file name of [LATEST] is strictly below both,
    so that an ascending listing gives [LATEST], then [b], then [a]. *)
Theorem encode_filename_newest_first (a b : Z) :
  1 <= a -> a < b -> b < 10 ^ Z.of_nat VERSION_ZFILL ->
  S3Only.encode_filename (VInt 2) = Ok "999998_000002" /\
  S3Only.encode_filename VNone = Ok "000000_LATEST" /\
  S3Only.encode_filename (VStr LATEST_VERSION) = Ok "000000_LATEST" /\
  exists fa fb,
    S3Only.encode_filename (VInt a) = Ok fa /\
    S3Only.encode_filename (VInt b) = Ok fb /\
    fa = decimal 6 (10 ^ 6 - a) +:+ "_" +:+ decimal 6 a /\
    fb = decimal 6 (10 ^ 6 - b) +:+ "_" +:+ decimal 6 b /\
    key_lt fb fa /\
    key_lt "000000_LATEST" fb /\
    key_lt "000000_LATEST" fa /\
    merge_sort String.le [fa; "000000_LATEST"; fb] = ["000000_LATEST"; fb; fa].
Proof.
  intros Ha Hab Hb. split_and!; [reflexivity..|].
  eexists _, _. split_and!; [by apply encode_filename_int; lia..|done|done| | | |].
  - apply compare_app_lt; [by rewrite !length_decimal|].
    apply decimal_lt; unfold VERSION_ZFILL in *; lia.
  - change "000000_LATEST" with (zeros 6 +:+ "_LATEST").
    apply compare_app_lt; [by rewrite length_decimal|].
    rewrite <-decimal_zero. apply decimal_lt; unfold VERSION_ZFILL in *; lia.
  - change "000000_LATEST" with (zeros 6 +:+ "_LATEST").
    apply compare_app_lt; [by rewrite length_decimal|].
    rewrite <-decimal_zero. apply decimal_lt; unfold VERSION_ZFILL in *; lia.
  - assert (key_lt (decimal 6 (10 ^ 6 - b) +:+ "_" +:+ decimal 6 b)
              (decimal 6 (10 ^ 6 - a) +:+ "_" +:+ decimal 6 a)) as Hba.
    { apply compare_app_lt; [by rewrite !length_decimal|].
      apply decimal_lt; unfold VERSION_ZFILL in *; lia. }
    assert (key_lt "000000_LATEST" (decimal 6 (10 ^ 6 - b) +:+ "_" +:+ decimal 6 b))
      as Hlb.
    { change "000000_LATEST" with (zeros 6 +:+ "_LATEST").
      apply compare_app_lt; [by rewrite length_decimal|].
      rewrite <-decimal_zero. apply decimal_lt; unfold VERSION_ZFILL in *; lia. }
    apply (Sorted_unique String.le).
    + apply Sorted_merge_sort; apply _.
    + repeat constructor; by apply key_lt_le.
    + rewrite merge_sort_Permutation.
      rewrite (Permutation_swap _ _ [_]). apply Permutation_skip, Permutation_swap.
Qed.

Lemma encode_filename_newest_first_witness :
  exists fa fb,
    S3Only.encode_filename (VInt 1) = Ok fa /\
    S3Only.encode_filename (VInt 2) = Ok fb /\
    key_lt fb fa /\ key_lt "000000_LATEST" fb.
Proof.
  destruct (encode_filename_newest_first 1 2) as (_ & _ & _ & fa & fb & H1 & H2 & _ & _ & Hlt & Hl & _);
    [lia|lia|reflexivity|].
  exists fa, fb. by split_and!.
Defined.

Section RoundTrip.

Lemma decode_encode_filename_int (n : Z) :
  1 <= n < 10 ^ Z.of_nat VERSION_ZFILL ->
  (f ← S3Only.encode_filename (VInt n); S3Only.decode_filename f) = Ok (str_int n).
Proof.
  intros Hn. rewrite encode_filename_int by done. cbn [mbind result_bind Py.bind].
  apply decode_filename_fields.
  - apply all_digits_decimal.
  - apply all_digits_decimal.
  - intros Heq. apply (f_equal String.length) in Heq.
    by rewrite length_decimal in Heq.
  - unfold startswith. rewrite prefix_same_length
      by (by rewrite length_zeros, length_decimal).
    apply bool_decide_eq_false. intros Heq.
    eapply (decimal_ne_zeros VERSION_ZFILL); [| |by symmetry];
      unfold VERSION_ZFILL in *; lia.
  - apply parse_digits_decimal. lia.
Qed.

Lemma numeric_value (s : string) :
  numeric s = true -> (String.length s <= VERSION_ZFILL)%nat ->
  exists n, int_of_str s = Some n /\ parse_digits 0 s = Some n /\
            0 <= n < 10 ^ Z.of_nat VERSION_ZFILL /\
            (n = 0 -> lstrip0 s = "") /\ (0 < n -> lstrip0 s = str_nonneg n).
Proof.
  intros [Hne Hs]%numeric_spec Hlen.
  destruct (parse_digits_canonical s Hs) as (n & Hp & Hn & H0 & H1).
  exists n. rewrite int_of_str_digits by done. split_and!; [done..|lia| |done|done].
  pose proof (parse_digits_bound 0 s n ltac:(lia) Hp) as [_ Hb].
  eapply Z.lt_le_trans; [exact Hb|]. rewrite Z.mul_1_l.
  apply Z.pow_le_mono_r; lia.
Qed.

Lemma decode_encode_filename_numeric (s : string) (n : Z) :
  numeric s = true -> (String.length s <= VERSION_ZFILL)%nat ->
  int_of_str s = Some n ->
  (f ← S3Only.encode_filename (VStr s); S3Only.decode_filename f) = Ok (str_int n).
Proof.
  intros Hnum Hlen Hint.
  destruct (numeric_value s Hnum Hlen) as (n' & Hint' & Hp & Hn & _).
  assert (n' = n) as -> by congruence.
  apply numeric_spec in Hnum as [Hne Hs].
  unfold S3Only.encode_filename, S3Only.encode_version, str_of.
  destruct (String.eqb_spec s LATEST_VERSION) as [->|_]; [done|].
  rewrite Hint. cbn [of_option mbind result_bind Py.bind].
  rewrite (zfill_digits _ s) by done.
  set (pad := zeros (VERSION_ZFILL - String.length s) +:+ s).
  assert (all_digits pad = true) as Hpad.
  { unfold pad. by rewrite all_digits_app, all_digits_zeros. }
  assert (pad <> "") as Hpadne.
  { unfold pad. destruct (zeros _); [done|discriminate]. }
  assert (parse_digits 0 pad = Some n) as Hpadn.
  { unfold pad. by rewrite parse_digits_zeros. }
  unfold str_int at 1.
  destruct (Z.ltb_spec (10 ^ Z.of_nat VERSION_ZFILL - n) 0); [lia|].
  destruct (decide (n = 0)) as [->|Hn0].
  - apply decode_filename_fields; done.
  - rewrite zfill_str_nonneg by (unfold VERSION_ZFILL in *; lia).
    apply decode_filename_fields; [apply all_digits_decimal|done..| |done].
    unfold startswith. rewrite prefix_same_length
      by (by rewrite length_zeros, length_decimal).
    apply bool_decide_eq_false. intros Heq.
    eapply (decimal_ne_zeros VERSION_ZFILL); [| |by symmetry];
      unfold VERSION_ZFILL in *; lia.
Qed.

End RoundTrip.

(** C9. For every valid version input [v] ([None], the sentinel, a positive
    integer, a numeric or already zero-padded string) decoding the encoded
    form gives the canonical unpadded form: [decode_filename] inverts
    [encode_filename], and [Artifact.version], which strips the leading
    zeros of the sort key [Artifact.new] builds with [encode_version],
    inverts that encoding; the exception is the all-zero sort key
    ["000000"], which decodes to the empty string. *)
Theorem decode_inverts_encode (v : pyver) (now : Z) (name : string) :
  valid_version v = true ->
  (f ← S3Only.encode_filename v; S3Only.decode_filename f) = Ok (canonical v) /\
  (v <> VNone ->
   Dynamodb.Artifact.sk (Dynamodb.Artifact.new now name v)
     = Dynamodb.encode_version v) /\
  (if all_zero v
   then Dynamodb.Artifact.sk (Dynamodb.Artifact.new now name v) = "000000" /\
        Dynamodb.Artifact.version (Dynamodb.Artifact.new now name v) = ""
   else Dynamodb.Artifact.version (Dynamodb.Artifact.new now name v)
          = canonical v).
Proof.
  intros Hv. destruct v as [|n|s]; simpl in Hv.
  - split_and!; [reflexivity|done|reflexivity].
  - apply andb_true_iff in Hv as [H1%Z.leb_le H2%Z.ltb_lt].
    split_and!; [by apply decode_encode_filename_int|done|].
    cbn [all_zero canonical]. unfold Dynamodb.Artifact.version. cbn.
    unfold Dynamodb.encode_version, str_of, str_int.
    destruct (Z.ltb_spec n 0); [lia|].
    apply lstrip0_zfill_str_nonneg. lia.
  - destruct (String.eqb_spec s LATEST_VERSION) as [->|Hne].
    { split_and!; [reflexivity|done|reflexivity]. }
    simpl in Hv. apply andb_true_iff in Hv as [Hnum Hlen%bool_decide_eq_true].
    destruct (numeric_value s Hnum Hlen) as (n & Hint & Hp & Hn & H0 & Hpos).
    split_and!; [|done|].
    { cbn [canonical]. rewrite Hint. by apply decode_encode_filename_numeric. }
    cbn [all_zero canonical]. rewrite Hnum, Hint. cbn [andb].
    unfold Dynamodb.Artifact.version. cbn.
    unfold Dynamodb.encode_version, str_of.
    apply numeric_spec in Hnum as [Hnes Hs].
    rewrite zfill_digits, lstrip0_zeros_app by done.
    destruct (String.eqb_spec (lstrip0 s) "") as [Hz|Hnz].
    + split; [|done]. rewrite (all_zero_zeros s Hs Hz) at 2.
      rewrite <-zeros_add. change "000000" with (zeros 6).
      f_equal. unfold VERSION_ZFILL in *. lia.
    + destruct (decide (n = 0)) as [->|]; [by rewrite H0 in Hnz|].
      rewrite Hpos by lia. unfold str_int.
      destruct (Z.ltb_spec n 0); [lia|done].
Qed.

Lemma decode_inverts_encode_witness :
  (f ← S3Only.encode_filename (VStr "000042"); S3Only.decode_filename f)
    = Ok "42" /\
  Dynamodb.Artifact.version (Dynamodb.Artifact.new 0 "app" (VStr "000042")) = "42".
Proof.
  destruct (decode_inverts_encode (VStr "000042") 0 "app") as (H1 & _ & H2);
    [reflexivity|].
  split; [exact H1|exact H2].
Defined.

(** * Facts about the stores *)

Section StoreFacts.

Lemma bind_run {A B} (m : M A) (k : A -> M B) (w : world) :
  (m ≫= k) w =
    match m w with
    | (Ok a, w') => k a w'
    | (Raise e, w') => (Raise e, w')
    end.
Proof. reflexivity. Qed.

#[global] Instance key_le_trans : Transitive key_le.
Proof. intros a b c. unfold key_le. apply transitivity. Qed.

#[global] Instance key_le_total : Total key_le.
Proof. intros a b. unfold key_le. apply total, _. Qed.

#[global] Instance sk_ge_trans : Transitive sk_ge.
Proof. intros a b c ??. unfold sk_ge in *. by etrans. Qed.

#[global] Instance sk_ge_total : Total sk_ge.
Proof. intros a b. unfold sk_ge. apply total, _. Qed.

Lemma elem_of_objects_under (dir : key) (m : gmap key s3object) (k : key) (o : s3object) :
  (k, o) ∈ objects_under dir m <-> m !! k = Some o /\ String.prefix dir k = true.
Proof.
  unfold objects_under. rewrite merge_sort_Permutation, list_elem_of_filter.
  rewrite elem_of_map_to_list. simpl. tauto.
Qed.

Lemma objects_under_sorted (dir : key) (m : gmap key s3object) :
  Sorted key_le (objects_under dir m).
Proof. apply Sorted_merge_sort, _. Qed.

Lemma objects_under_NoDup (dir : key) (m : gmap key s3object) :
  NoDup (objects_under dir m).
Proof.
  unfold objects_under. rewrite merge_sort_Permutation.
  apply NoDup_filter, NoDup_map_to_list.
Qed.

(** A sorted, duplicate-free list with the right elements is the listing. *)
Lemma objects_under_unique (dir : key) (m : gmap key s3object)
    (l : list (key * s3object)) :
  Sorted key_le l -> NoDup l ->
  (forall k o, (k, o) ∈ l <-> m !! k = Some o /\ String.prefix dir k = true) ->
  objects_under dir m = l.
Proof.
  intros Hsorted Hnodup Helem.
  apply (Sorted_unique_strong key_le).
  - intros [k1 o1] [k2 o2] H1 H2 Hle1 Hle2.
    apply elem_of_objects_under in H1 as [H1 _]. apply Helem in H2 as [H2 _].
    assert (k1 = k2) as -> by (by apply (anti_symm String.le)).
    congruence.
  - apply objects_under_sorted.
  - done.
  - apply NoDup_Permutation; [apply objects_under_NoDup|done|].
    intros [k o]. by rewrite elem_of_objects_under, Helem.
Qed.

Lemma elem_of_partition_desc (pk : string) (t : gmap (string * string) item)
    (sk : string) (i : item) :
  (sk, i) ∈ partition_desc pk t <-> t !! (pk, sk) = Some i.
Proof.
  unfold partition_desc. rewrite merge_sort_Permutation, list_elem_of_fmap.
  split.
  - intros ([[pk' sk'] i'] & Heq & Hin). simpl in Heq.
    apply list_elem_of_filter in Hin as [Hpk Hin]. simpl in Hpk.
    apply elem_of_map_to_list in Hin. by simplify_eq.
  - intros Hin. exists ((pk, sk), i). split; [done|].
    apply list_elem_of_filter. by rewrite elem_of_map_to_list.
Qed.

Lemma partition_desc_sorted (pk : string) (t : gmap (string * string) item) :
  Sorted sk_ge (partition_desc pk t).
Proof. apply Sorted_merge_sort, _. Qed.

Lemma partition_desc_NoDup (pk : string) (t : gmap (string * string) item) :
  NoDup (partition_desc pk t).
Proof.
  unfold partition_desc. rewrite merge_sort_Permutation.
  apply NoDup_fmap_2_strong; [|apply NoDup_filter, NoDup_map_to_list].
  intros [[pk1 sk1] i1] [[pk2 sk2] i2] H1 H2 Heq.
  apply list_elem_of_filter in H1 as [H1 _], H2 as [H2 _]. by simplify_eq/=.
Qed.

Lemma partition_desc_unique (pk : string) (t : gmap (string * string) item)
    (l : list (string * item)) :
  Sorted sk_ge l -> NoDup l ->
  (forall sk i, (sk, i) ∈ l <-> t !! (pk, sk) = Some i) ->
  partition_desc pk t = l.
Proof.
  intros Hsorted Hnodup Helem.
  apply (Sorted_unique_strong sk_ge).
  - intros [k1 o1] [k2 o2] H1 H2 Hle1 Hle2.
    apply elem_of_partition_desc in H1. apply Helem in H2.
    assert (k1 = k2) as -> by (by apply (anti_symm String.le)).
    congruence.
  - apply partition_desc_sorted.
  - done.
  - apply NoDup_Permutation; [apply partition_desc_NoDup|done|].
    intros [k o]. by rewrite elem_of_partition_desc, Helem.
Qed.

End StoreFacts.

(** * The repository operations *)

#[local] Arguments String.append : simpl never.
#[local] Arguments objects_under : simpl never.
#[local] Arguments partition_desc : simpl never.

Ltac run_step :=
  first
  [ rewrite bind_run
  | progress unfold lift, raise, mret, M_ret, Store.ret, exists_object,
      head_object, get_utc_now, put_object, copy_object, delete_object,
      iter_objects, get_item, put_item, update_item, delete_item, query_desc,
      Dynamodb.Artifact.save, Dynamodb.Alias.save
  | progress cbv beta iota
  | progress cbn [of_option fst snd s3 table clock trace log set_s3 set_table
                  advance] ].

Ltac run := repeat run_step.

Section S3OnlyFacts.
Context `{Hashes} (self : S3Only.Repository).

Lemma s3only_latest_path (name : string) :
  S3Only._get_artifact_s3path self name (VStr LATEST_VERSION)
    = Ok (s3only_latest_key self name).
Proof. reflexivity. Qed.

Lemma final_metadata_hash (name sha : string) (md : option (gmap string string)) :
  keeps_hash md -> final_metadata name sha md !! "artifact_sha256" = Some sha.
Proof.
  destruct md as [m|]; simpl; intros Hmd.
  - rewrite lookup_union_r by done. by simplify_map_eq.
  - by simplify_map_eq.
Qed.

Lemma s3only_write_artifact (name : string) (c : bytes)
    (md : option (gmap string string)) (w : world) :
  let k := s3only_latest_key self name in
  S3Only.write_artifact self name c md (of_bytes c) k w =
    (Ok {| S3Only.name := name; S3Only.version := LATEST_VERSION;
           S3Only.update_at := clock w; S3Only.s3uri := S3Only.uri self k;
           S3Only.sha256 := of_bytes c |},
     log (S3PutObject k)
       (set_s3 (<[k := stored (Bytes c) (final_metadata name (of_bytes c) md)
                         (clock w)]> (s3 w)) w)).
Proof.
  intros k. unfold S3Only.write_artifact. run. rewrite lookup_insert_eq. run.
  by destruct md.
Qed.

(** The short-circuit: the stored hash is the hash of the content. *)
Lemma s3only_put_same (name : string) (c : bytes)
    (md : option (gmap string string)) (w : world) (o : s3object) :
  let k := s3only_latest_key self name in
  s3 w !! k = Some o ->
  obj_metadata o !! "artifact_sha256" = Some (of_bytes c) ->
  S3Only.put_artifact self name c md w =
    (Ok {| S3Only.name := name; S3Only.version := LATEST_VERSION;
           S3Only.update_at := obj_last_modified o;
           S3Only.s3uri := S3Only.uri self k; S3Only.sha256 := of_bytes c |}, w).
Proof.
  intros k Hk Hmd. unfold S3Only.put_artifact. rewrite s3only_latest_path.
  fold k. run. rewrite Hk, bool_decide_eq_true_2 by eauto. run. rewrite Hk. run.
  unfold S3Only.metadata_sha256, METADATA_KEY_ARTIFACT_SHA256. rewrite Hmd. run.
  by rewrite String.eqb_refl.
Qed.

(** The write: no object yet, or another hash stored with it. *)
Lemma s3only_put_other (name : string) (c : bytes)
    (md : option (gmap string string)) (w : world) :
  let k := s3only_latest_key self name in
  (s3 w !! k = None \/
   exists o h, s3 w !! k = Some o /\
               obj_metadata o !! "artifact_sha256" = Some h /\ h <> of_bytes c) ->
  S3Only.put_artifact self name c md w =
    S3Only.write_artifact self name c md (of_bytes c) k w.
Proof.
  intros k Hk. unfold S3Only.put_artifact. rewrite s3only_latest_path.
  fold k. run. destruct Hk as [Hk|(o & h & Hk & Hmd & Hne)].
  - rewrite Hk, bool_decide_eq_false_2 by (by intros [??]). done.
  - rewrite Hk, bool_decide_eq_true_2 by eauto. run. rewrite Hk. run.
    unfold S3Only.metadata_sha256, METADATA_KEY_ARTIFACT_SHA256. rewrite Hmd. run.
    apply String.eqb_neq in Hne. by rewrite Hne.
Qed.

(** After a successful [put_artifact] the [LATEST] object carries the hash
    of the content and the record describes that object. *)
Lemma s3only_put_post (name : string) (c : bytes)
    (md : option (gmap string string)) (w w1 : world) (a1 : S3Only.Artifact) :
  let k := s3only_latest_key self name in
  keeps_hash md ->
  S3Only.put_artifact self name c md w = (Ok a1, w1) ->
  exists o1,
    s3 w1 !! k = Some o1 /\
    obj_metadata o1 !! "artifact_sha256" = Some (of_bytes c) /\
    a1 = {| S3Only.name := name; S3Only.version := LATEST_VERSION;
            S3Only.update_at := obj_last_modified o1;
            S3Only.s3uri := S3Only.uri self k; S3Only.sha256 := of_bytes c |}.
Proof.
  intros k Hmd Hput.
  destruct (s3 w !! k) as [o|] eqn:Hk.
  - destruct (obj_metadata o !! "artifact_sha256") as [h|] eqn:Hh.
    + destruct (decide (h = of_bytes c)) as [->|Hne].
      * rewrite (s3only_put_same name c md w o Hk Hh) in Hput.
        simplify_eq. eauto.
      * rewrite s3only_put_other, s3only_write_artifact in Hput by eauto 10.
        simplify_eq. eexists. cbn. rewrite lookup_insert_eq.
        split_and!; [done| |done]. by apply final_metadata_hash.
    + exfalso. revert Hput. unfold S3Only.put_artifact.
      rewrite s3only_latest_path. fold k. run.
      rewrite Hk, bool_decide_eq_true_2 by eauto. run. rewrite Hk. run.
      unfold S3Only.metadata_sha256, METADATA_KEY_ARTIFACT_SHA256. rewrite Hh.
      run. done.
  - rewrite s3only_put_other, s3only_write_artifact in Hput by eauto.
    simplify_eq. eexists. cbn. rewrite lookup_insert_eq.
    split_and!; [done| |done]. by apply final_metadata_hash.
Qed.

End S3OnlyFacts.

Section HybridPutFacts.
Context `{Hashes} (self : Hybrid.Repository).

Lemma hybrid_write_artifact (name : string) (c : bytes)
    (md : option (gmap string string)) (now : Z) (w : world) :
  let k := Hybrid.get_artifact_s3path self name LATEST_VERSION in
  Hybrid.write_artifact self name c md (of_bytes c)
    (Dynamodb.Artifact.set_sha256 (Some (of_bytes c))
       (Dynamodb.Artifact.new now name VNone)) k w =
    (Ok {| Hybrid.name := name; Hybrid.version := LATEST_VERSION;
           Hybrid.update_at := Some (clock w); Hybrid.s3uri := Hybrid.uri self k;
           Hybrid.sha256 := Some (of_bytes c) |},
     log (DdbPutItem name LATEST_VERSION)
       (set_table
          (<[(name, LATEST_VERSION) := artifact_item (clock w) (Some (of_bytes c))]>
             (table w))
          (log (S3PutObject k)
             (set_s3 (<[k := stored (Bytes c) (final_metadata name (of_bytes c) md)
                               (clock w)]> (s3 w)) w)))).
Proof.
  intros k. unfold Hybrid.write_artifact. run. rewrite lookup_insert_eq. run.
  by destruct md.
Qed.

Lemma hybrid_put_same (name : string) (c : bytes)
    (md : option (gmap string string)) (w : world) (o : s3object) :
  let k := Hybrid.get_artifact_s3path self name LATEST_VERSION in
  s3 w !! k = Some o ->
  obj_metadata o !! "artifact_sha256" = Some (of_bytes c) ->
  Hybrid.put_artifact self name c md w =
    (Ok {| Hybrid.name := name; Hybrid.version := LATEST_VERSION;
           Hybrid.update_at := Some (obj_last_modified o);
           Hybrid.s3uri := Hybrid.uri self k;
           Hybrid.sha256 := Some (of_bytes c) |}, w).
Proof.
  intros k Hk Hmd. unfold Hybrid.put_artifact. fold k. run.
  rewrite Hk, bool_decide_eq_true_2 by eauto. run. rewrite Hk. run.
  rewrite Hmd. run. by rewrite String.eqb_refl.
Qed.

Lemma hybrid_put_other (name : string) (c : bytes)
    (md : option (gmap string string)) (w : world) :
  let k := Hybrid.get_artifact_s3path self name LATEST_VERSION in
  (s3 w !! k = None \/
   exists o h, s3 w !! k = Some o /\
               obj_metadata o !! "artifact_sha256" = Some h /\ h <> of_bytes c) ->
  Hybrid.put_artifact self name c md w =
    Hybrid.write_artifact self name c md (of_bytes c)
      (Dynamodb.Artifact.set_sha256 (Some (of_bytes c))
         (Dynamodb.Artifact.new (clock w) name VNone)) k w.
Proof.
  intros k Hk. unfold Hybrid.put_artifact. fold k. run.
  destruct Hk as [Hk|(o & h & Hk & Hmd & Hne)].
  - rewrite Hk, bool_decide_eq_false_2 by (by intros [??]). done.
  - rewrite Hk, bool_decide_eq_true_2 by eauto. run. rewrite Hk. run.
    rewrite Hmd. run. apply String.eqb_neq in Hne. by rewrite Hne.
Qed.

Lemma hybrid_put_post (name : string) (c : bytes)
    (md : option (gmap string string)) (w w1 : world) (a1 : Hybrid.Artifact) :
  let k := Hybrid.get_artifact_s3path self name LATEST_VERSION in
  keeps_hash md ->
  Hybrid.put_artifact self name c md w = (Ok a1, w1) ->
  exists o1,
    s3 w1 !! k = Some o1 /\
    obj_metadata o1 !! "artifact_sha256" = Some (of_bytes c) /\
    a1 = {| Hybrid.name := name; Hybrid.version := LATEST_VERSION;
            Hybrid.update_at := Some (obj_last_modified o1);
            Hybrid.s3uri := Hybrid.uri self k;
            Hybrid.sha256 := Some (of_bytes c) |}.
Proof.
  intros k Hmd Hput.
  destruct (s3 w !! k) as [o|] eqn:Hk.
  - destruct (obj_metadata o !! "artifact_sha256") as [h|] eqn:Hh.
    + destruct (decide (h = of_bytes c)) as [->|Hne].
      * rewrite (hybrid_put_same name c md w o Hk Hh) in Hput.
        simplify_eq. eauto.
      * rewrite hybrid_put_other, hybrid_write_artifact in Hput by eauto 10.
        simplify_eq. eexists. cbn. rewrite lookup_insert_eq.
        split_and!; [done| |done]. by apply final_metadata_hash.
    + exfalso. revert Hput. unfold Hybrid.put_artifact. fold k. run.
      rewrite Hk, bool_decide_eq_true_2 by eauto. run. rewrite Hk. run.
      rewrite Hh. run. done.
  - rewrite hybrid_put_other, hybrid_write_artifact in Hput by eauto.
    simplify_eq. eexists. cbn. rewrite lookup_insert_eq.
    split_and!; [done| |done]. by apply final_metadata_hash.
Qed.

End HybridPutFacts.

Section PutSucceeds.
Context `{Hashes} (s3repo : S3Only.Repository) (hrepo : Hybrid.Repository).



End PutSucceeds.



Section S3OnlyPublishFacts.
Context `{Hashes} (self : S3Only.Repository).

Lemma s3only_version_path (name : string) (m : Z) :
  S3Only._get_artifact_s3path self name (VStr (str_int m))
    = Ok (s3only_version_key self name m) /\
  S3Only._get_artifact_s3path self name (VInt m)
    = Ok (s3only_version_key self name m).
Proof.
  unfold S3Only._get_artifact_s3path, S3Only.encode_filename,
    S3Only.encode_version, str_of.
  rewrite str_int_not_latest, int_of_str_str_int.
  cbn [of_option mbind result_bind Py.bind]. unfold s3only_version_key.
  by rewrite !append_assoc.
Qed.

Lemma s3only_publish_none (name : string) (w : world) :
  take 2 (objects_under (S3Only._get_artifact_s3dir self name) (s3 w)) = [] ->
  S3Only.publish_artifact_version self name w = (Raise ArtifactNotFoundError, w).
Proof.
  intros Hl. unfold S3Only.publish_artifact_version. run.
  rewrite s3only_latest_path. run. by rewrite Hl.
Qed.

Lemma s3only_publish_first (name : string) (w : world) (e : key * s3object)
    (o : s3object) (sha : string) :
  take 2 (objects_under (S3Only._get_artifact_s3dir self name) (s3 w)) = [e] ->
  s3 w !! s3only_latest_key self name = Some o ->
  obj_metadata o !! "artifact_sha256" = Some sha ->
  S3Only.publish_artifact_version self name w =
    (Ok {| S3Only.name := name; S3Only.version := "1";
           S3Only.update_at := clock w;
           S3Only.s3uri := S3Only.uri self (s3only_version_key self name 1);
           S3Only.sha256 := sha |},
     log (S3CopyObject (s3only_latest_key self name) (s3only_version_key self name 1))
       (set_s3 (<[s3only_version_key self name 1 := copied o (clock w)]> (s3 w)) w)).
Proof.
  intros Hl Hk Hsha. unfold S3Only.publish_artifact_version. run.
  rewrite s3only_latest_path. run. rewrite Hl.
  change "1" with (str_int 1). rewrite (proj1 (s3only_version_path name 1)).
  run. rewrite Hk. unfold S3Only.artifact_at. run. rewrite lookup_insert_eq. run.
  unfold S3Only.metadata_sha256, METADATA_KEY_ARTIFACT_SHA256. cbn [copied obj_metadata].
  rewrite Hsha. run. done.
Qed.

(** Two or more objects are listed and the most recent numbered version has
    the entity tag of [LATEST]: the existing version is returned and nothing
    is written. *)
Lemma s3only_publish_unchanged (name : string) (w : world)
    (e0 : key * s3object) (k1 : key) (o1 oL : s3object) (prev sha : string)
    (n : Z) :
  take 2 (objects_under (S3Only._get_artifact_s3dir self name) (s3 w))
    = [e0; (k1, o1)] ->
  S3Only.decode_filename (fname k1) = Ok prev ->
  int_of_str prev = Some n ->
  s3 w !! s3only_latest_key self name = Some oL ->
  obj_etag o1 = obj_etag oL ->
  obj_metadata o1 !! "artifact_sha256" = Some sha ->
  S3Only.publish_artifact_version self name w =
    (Ok {| S3Only.name := name; S3Only.version := prev;
           S3Only.update_at := obj_last_modified o1;
           S3Only.s3uri := S3Only.uri self k1; S3Only.sha256 := sha |}, w).
Proof.
  intros Hl Hprev Hn Hk Hetag Hsha. unfold S3Only.publish_artifact_version. run.
  rewrite s3only_latest_path. run. rewrite Hl, Hprev. run. rewrite Hn. run.
  rewrite (proj1 (s3only_version_path name (n + 1))). run. rewrite Hk. run.
  rewrite Hetag, String.eqb_refl.
  unfold S3Only.metadata_sha256, METADATA_KEY_ARTIFACT_SHA256. rewrite Hsha.
  run. done.
Qed.

(** Two or more objects are listed and the entity tags differ: [LATEST] is
    copied to the key of the previous number plus one. *)
Lemma s3only_publish_next (name : string) (w : world)
    (e0 : key * s3object) (k1 : key) (o1 oL : s3object) (prev sha : string)
    (n : Z) :
  take 2 (objects_under (S3Only._get_artifact_s3dir self name) (s3 w))
    = [e0; (k1, o1)] ->
  S3Only.decode_filename (fname k1) = Ok prev ->
  int_of_str prev = Some n ->
  s3 w !! s3only_latest_key self name = Some oL ->
  obj_etag o1 <> obj_etag oL ->
  obj_metadata oL !! "artifact_sha256" = Some sha ->
  S3Only.publish_artifact_version self name w =
    (Ok {| S3Only.name := name; S3Only.version := str_int (n + 1);
           S3Only.update_at := clock w;
           S3Only.s3uri := S3Only.uri self (s3only_version_key self name (n + 1));
           S3Only.sha256 := sha |},
     log (S3CopyObject (s3only_latest_key self name)
            (s3only_version_key self name (n + 1)))
       (set_s3 (<[s3only_version_key self name (n + 1) := copied oL (clock w)]>
                  (s3 w)) w)).
Proof.
  intros Hl Hprev Hn Hk Hetag Hsha. unfold S3Only.publish_artifact_version. run.
  rewrite s3only_latest_path. run. rewrite Hl, Hprev. run. rewrite Hn. run.
  rewrite (proj1 (s3only_version_path name (n + 1))). run. rewrite Hk. run.
  apply String.eqb_neq in Hetag. rewrite Hetag. run. rewrite Hk.
  unfold S3Only.artifact_at. run. rewrite lookup_insert_eq. run.
  unfold S3Only.metadata_sha256, METADATA_KEY_ARTIFACT_SHA256. cbn [copied obj_metadata].
  rewrite Hsha. run. done.
Qed.

End S3OnlyPublishFacts.

Section HybridPublishFacts.
Context `{Hashes} (self : Hybrid.Repository).

Lemma hybrid_sort_key_positive (m : Z) :
  0 < m ->
  Dynamodb.encode_version (VStr (str_int m)) = hybrid_sort_key m /\
  Dynamodb.encode_version_sk (VStr (str_int m)) = hybrid_sort_key m /\
  lstrip0 (hybrid_sort_key m) = str_int m.
Proof.
  intros Hm. unfold hybrid_sort_key, Dynamodb.encode_version,
    Dynamodb.encode_version_sk, str_of, str_int.
  destruct (Z.ltb_spec m 0); [lia|].
  rewrite lstrip0_str_nonneg, lstrip0_zfill_str_nonneg by done. done.
Qed.

(** What [publish_artifact_version] does once the new number [m] is known. *)
Lemma hybrid_publish_tail (name new_version : string) (m : Z) (w : world)
    (oL : s3object) (sha : option string) :
  0 < m ->
  Dynamodb.encode_version_sk (VStr new_version) = hybrid_sort_key m ->
  Dynamodb.encode_version (VStr new_version) = hybrid_sort_key m ->
  s3 w !! Hybrid.get_artifact_s3path self name LATEST_VERSION = Some oL ->
  (_ ← copy_object (Hybrid.get_artifact_s3path self name LATEST_VERSION)
         (Hybrid.get_artifact_s3path self name new_version);
   o ← head_object (Hybrid.get_artifact_s3path self name new_version);
   now ← get_utc_now;
   _ ← Dynamodb.Artifact.save
         (Dynamodb.Artifact.set_update_at (Some (obj_last_modified o))
            (Dynamodb.Artifact.set_sha256 sha
               (Dynamodb.Artifact.new now name (VStr new_version))));
   mret (Hybrid._get_artifact_object self
           (Dynamodb.Artifact.set_update_at (Some (obj_last_modified o))
              (Dynamodb.Artifact.set_sha256 sha
                 (Dynamodb.Artifact.new now name (VStr new_version)))))) w =
    (Ok {| Hybrid.name := name; Hybrid.version := str_int m;
           Hybrid.update_at := Some (clock w);
           Hybrid.s3uri := Hybrid.uri self (hybrid_version_key self name m);
           Hybrid.sha256 := sha |},
     log (DdbPutItem name (hybrid_sort_key m))
       (set_table
          (<[(name, hybrid_sort_key m) := artifact_item (clock w) sha]> (table w))
          (log (S3CopyObject (Hybrid.get_artifact_s3path self name LATEST_VERSION)
                  (hybrid_version_key self name m))
             (set_s3 (<[hybrid_version_key self name m := copied oL (clock w)]>
                        (s3 w)) w)))).
Proof.
  intros Hm Hsk Hev Hk.
  destruct (hybrid_sort_key_positive m Hm) as (_ & Hsk' & Hstrip).
  assert (Hybrid.get_artifact_s3path self name new_version
          = hybrid_version_key self name m) as Hpath.
  { unfold hybrid_version_key, Hybrid.get_artifact_s3path. by rewrite Hsk, Hsk'. }
  rewrite Hpath. run. rewrite Hk. run. rewrite lookup_insert_eq. run.
  unfold Hybrid._get_artifact_object, Dynamodb.Artifact.version,
    Dynamodb.Artifact.name. cbn. rewrite Hev, Hstrip. done.
Qed.

Lemma hybrid_publish_none (name : string) (w : world) :
  take 2 (partition_desc name (table w)) = [] ->
  Hybrid.publish_artifact_version self name w = (Raise ArtifactNotFoundError, w).
Proof.
  intros Hl. unfold Hybrid.publish_artifact_version. run. by rewrite Hl.
Qed.

Lemma hybrid_publish_first (name : string) (w : world) (sk0 : string) (i0 : item)
    (oL : s3object) :
  take 2 (partition_desc name (table w)) = [(sk0, i0)] ->
  s3 w !! Hybrid.get_artifact_s3path self name LATEST_VERSION = Some oL ->
  Hybrid.publish_artifact_version self name w =
    (Ok {| Hybrid.name := name; Hybrid.version := "1";
           Hybrid.update_at := Some (clock w);
           Hybrid.s3uri := Hybrid.uri self (hybrid_version_key self name 1);
           Hybrid.sha256 := it_sha256 i0 |},
     log (DdbPutItem name (hybrid_sort_key 1))
       (set_table
          (<[(name, hybrid_sort_key 1) := artifact_item (clock w) (it_sha256 i0)]>
             (table w))
          (log (S3CopyObject (Hybrid.get_artifact_s3path self name LATEST_VERSION)
                  (hybrid_version_key self name 1))
             (set_s3 (<[hybrid_version_key self name 1 := copied oL (clock w)]>
                        (s3 w)) w)))).
Proof.
  intros Hl Hk. unfold Hybrid.publish_artifact_version.
  rewrite bind_run. unfold query_desc. cbv beta iota. rewrite Hl.
  cbn [fmap list_fmap]. rewrite bind_run. unfold mret, M_ret, Store.ret.
  cbv beta iota.
  by apply (hybrid_publish_tail name _ 1 w oL).
Qed.

Lemma hybrid_publish_next (name : string) (w : world) (r0 : string * item)
    (sk1 : string) (i1 : item) (n : Z) (oL : s3object) :
  take 2 (partition_desc name (table w)) = [r0; (sk1, i1)] ->
  int_of_str (lstrip0 sk1) = Some n -> 0 <= n ->
  s3 w !! Hybrid.get_artifact_s3path self name LATEST_VERSION = Some oL ->
  Hybrid.publish_artifact_version self name w =
    (Ok {| Hybrid.name := name; Hybrid.version := str_int (n + 1);
           Hybrid.update_at := Some (clock w);
           Hybrid.s3uri := Hybrid.uri self (hybrid_version_key self name (n + 1));
           Hybrid.sha256 := it_sha256 r0.2 |},
     log (DdbPutItem name (hybrid_sort_key (n + 1)))
       (set_table
          (<[(name, hybrid_sort_key (n + 1))
               := artifact_item (clock w) (it_sha256 r0.2)]> (table w))
          (log (S3CopyObject (Hybrid.get_artifact_s3path self name LATEST_VERSION)
                  (hybrid_version_key self name (n + 1)))
             (set_s3 (<[hybrid_version_key self name (n + 1) := copied oL (clock w)]>
                        (s3 w)) w)))).
Proof.
  intros Hl Hn Hpos Hk. unfold Hybrid.publish_artifact_version.
  rewrite bind_run. unfold query_desc. cbv beta iota. rewrite Hl.
  cbn [fmap list_fmap]. rewrite !bind_run. unfold lift at 1.
  unfold Dynamodb.Artifact.version at 1.
  cbn [Dynamodb.Artifact.of_item Dynamodb.Artifact.sk].
  cbn [fst snd]. rewrite Hn. unfold mret, M_ret, Store.ret. cbn [of_option].
  cbv beta iota.
  destruct (hybrid_sort_key_positive (n + 1)) as (Hev & Hsk & _); [lia|].
  destruct r0 as [sk0 i0].
  by apply (hybrid_publish_tail name _ (n + 1) w oL); [lia|..].
Qed.

End HybridPublishFacts.

Section PublishCases.

Lemma take_elem_of {A} (n : nat) (l t : list A) (x : A) :
  take n l = t -> x ∈ t -> x ∈ l.
Proof.
  intros <- Hx. rewrite <-(take_drop n l). apply elem_of_app. by left.
Qed.

End PublishCases.

(** C1 (amended). [publish_artifact_version] raises [ArtifactNotFound] when
    the listing of the artifact (object store) or the query of its partition
    (index) is empty. When exactly one entry, [LATEST], exists, it returns
    version ["1"] and copies the payload of [LATEST] to the key of version
    1. With two or more entries, and [n] the number read from the second
    one, the hybrid backend returns [n + 1]; the object-store-only backend
    returns [n + 1] when the entity tag of the second entry differs from
    the one of [LATEST], and returns the existing version, writing nothing,
    when the two entity tags are equal. *)
Theorem publish_version_cases (s3repo : S3Only.Repository)
    (hrepo : Hybrid.Repository) (name : string) (w : world) :
  let listing :=
    take 2 (objects_under (S3Only._get_artifact_s3dir s3repo name) (s3 w)) in
  let rows := take 2 (partition_desc name (table w)) in
  let latest := s3only_latest_key s3repo name in
  let hlatest := Hybrid.get_artifact_s3path hrepo name LATEST_VERSION in
  (listing = [] ->
   S3Only.publish_artifact_version s3repo name w = (Raise ArtifactNotFoundError, w)) /\
  (forall o sha,
     listing = [(latest, o)] ->
     obj_metadata o !! "artifact_sha256" = Some sha ->
     S3Only.publish_artifact_version s3repo name w =
       (Ok {| S3Only.name := name; S3Only.version := "1";
              S3Only.update_at := clock w;
              S3Only.s3uri := S3Only.uri s3repo (s3only_version_key s3repo name 1);
              S3Only.sha256 := sha |},
        log (S3CopyObject latest (s3only_version_key s3repo name 1))
          (set_s3 (<[s3only_version_key s3repo name 1 := copied o (clock w)]> (s3 w))
             w))) /\
  (forall e0 k1 o1 oL prev sha n,
     listing = [e0; (k1, o1)] ->
     S3Only.decode_filename (fname k1) = Ok prev ->
     int_of_str prev = Some n ->
     s3 w !! latest = Some oL ->
     obj_etag o1 <> obj_etag oL ->
     obj_metadata oL !! "artifact_sha256" = Some sha ->
     S3Only.publish_artifact_version s3repo name w =
       (Ok {| S3Only.name := name; S3Only.version := str_int (n + 1);
              S3Only.update_at := clock w;
              S3Only.s3uri :=
                S3Only.uri s3repo (s3only_version_key s3repo name (n + 1));
              S3Only.sha256 := sha |},
        log (S3CopyObject latest (s3only_version_key s3repo name (n + 1)))
          (set_s3 (<[s3only_version_key s3repo name (n + 1) := copied oL (clock w)]>
                     (s3 w)) w))) /\
  (forall e0 k1 o1 oL prev sha n,
     listing = [e0; (k1, o1)] ->
     S3Only.decode_filename (fname k1) = Ok prev ->
     int_of_str prev = Some n ->
     s3 w !! latest = Some oL ->
     obj_etag o1 = obj_etag oL ->
     obj_metadata o1 !! "artifact_sha256" = Some sha ->
     S3Only.publish_artifact_version s3repo name w =
       (Ok {| S3Only.name := name; S3Only.version := prev;
              S3Only.update_at := obj_last_modified o1;
              S3Only.s3uri := S3Only.uri s3repo k1; S3Only.sha256 := sha |}, w)) /\
  (rows = [] ->
   Hybrid.publish_artifact_version hrepo name w = (Raise ArtifactNotFoundError, w)) /\
  (forall sk0 i0 oL,
     rows = [(sk0, i0)] ->
     s3 w !! hlatest = Some oL ->
     Hybrid.publish_artifact_version hrepo name w =
       (Ok {| Hybrid.name := name; Hybrid.version := "1";
              Hybrid.update_at := Some (clock w);
              Hybrid.s3uri := Hybrid.uri hrepo (hybrid_version_key hrepo name 1);
              Hybrid.sha256 := it_sha256 i0 |},
        log (DdbPutItem name (hybrid_sort_key 1))
          (set_table
             (<[(name, hybrid_sort_key 1) := artifact_item (clock w) (it_sha256 i0)]>
                (table w))
             (log (S3CopyObject hlatest (hybrid_version_key hrepo name 1))
                (set_s3 (<[hybrid_version_key hrepo name 1 := copied oL (clock w)]>
                           (s3 w)) w))))) /\
  (forall r0 sk1 i1 n oL,
     rows = [r0; (sk1, i1)] ->
     int_of_str (lstrip0 sk1) = Some n -> 0 <= n ->
     s3 w !! hlatest = Some oL ->
     Hybrid.publish_artifact_version hrepo name w =
       (Ok {| Hybrid.name := name; Hybrid.version := str_int (n + 1);
              Hybrid.update_at := Some (clock w);
              Hybrid.s3uri := Hybrid.uri hrepo (hybrid_version_key hrepo name (n + 1));
              Hybrid.sha256 := it_sha256 r0.2 |},
        log (DdbPutItem name (hybrid_sort_key (n + 1)))
          (set_table
             (<[(name, hybrid_sort_key (n + 1))
                  := artifact_item (clock w) (it_sha256 r0.2)]> (table w))
             (log (S3CopyObject hlatest (hybrid_version_key hrepo name (n + 1)))
                (set_s3 (<[hybrid_version_key hrepo name (n + 1)
                             := copied oL (clock w)]> (s3 w)) w))))).
Proof.
  intros listing rows latest hlatest. split_and!.
  - apply s3only_publish_none.
  - intros o sha Hl Hsha. eapply s3only_publish_first; [exact Hl| |exact Hsha].
    eapply elem_of_objects_under, take_elem_of; [exact Hl|]. by left.
  - intros. by eapply s3only_publish_next.
  - intros. by eapply s3only_publish_unchanged.
  - apply hybrid_publish_none.
  - intros. by eapply hybrid_publish_first.
  - intros. by eapply hybrid_publish_next.
Qed.

Lemma publish_version_cases_witness :
  (S3Only.publish_artifact_version Scenario.s3repo "app" Scenario.s1).1
    = Ok {| S3Only.name := "app"; S3Only.version := "1"; S3Only.update_at := 1;
            S3Only.s3uri := "s3://bucket/versioned/app/versions/999999_000001";
            S3Only.sha256 := "sha256:v1" |} /\
  (Hybrid.publish_artifact_version Scenario.hrepo "app" Scenario.h4).1
    = Ok {| Hybrid.name := "app"; Hybrid.version := "3";
            Hybrid.update_at := Some 4;
            Hybrid.s3uri := "s3://bucket/versioned/app/000003";
            Hybrid.sha256 := Some "sha256:v2" |}.
Proof.
  destruct (publish_version_cases Scenario.s3repo Scenario.hrepo "app" Scenario.s1)
    as (_ & Hfirst & _).
  destruct (publish_version_cases Scenario.s3repo Scenario.hrepo "app" Scenario.h4)
    as (_ & _ & _ & _ & _ & _ & Hnext).
  split.
  - assert (exists o,
      take 2 (objects_under (S3Only._get_artifact_s3dir Scenario.s3repo "app")
                (s3 Scenario.s1))
        = [(s3only_latest_key Scenario.s3repo "app", o)] /\
      obj_metadata o !! "artifact_sha256" = Some "sha256:v1") as (o & Hl & Hs).
    { eexists. split; vm_compute; reflexivity. }
    rewrite (Hfirst o _ Hl Hs). reflexivity.
  - assert (exists r0 sk1 i1 oL,
      take 2 (partition_desc "app" (table Scenario.h4)) = [r0; (sk1, i1)] /\
      int_of_str (lstrip0 sk1) = Some 2 /\
      s3 Scenario.h4 !! Hybrid.get_artifact_s3path Scenario.hrepo "app" LATEST_VERSION
        = Some oL /\
      it_sha256 r0.2 = Some "sha256:v2") as (r0 & sk1 & i1 & oL & Hl & Hn & Hk & Hs).
    { eexists _, _, _, _. split_and!; vm_compute; reflexivity. }
    rewrite (Hnext r0 sk1 i1 2 oL Hl Hn ltac:(lia) Hk), Hs. reflexivity.
Defined.

(** C1, as stated, fails in the object-store-only backend: after
    [put_artifact] and one [publish_artifact_version] the listing has two
    entries and the previous numeric version is 1, yet a second publish
    returns version ["1"], not ["2"]. *)
Lemma publish_previous_plus_one_counterexample :
  exists e0 k1 o1 a,
    take 2 (objects_under (S3Only._get_artifact_s3dir Scenario.s3repo "app")
              (s3 Scenario.s2)) = [e0; (k1, o1)] /\
    S3Only.decode_filename (fname k1) = Ok "1" /\
    (S3Only.publish_artifact_version Scenario.s3repo "app" Scenario.s2).1 = Ok a /\
    S3Only.version a = "1" /\
    S3Only.version a <> str_int (1 + 1).
Proof.
  eexists _, _, _, _. split_and!.
  - vm_compute. reflexivity.
  - vm_compute. reflexivity.
  - vm_compute. reflexivity.
  - reflexivity.
  - vm_compute. discriminate.
Qed.

(** * Publishing twice *)

#[local] Set Warnings "-clear-no-such-hyp".

Section PublishTwice.
Context (s3repo : S3Only.Repository) (hrepo : Hybrid.Repository).

Lemma s3only_version_key_1 (name : string) :
  s3only_version_key s3repo name 1 =
    S3Only._get_artifact_s3dir s3repo name +:+ "versions/" +:+ "999999_000001"
      +:+ S3Only.suffix s3repo.
Proof. reflexivity. Qed.

Lemma s3only_latest_before_first (name : string) :
  key_lt (s3only_latest_key s3repo name) (s3only_version_key s3repo name 1).
Proof.
  rewrite s3only_version_key_1. unfold s3only_latest_key, key_lt.
  rewrite !compare_app_same. reflexivity.
Qed.

Lemma s3only_key_under_dir (name : string) (m : Z) :
  String.prefix (S3Only._get_artifact_s3dir s3repo name)
    (s3only_version_key s3repo name m) = true.
Proof. apply prefix_app. Qed.

(** The listing of a fresh artifact after its first publish. *)
Lemma s3only_listing_after_first (name : string) (m : gmap key s3object)
    (oL o' : s3object) :
  objects_under (S3Only._get_artifact_s3dir s3repo name) m
    = [(s3only_latest_key s3repo name, oL)] ->
  objects_under (S3Only._get_artifact_s3dir s3repo name)
    (<[s3only_version_key s3repo name 1 := o']> m)
    = [(s3only_latest_key s3repo name, oL); (s3only_version_key s3repo name 1, o')].
Proof.
  intros Hl. pose proof (s3only_latest_before_first name) as Hlt.
  assert (s3only_latest_key s3repo name <> s3only_version_key s3repo name 1) as Hne.
  { intros Heq. unfold key_lt in Hlt. by rewrite Heq, compare_refl in Hlt. }
  assert (forall k o, m !! k = Some o /\
            String.prefix (S3Only._get_artifact_s3dir s3repo name) k = true <->
            (k, o) = (s3only_latest_key s3repo name, oL)) as Helem.
  { intros k o. rewrite <-elem_of_objects_under, Hl. apply list_elem_of_singleton. }
  apply objects_under_unique.
  - repeat constructor. by apply key_lt_le.
  - apply NoDup_cons. split; [|apply NoDup_singleton].
    rewrite list_elem_of_singleton. congruence.
  - intros k o. rewrite !elem_of_cons, elem_of_nil.
    destruct (decide (k = s3only_version_key s3repo name 1)) as [->|Hk].
    + rewrite lookup_insert_eq, s3only_key_under_dir. naive_solver.
    + rewrite lookup_insert_ne by done. rewrite Helem. naive_solver.
Qed.

Lemma hybrid_rows_after_first (name : string) (t : gmap (string * string) item)
    (i0 i1 : item) :
  partition_desc name t = [(LATEST_VERSION, i0)] ->
  partition_desc name (<[(name, hybrid_sort_key 1) := i1]> t)
    = [(LATEST_VERSION, i0); (hybrid_sort_key 1, i1)].
Proof.
  intros Hl.
  assert (forall sk i, t !! (name, sk) = Some i <-> (sk, i) = (LATEST_VERSION, i0))
    as Helem.
  { intros sk i. rewrite <-elem_of_partition_desc, Hl. apply list_elem_of_singleton. }
  apply partition_desc_unique.
  - repeat constructor.
  - apply NoDup_cons. split; [|apply NoDup_singleton].
    rewrite list_elem_of_singleton. by intros [= ? ?].
  - intros sk i. rewrite !elem_of_cons, elem_of_nil.
    destruct (decide (sk = hybrid_sort_key 1)) as [->|Hk].
    + rewrite lookup_insert_eq.
      assert (hybrid_sort_key 1 <> LATEST_VERSION) by done. naive_solver.
    + rewrite lookup_insert_ne by congruence. rewrite Helem. naive_solver.
Qed.

End PublishTwice.

Section FnameFacts.

Lemma split_nonempty (sep : ascii) (s : string) : split sep s <> [].
Proof.
  induction s as [|c s IH]; simpl; [done|].
  destruct (Ascii.eqb c sep); [done|]. by destruct (split sep s).
Qed.

Lemma split_no_sep (sep : ascii) (s : string) :
  contains sep s = false -> split sep s = [s].
Proof.
  induction s as [|c s IH]; simpl; [done|].
  rewrite Ascii.eqb_sym. intros [Hc Hs]%orb_false_iff.
  rewrite Hc, IH by done. done.
Qed.

Lemma split_app_sep (sep : ascii) (a b : string) :
  exists l, l <> [] /\ split sep (a +:+ String sep b) = (l ++ split sep b)%list.
Proof.
  induction a as [|c a (l & Hl & IH)].
  - exists [""]. split; [done|].
    change ("" +:+ String sep b) with (String sep b). cbn [split].
    by rewrite Ascii.eqb_refl.
  - change (String c a +:+ String sep b) with (String c (a +:+ String sep b)).
    cbn [split]. rewrite IH.
    destruct (Ascii.eqb c sep).
    + exists ("" :: l). done.
    + destruct l as [|x l]; [done|]. exists (String c x :: l). done.
Qed.

Lemma basename_app (a b : string) :
  contains "/" b = false -> basename (a +:+ String "/" b) = b.
Proof.
  intros Hb. unfold basename.
  destruct (split_app_sep "/" a b) as (l & Hl & ->).
  rewrite split_no_sep by done. apply List.last_last.
Qed.

Lemma rfind_dot_none (s : string) (i : nat) :
  contains "." s = false -> rfind_dot s i = None.
Proof.
  revert i. induction s as [|c s IH]; intros i; cbn [contains rfind_dot]; [done|].
  rewrite Ascii.eqb_sym. intros [Hc Hs]%orb_false_iff.
  by rewrite IH, Hc.
Qed.

(** [fname] gives back a file name without ["/"] and ["."] that was joined
    to a directory. *)
Lemma fname_app (a b : string) :
  contains "/" b = false -> contains "." b = false ->
  fname (a +:+ String "/" b) = b.
Proof.
  intros Hs Hd. unfold fname. rewrite basename_app by done.
  by rewrite rfind_dot_none.
Qed.

(** With the default (empty) suffix [fname] recovers the file name of the
    first version from its key. *)
Lemma fname_default_suffix (self : S3Only.Repository) (name : string) :
  S3Only.suffix self = "" ->
  fname (s3only_version_key self name 1) = "999999_000001".
Proof.
  intros Hsuf.
  replace (s3only_version_key self name 1) with
    ((S3Only.s3_prefix self +:+ "/" +:+ name +:+ "/" +:+ "versions")
       +:+ String "/" "999999_000001").
  { by apply fname_app. }
  unfold s3only_version_key, S3Only._get_artifact_s3dir. rewrite Hsuf.
  rewrite !append_assoc. reflexivity.
Qed.

End FnameFacts.

Section PublishAgain.
Context (s3repo : S3Only.Repository) (hrepo : Hybrid.Repository).

Lemma hybrid_sort_key_head (m : Z) :
  0 <= m ->
  exists c s d, hybrid_sort_key m = String c s /\ digit_val c = Some d.
Proof.
  intros Hm. unfold hybrid_sort_key, Dynamodb.encode_version, str_of, str_int.
  destruct (Z.ltb_spec m 0); [lia|].
  rewrite zfill_digits by (by apply all_digits_str_nonneg).
  destruct (VERSION_ZFILL - String.length (str_nonneg m))%nat as [|k].
  - destruct (str_nonneg_head m Hm) as (c & s & d & -> & Hc & _). by exists c, s, d.
  - by exists "0"%char, (zeros k +:+ str_nonneg m), 0.
Qed.

Lemma hybrid_latest_not_version (name : string) (m : Z) :
  0 < m ->
  Hybrid.get_artifact_s3path hrepo name LATEST_VERSION
    <> hybrid_version_key hrepo name m.
Proof.
  intros Hm. unfold hybrid_version_key, Hybrid.get_artifact_s3path.
  destruct (hybrid_sort_key_positive m Hm) as (_ & -> & _).
  destruct (hybrid_sort_key_head m) as (c & s & d & -> & Hc); [lia|].
  intros Heq. do 4 apply (inj (String.append _)) in Heq.
  change (Dynamodb.encode_version_sk (VStr LATEST_VERSION) +:+ Hybrid.suffix hrepo)
    with (String "L" ("ATEST" +:+ Hybrid.suffix hrepo)) in Heq.
  change (String c s +:+ Hybrid.suffix hrepo)
    with (String c (s +:+ Hybrid.suffix hrepo)) in Heq.
  injection Heq as <- _. by vm_compute in Hc.
Qed.

Lemma s3only_publish_twice (name : string) (d : Z) (w : world)
    (oL : s3object) (sha : string) :
  fname (s3only_version_key s3repo name 1) = "999999_000001" ->
  objects_under (S3Only._get_artifact_s3dir s3repo name) (s3 w)
    = [(s3only_latest_key s3repo name, oL)] ->
  obj_metadata oL !! "artifact_sha256" = Some sha ->
  exists a1 w1,
    S3Only.publish_artifact_version s3repo name w = (Ok a1, w1) /\
    S3Only.version a1 = "1" /\
    trace w1 = (trace w ++ [S3CopyObject (s3only_latest_key s3repo name)
                              (s3only_version_key s3repo name 1)])%list /\
    S3Only.publish_artifact_version s3repo name (advance d w1)
      = (Ok a1, advance d w1).
Proof.
  intros Hfname Hl Hsha.
  assert (s3 w !! s3only_latest_key s3repo name = Some oL) as Hk.
  { eapply elem_of_objects_under. rewrite Hl. by left. }
  eexists _, _. split.
  { eapply s3only_publish_first; [by rewrite Hl|done..]. }
  split_and!; [done..|].
  pose proof (s3only_latest_before_first s3repo name) as Hlt.
  etrans; [|reflexivity].
  eapply (s3only_publish_unchanged s3repo name _
            (s3only_latest_key s3repo name, oL)
            (s3only_version_key s3repo name 1) (copied oL (clock w)) oL "1" sha 1).
  - cbn [advance s3 log set_s3].
    erewrite s3only_listing_after_first by done. reflexivity.
  - by rewrite Hfname.
  - done.
  - cbn [advance s3 log set_s3]. rewrite lookup_insert_ne; [done|].
    intros Heq. unfold key_lt in Hlt. by rewrite Heq, compare_refl in Hlt.
  - done.
  - done.
Qed.

Lemma hybrid_publish_twice (name : string) (d : Z) (w : world)
    (i0 : item) (oL : s3object) :
  partition_desc name (table w) = [(LATEST_VERSION, i0)] ->
  s3 w !! Hybrid.get_artifact_s3path hrepo name LATEST_VERSION = Some oL ->
  exists a1 w1 a2 w2,
    Hybrid.publish_artifact_version hrepo name w = (Ok a1, w1) /\
    Hybrid.version a1 = "1" /\
    Hybrid.publish_artifact_version hrepo name (advance d w1) = (Ok a2, w2) /\
    Hybrid.version a2 = "2" /\
    table w1 !! (name, hybrid_sort_key 2) = None /\
    table w2 !! (name, hybrid_sort_key 2)
      = Some (artifact_item (clock w + d) (it_sha256 i0)) /\
    s3 w2 !! hybrid_version_key hrepo name 2 = Some (copied oL (clock w + d)) /\
    trace w2 =
      (trace w1 ++ [S3CopyObject (Hybrid.get_artifact_s3path hrepo name LATEST_VERSION)
                      (hybrid_version_key hrepo name 2);
                    DdbPutItem name (hybrid_sort_key 2)])%list.
Proof.
  intros Hl Hk.
  assert (forall sk i, table w !! (name, sk) = Some i -> sk = LATEST_VERSION)
    as Honly.
  { intros sk i Hin. apply elem_of_partition_desc in Hin.
    rewrite Hl in Hin. apply list_elem_of_singleton in Hin. by simplify_eq. }
  eexists _, _, _, _. split.
  { eapply hybrid_publish_first; [by rewrite Hl|done]. }
  split; [done|]. split.
  { eapply (hybrid_publish_next hrepo name _ _ _ _ 1).
    - cbn [advance table log set_table].
      erewrite hybrid_rows_after_first by done. reflexivity.
    - reflexivity.
    - done.
    - cbn [advance s3 log set_s3 set_table]. rewrite lookup_insert_ne; [done|].
      symmetry. by apply hybrid_latest_not_version. }
  cbn [advance s3 table trace clock log set_s3 set_table fst snd].
  split_and!.
  - done.
  - rewrite lookup_insert_ne by (by intros [= ?]).
    destruct (table w !! (name, hybrid_sort_key 2)) as [i|] eqn:Hi; [|done].
    by apply Honly in Hi.
  - by rewrite lookup_insert_eq.
  - by rewrite lookup_insert_eq.
  - by rewrite <-app_assoc.
Qed.

End PublishAgain.

(** * Soft deletion in the hybrid backend *)

Section SoftDelete.
Context (self : Hybrid.Repository).

Lemma lstrip0_decompose (s : string) :
  all_digits s = true ->
  exists j, s = zeros j +:+ lstrip0 s /\ all_digits (lstrip0 s) = true.
Proof.
  induction s as [|c s IH]; intros Hs; cbn [lstrip0].
  { by exists 0%nat. }
  destruct (Ascii.eqb_spec c "0") as [->|Hne].
  - cbn [all_digits] in Hs. apply andb_true_iff in Hs as [_ Hs].
    destruct (IH Hs) as (j & Hj & Hd). exists (S j). split; [|done].
    cbn [zeros]. change (String "0" (zeros j) +:+ lstrip0 s)
      with (String "0" (zeros j +:+ lstrip0 s)). by rewrite <-Hj.
  - by exists 0%nat.
Qed.

(** On the valid version inputs the sort key [get_artifact_version] reads
    is the one [Artifact.new] writes. *)
Lemma valid_sort_key (v : pyver) :
  valid_version v = true -> v <> VNone ->
  Dynamodb.encode_version_sk v = Dynamodb.encode_version v.
Proof.
  intros Hv Hne. destruct v as [|n|s]; [done| |]; cbn [valid_version] in Hv.
  - apply andb_true_iff in Hv as [H1%Z.leb_le _].
    unfold Dynamodb.encode_version_sk, Dynamodb.encode_version, str_of, str_int.
    destruct (Z.ltb_spec n 0); [lia|]. by rewrite lstrip0_str_nonneg by lia.
  - destruct (String.eqb_spec s LATEST_VERSION) as [Heq|_]; [by subst s|].
    cbn [orb] in Hv. apply andb_true_iff in Hv as [Hnum Hlen%bool_decide_eq_true].
    apply numeric_spec in Hnum as [_ Hs].
    unfold Dynamodb.encode_version_sk, Dynamodb.encode_version, str_of.
    destruct (lstrip0_decompose s Hs) as (j & Hj & Hd).
    rewrite (zfill_digits _ s), (zfill_digits _ (lstrip0 s)) by done.
    remember (lstrip0 s) as t eqn:Ht. clear Ht. subst s.
    rewrite length_append, length_zeros in *.
    rewrite <-append_assoc, <-zeros_add. f_equal. f_equal.
    unfold VERSION_ZFILL in *. lia.
Qed.

Lemma valid_or_latest (v : pyver) :
  valid_version v = true ->
  valid_version (or_latest v) = true /\ or_latest v <> VNone.
Proof. by destruct v. Qed.

Lemma hybrid_delete_run (name : string) (v : pyver) (w : world) :
  Hybrid.delete_artifact_version name v w =
    (Ok tt,
     log (DdbUpdateItem name (Dynamodb.encode_version (or_latest v)))
       (set_table
          (<[(name, Dynamodb.encode_version (or_latest v))
               := Hybrid.mark_deleted
                    (default empty_item
                       (table w !! (name, Dynamodb.encode_version (or_latest v))))]>
             (table w)) w)).
Proof.
  unfold Hybrid.delete_artifact_version. run.
  by destruct v.
Qed.

Lemma hybrid_get_deleted (name : string) (v : pyver) (w : world) (i : item) :
  table w !! (name, Dynamodb.encode_version_sk (or_latest v)) = Some i ->
  it_is_deleted i = Some true ->
  Hybrid.get_artifact_version self name v w = (Raise ArtifactNotFoundError, w).
Proof.
  intros Hrow Hdel. unfold Hybrid.get_artifact_version,
    Hybrid._get_artifact_dynamodb_item. fold (or_latest v). run.
  rewrite Hrow. cbn [Dynamodb.Artifact.of_item Dynamodb.Artifact.is_deleted].
  rewrite Hdel. done.
Qed.

Lemma hybrid_list_run (name : string) (w : world) :
  Hybrid.list_artifact_versions self name w = (Ok (live_versions self name w), w).
Proof. unfold Hybrid.list_artifact_versions. run. done. Qed.

Lemma elem_of_live_versions (name : string) (w : world) (a : Hybrid.Artifact) :
  a ∈ live_versions self name w <->
  exists sk i,
    table w !! (name, sk) = Some i /\ it_is_deleted i = Some false /\
    a = Hybrid._get_artifact_object self (Dynamodb.Artifact.of_item name sk i).
Proof.
  unfold live_versions. rewrite list_elem_of_fmap. split.
  - intros ([sk i] & -> & Hin). apply list_elem_of_filter in Hin as [Hlive Hin].
    apply elem_of_partition_desc in Hin. unfold Hybrid.live in Hlive.
    apply bool_decide_eq_true in Hlive. by exists sk, i.
  - intros (sk & i & Hrow & Hdel & ->). exists (sk, i). split; [done|].
    apply list_elem_of_filter. rewrite elem_of_partition_desc.
    split; [|done]. unfold Hybrid.live. by apply bool_decide_eq_true.
Qed.

End SoftDelete.

(** C3. In the hybrid backend [delete_artifact_version] on an existing
    version only sets the deleted flag of its index row: the object store
    and every other row are unchanged, the row keeps its timestamp and
    hash, and the only event is an attribute update. Afterwards
    [get_artifact_version] for that name and version raises
    [ArtifactNotFound], and [list_artifact_versions] returns exactly the
    rows whose flag is not set. *)
Theorem delete_artifact_version_soft (self : Hybrid.Repository) (name : string)
    (v : pyver) (d : Z) (w : world) (i : item) :
  valid_version v = true ->
  table w !! (name, Dynamodb.encode_version_sk (or_latest v)) = Some i ->
  exists w',
    Hybrid.delete_artifact_version name v w = (Ok tt, w') /\
    s3 w' = s3 w /\
    table w' = <[(name, Dynamodb.encode_version_sk (or_latest v))
                   := Hybrid.mark_deleted i]> (table w) /\
    it_is_deleted (Hybrid.mark_deleted i) = Some true /\
    it_update_at (Hybrid.mark_deleted i) = it_update_at i /\
    it_sha256 (Hybrid.mark_deleted i) = it_sha256 i /\
    trace w' = (trace w ++ [DdbUpdateItem name
                              (Dynamodb.encode_version_sk (or_latest v))])%list /\
    Hybrid.get_artifact_version self name v (advance d w')
      = (Raise ArtifactNotFoundError, advance d w') /\
    (forall name' w'',
       Hybrid.list_artifact_versions self name' w''
         = (Ok (live_versions self name' w''), w'') /\
       forall a,
         a ∈ live_versions self name' w'' <->
         exists sk i',
           table w'' !! (name', sk) = Some i' /\ it_is_deleted i' = Some false /\
           a = Hybrid._get_artifact_object self
                 (Dynamodb.Artifact.of_item name' sk i')).
Proof.
  intros Hv Hrow. destruct (valid_or_latest v Hv) as [Hv' Hne].
  pose proof (valid_sort_key (or_latest v) Hv' Hne) as Hsk.
  eexists. split; [apply hybrid_delete_run|].
  cbn [s3 table trace log set_s3 set_table]. rewrite <-Hsk, Hrow.
  split_and!; [done..| |].
  - eapply hybrid_get_deleted.
    + cbn [advance table log set_table]. by rewrite lookup_insert_eq.
    + done.
  - intros name' w''. split; [apply hybrid_list_run|apply elem_of_live_versions].
Qed.

Lemma delete_artifact_version_soft_witness :
  exists w',
    Hybrid.delete_artifact_version "app" (VInt 2) Scenario.h4 = (Ok tt, w') /\
    s3 w' = s3 Scenario.h4 /\
    Hybrid.get_artifact_version Scenario.hrepo "app" (VInt 2) (advance 1 w')
      = (Raise ArtifactNotFoundError, advance 1 w').
Proof.
  assert (exists i,
    table Scenario.h4 !! ("app", Dynamodb.encode_version_sk (or_latest (VInt 2)))
      = Some i) as (i & Hi).
  { eexists. vm_compute. reflexivity. }
  destruct (delete_artifact_version_soft Scenario.hrepo "app" (VInt 2) 1
              Scenario.h4 i ltac:(reflexivity) Hi)
    as (w' & H1 & H2 & _ & _ & _ & _ & _ & H3 & _).
  exists w'. exact (conj H1 (conj H2 H3)).
Defined.

(** * Validation in [put_alias] *)

Section PutAlias.
Context `{Hashes} (s3repo : S3Only.Repository) (hrepo : Hybrid.Repository).

Lemma s3only_put_alias_refused (name alias : string) (v sv : pyver)
    (wt : pyweight) (w : world) :
  refused_alias_request S3Only.encode_version alias v sv wt ->
  exists e, S3Only.put_alias s3repo name alias v sv wt w = (Raise e, w) /\
            validation_error e.
Proof.
  unfold refused_alias_request, S3Only.put_alias, validation_error.
  destruct (contains "-" alias); [intros _; eexists; split; [reflexivity|by left]|].
  intros [?|[Hsv Hbad]]; [done|].
  destruct sv as [|s|s]; [done|..];
    (destruct wt as [|z|];
     [eexists; split; [reflexivity|by right]
     |
     |eexists; split; [reflexivity|by right]]);
    (destruct (negb ((0 <=? z) && (z <? 100))) eqn:Hrange;
     [eexists; split; [run; reflexivity|by left]|]);
    (destruct Hbad as [Hbad|Hbad];
     [apply negb_false_iff, andb_true_iff in Hrange as [?%Z.leb_le ?%Z.ltb_lt]; lia
     |eexists; split;
        [run; rewrite Hbad, String.eqb_refl; run; reflexivity|by left]]).
Qed.

Lemma hybrid_put_alias_refused (name alias : string) (v sv : pyver)
    (wt : pyweight) (w : world) :
  refused_alias_request Dynamodb.encode_version alias v sv wt ->
  exists e, Hybrid.put_alias hrepo name alias v sv wt w = (Raise e, w) /\
            validation_error e.
Proof.
  unfold refused_alias_request, Hybrid.put_alias, validation_error.
  destruct (contains "-" alias); [intros _; eexists; split; [reflexivity|by left]|].
  intros [?|[Hsv Hbad]]; [done|].
  destruct sv as [|s|s]; [done|..];
    (destruct wt as [|z|];
     [eexists; split; [reflexivity|by right]
     |
     |eexists; split; [reflexivity|by right]]);
    (destruct (negb ((0 <=? z) && (z <? 100))) eqn:Hrange;
     [eexists; split; [run; reflexivity|by left]|]);
    (destruct Hbad as [Hbad|Hbad];
     [apply negb_false_iff, andb_true_iff in Hrange as [?%Z.leb_le ?%Z.ltb_lt]; lia
     |eexists; split;
        [run; rewrite Hbad, String.eqb_refl; run; reflexivity|by left]]).
Qed.

(** The lookup of the primary version in the hybrid [put_alias]. *)
Lemma hybrid_put_alias_lookup (name alias : string) (m : Z) (wt : pyweight)
    (w : world) :
  contains "-" alias = false -> 0 < m ->
  (table w !! (name, hybrid_sort_key m) = None \/
   exists i, table w !! (name, hybrid_sort_key m) = Some i /\
             it_is_deleted i = Some true) ->
  Hybrid.put_alias hrepo name alias (VInt m) VNone wt w
    = (Raise ArtifactNotFoundError, w).
Proof.
  intros Hhy Hm Hrow. unfold Hybrid.put_alias. rewrite Hhy.
  unfold Hybrid._get_artifact_dynamodb_item. fold (hybrid_sort_key m). run.
  assert (Dynamodb.encode_version_sk (VStr (hybrid_sort_key m)) = hybrid_sort_key m)
    as ->.
  { destruct (hybrid_sort_key_positive m Hm) as (Henc & _ & Hstrip).
    unfold Dynamodb.encode_version_sk. cbn [str_of]. rewrite Hstrip.
    exact Henc. }
  destruct Hrow as [->|(i & -> & Hdel)]; [done|].
  cbn [Dynamodb.Artifact.of_item Dynamodb.Artifact.is_deleted].
  by rewrite Hdel.
Qed.

(** The object-store-only [put_alias] on a request that passes its checks
    and names one existing version. *)
Lemma s3only_put_alias_single (name alias : string) (v : pyver) (wt : pyweight)
    (w : world) (kv : key) (o : s3object) :
  contains "-" alias = false ->
  S3Only._get_artifact_s3path s3repo name (VStr (S3Only.encode_version v)) = Ok kv ->
  s3 w !! kv = Some o ->
  let a := {| S3Only.alias_name := name; S3Only.alias := alias;
              S3Only.alias_update_at := clock w;
              S3Only.alias_version := S3Only.encode_version v;
              S3Only.secondary_version := None;
              S3Only.secondary_version_weight := wt;
              S3Only.version_s3uri := S3Only.uri s3repo kv;
              S3Only.secondary_version_s3uri := None |} in
  S3Only.put_alias s3repo name alias v VNone wt w
    = (Ok a, with_alias (S3Only._get_alias_s3path s3repo name alias) a w).
Proof.
  intros Hhy Hkv Hk a. unfold S3Only.put_alias. rewrite Hhy. run.
  rewrite Hkv. run. rewrite Hk, bool_decide_eq_true_2 by eauto.
  cbn [negb]. run. rewrite lookup_insert_eq. run. reflexivity.
Qed.

(** The object-store-only [put_alias] on a request that passes its checks
    and names two existing versions. *)
Lemma s3only_put_alias_pair (name alias : string) (v sv : pyver) (z : Z)
    (w : world) (kv ks : key) (o os : s3object) :
  contains "-" alias = false -> sv <> VNone -> 0 <= z < 100 ->
  S3Only.encode_version v <> S3Only.encode_version sv ->
  S3Only._get_artifact_s3path s3repo name (VStr (S3Only.encode_version v)) = Ok kv ->
  S3Only._get_artifact_s3path s3repo name (VStr (S3Only.encode_version sv)) = Ok ks ->
  s3 w !! kv = Some o -> s3 w !! ks = Some os ->
  let a := {| S3Only.alias_name := name; S3Only.alias := alias;
              S3Only.alias_update_at := clock w;
              S3Only.alias_version := S3Only.encode_version v;
              S3Only.secondary_version := Some (S3Only.encode_version sv);
              S3Only.secondary_version_weight := WInt z;
              S3Only.version_s3uri := S3Only.uri s3repo kv;
              S3Only.secondary_version_s3uri := Some (S3Only.uri s3repo ks) |} in
  S3Only.put_alias s3repo name alias v sv (WInt z) w
    = (Ok a, with_alias (S3Only._get_alias_s3path s3repo name alias) a w).
Proof.
  intros Hhy Hsv Hz Hne Hkv Hks Hk Hs a. unfold S3Only.put_alias. rewrite Hhy.
  assert (negb ((0 <=? z) && (z <? 100)) = false) as Hrange.
  { apply negb_false_iff, andb_true_iff. split; [apply Z.leb_le|apply Z.ltb_lt]; lia. }
  apply String.eqb_neq in Hne.
  destruct sv as [|n|t]; [done|..]; run; rewrite Hrange, Hne; run;
    rewrite Hkv; run; rewrite Hk, bool_decide_eq_true_2 by eauto;
    cbn [negb]; run; rewrite Hks; run; rewrite Hs, bool_decide_eq_true_2 by eauto;
    cbn [negb]; run; rewrite lookup_insert_eq; run; reflexivity.
Qed.

End PutAlias.

(** C4. What [put_alias] refuses, and what it lets through. In both
    backends it raises a validation error ([ValueError] or [TypeError]) and
    leaves both stores and the trace untouched when the alias name contains
    a hyphen, or when a secondary version is given and the weight is not an
    integer, the weight is outside [0, 100), or the secondary version is
    rendered like the primary one ([str] in the object-store-only backend,
    the zero-padded [str] in the hybrid backend). The reserved name [LATEST] is refused by
    [validate_alias_name], which no [put_alias] calls: the object-store-only
    [put_alias] accepts that name for every artifact that has a [LATEST]
    object and writes the alias object, and the hybrid [put_alias] takes it
    past the validation to the lookup of the version. The object-store-only
    backend also accepts the primary version [1] with the secondary version
    ["01"], which name the same object. *)
Theorem put_alias_accepts_reserved_name `{Hashes} (s3repo : S3Only.Repository)
    (hrepo : Hybrid.Repository) (name alias : string) (v sv : pyver)
    (wt : pyweight) (z : Z) (w : world) :
  (refused_alias_request S3Only.encode_version alias v sv wt ->
   exists e, S3Only.put_alias s3repo name alias v sv wt w = (Raise e, w) /\
             validation_error e) /\
  (refused_alias_request Dynamodb.encode_version alias v sv wt ->
   exists e, Hybrid.put_alias hrepo name alias v sv wt w = (Raise e, w) /\
             validation_error e) /\
  S3Only.validate_alias_name LATEST_VERSION = Raise ValueError /\
  (forall oL,
     s3 w !! s3only_latest_key s3repo name = Some oL ->
     exists a,
       S3Only.put_alias s3repo name LATEST_VERSION VNone VNone WNone w
         = (Ok a, with_alias (S3Only._get_alias_s3path s3repo name LATEST_VERSION) a w) /\
       S3Only.alias a = LATEST_VERSION /\
       S3Only.version_s3uri a = S3Only.uri s3repo (s3only_latest_key s3repo name)) /\
  (table w !! (name, hybrid_sort_key 1) = None ->
   Hybrid.put_alias hrepo name LATEST_VERSION (VInt 1) VNone WNone w
     = (Raise ArtifactNotFoundError, w)) /\
  (forall o1,
     contains "-" alias = false -> 0 <= z < 100 ->
     s3 w !! s3only_version_key s3repo name 1 = Some o1 ->
     exists a,
       S3Only.put_alias s3repo name alias (VInt 1) (VStr "01") (WInt z) w
         = (Ok a, with_alias (S3Only._get_alias_s3path s3repo name alias) a w) /\
       S3Only.secondary_version_s3uri a = Some (S3Only.version_s3uri a)).
Proof.
  split_and!.
  - apply s3only_put_alias_refused.
  - apply hybrid_put_alias_refused.
  - reflexivity.
  - intros oL Hk. eexists. split.
    { by eapply (s3only_put_alias_single s3repo name LATEST_VERSION VNone WNone w). }
    split; reflexivity.
  - intros Hrow. apply hybrid_put_alias_lookup; [reflexivity|lia|by left].
  - intros o1 Hhy Hz Hk. eexists. split.
    { by eapply (s3only_put_alias_pair s3repo name alias (VInt 1) (VStr "01") z w
                   (s3only_version_key s3repo name 1)
                   (s3only_version_key s3repo name 1) o1 o1). }
    reflexivity.
Qed.

Lemma put_alias_accepts_reserved_name_witness :
  (exists e,
     S3Only.put_alias (H := Scenario.hashes) Scenario.s3repo "app" "prod"
       (VInt 1) (VStr "1") (WInt 20) Scenario.s2 = (Raise e, Scenario.s2) /\
     validation_error e) /\
  (exists e,
     Hybrid.put_alias Scenario.hrepo "app" "prod" (VInt 1) (VStr "1") (WInt 20)
       Scenario.s2 = (Raise e, Scenario.s2) /\
     validation_error e) /\
  (exists a,
     S3Only.put_alias (H := Scenario.hashes) Scenario.s3repo "app" LATEST_VERSION
       VNone VNone WNone Scenario.s2
       = (Ok a, with_alias (H := Scenario.hashes)
                  (S3Only._get_alias_s3path Scenario.s3repo "app" LATEST_VERSION)
                  a Scenario.s2) /\
     S3Only.alias a = LATEST_VERSION) /\
  Hybrid.put_alias Scenario.hrepo "app" LATEST_VERSION (VInt 1) VNone WNone
    Scenario.s2 = (Raise ArtifactNotFoundError, Scenario.s2) /\
  (exists a,
     S3Only.put_alias (H := Scenario.hashes) Scenario.s3repo "app" "prod"
       (VInt 1) (VStr "01") (WInt 20) Scenario.s2
       = (Ok a, with_alias (H := Scenario.hashes)
                  (S3Only._get_alias_s3path Scenario.s3repo "app" "prod")
                  a Scenario.s2) /\
     S3Only.secondary_version_s3uri a = Some (S3Only.version_s3uri a)).
Proof.
  destruct (put_alias_accepts_reserved_name (H := Scenario.hashes) Scenario.s3repo
              Scenario.hrepo "app" "prod" (VInt 1) (VStr "1") (WInt 20) 20
              Scenario.s2) as (H1 & H2 & _ & H3 & H4 & H5).
  assert (refused_alias_request S3Only.encode_version "prod" (VInt 1) (VStr "1")
            (WInt 20)) as Hr1.
  { right. split; [discriminate|]. right. vm_compute. reflexivity. }
  assert (refused_alias_request Dynamodb.encode_version "prod" (VInt 1) (VStr "1")
            (WInt 20)) as Hr2.
  { right. split; [discriminate|]. right. vm_compute. reflexivity. }
  assert (exists oL, s3 Scenario.s2 !! s3only_latest_key Scenario.s3repo "app"
                       = Some oL) as (oL & HL).
  { eexists. vm_compute. reflexivity. }
  assert (exists o1, s3 Scenario.s2 !! s3only_version_key Scenario.s3repo "app" 1
                       = Some o1) as (o1 & Hv).
  { eexists. vm_compute. reflexivity. }
  assert (table Scenario.s2 !! ("app", hybrid_sort_key 1) = None) as Hrow.
  { vm_compute. reflexivity. }
  destruct (H3 oL HL) as (a & Ha1 & Ha2 & _).
  assert (contains "-" "prod" = false) as Hhy by (vm_compute; reflexivity).
  assert (0 <= 20 < 100) as Hz by lia.
  destruct (H5 o1 Hhy Hz Hv) as (b & Hb1 & Hb2).
  exact (conj (H1 Hr1) (conj (H2 Hr2)
           (conj (ex_intro _ a (conj Ha1 Ha2))
              (conj (H4 Hrow) (ex_intro _ b (conj Hb1 Hb2)))))).
Defined.

(** * Version numbers after a deletion *)

(** C5. The object-store-only backend assigns a version number twice: after
    [put], [publish] (version 1), [put], [publish] (version 2, content
    [v2]), [delete_artifact_version 2] and another [put] (content [v3]),
    the next [publish] returns version ["2"] again, now for the content
    [v3]. [delete_artifact_version] removes the object, although its
    docstring describes a soft delete, and the next number is read from
    the listing. *)
Theorem s3only_reuses_deleted_version_number :
  exists a a',
    (S3Only.publish_artifact_version Scenario.s3repo "app" Scenario.s3).1 = Ok a /\
    S3Only.version a = "2" /\ S3Only.sha256 a = "sha256:v2" /\
    (S3Only.publish_artifact_version Scenario.s3repo "app" Scenario.s6).1 = Ok a' /\
    S3Only.version a' = "2" /\ S3Only.sha256 a' = "sha256:v3".
Proof.
  eexists _, _. split_and!; [vm_compute; reflexivity|reflexivity|reflexivity
                            |vm_compute; reflexivity|reflexivity|reflexivity].
Qed.

(** The same session in the hybrid backend: the flagged row of version 2
    still counts, and the next publish gives version 3. *)
Lemma hybrid_fresh_number_after_delete :
  exists a,
    (Hybrid.publish_artifact_version Scenario.hrepo "app" Scenario.h6).1 = Ok a /\
    Hybrid.version a = "3" /\ Hybrid.sha256 a = Some "sha256:v3" /\
    (Hybrid.get_artifact_version Scenario.hrepo "app" (VInt 2) Scenario.h6).1
      = Raise ArtifactNotFoundError.
Proof.
  eexists. split_and!; [vm_compute; reflexivity|reflexivity|reflexivity|].
  vm_compute. reflexivity.
Qed.

(** * Order of the two writes *)

Section WriteOrder.
Context `{Hashes}.

(** [s3_and_dynamodb_backend.py]: whatever [put_artifact] does, it traces
    nothing, or the object write followed by the row write. *)
Lemma hybrid_put_storage_first (self : Hybrid.Repository) (name : string)
    (c : bytes) (md : option (gmap string string)) (w : world) :
  let out := Hybrid.put_artifact self name c md w in
  trace out.2 = trace w \/
  trace out.2 =
    (trace w ++ [S3PutObject (Hybrid.get_artifact_s3path self name LATEST_VERSION);
                 DdbPutItem name LATEST_VERSION])%list.
Proof.
  intros out. subst out.
  destruct (s3 w !! Hybrid.get_artifact_s3path self name LATEST_VERSION)
    as [o|] eqn:Hk.
  - destruct (obj_metadata o !! "artifact_sha256") as [h|] eqn:Hh.
    + destruct (decide (h = of_bytes c)) as [->|Hne].
      * left. by rewrite (hybrid_put_same self name c md w o).
      * right. rewrite hybrid_put_other, hybrid_write_artifact by eauto 10.
        cbn. by rewrite <-app_assoc.
    + left. unfold Hybrid.put_artifact. run.
      rewrite Hk, bool_decide_eq_true_2 by eauto. run. rewrite Hk. run.
      rewrite Hh. run. done.
  - right. rewrite hybrid_put_other, hybrid_write_artifact by eauto.
    cbn. by rewrite <-app_assoc.
Qed.

(** [s3_and_dynamodb_backend.py]: [publish_artifact_version] traces
    nothing, or the copy followed by the row write. *)
Lemma hybrid_publish_storage_first (self : Hybrid.Repository) (name : string)
    (w : world) :
  let out := Hybrid.publish_artifact_version self name w in
  trace out.2 = trace w \/
  exists k sk,
    trace out.2 =
      (trace w ++ [S3CopyObject (Hybrid.get_artifact_s3path self name LATEST_VERSION) k;
                   DdbPutItem name sk])%list.
Proof.
  intros out. subst out. unfold Hybrid.publish_artifact_version.
  rewrite bind_run. unfold query_desc. cbv beta iota.
  destruct (take 2 (partition_desc name (table w))) as [|r0 [|r1 rest]];
    cbn [fmap list_fmap]; [by left | |].
  - rewrite bind_run. unfold mret, M_ret, Store.ret. cbv beta iota.
    run. destruct (s3 w !! _) as [oL|]; [|by left]. run.
    rewrite lookup_insert_eq. run. right. eexists _, _. by rewrite <-app_assoc.
  - rewrite !bind_run. unfold lift at 1.
    destruct (int_of_str _) as [n|]; [|by left].
    unfold mret, M_ret, Store.ret. cbn [of_option]. cbv beta iota.
    run. destruct (s3 w !! _) as [oL|]; [|by left]. run.
    rewrite lookup_insert_eq. run. right. eexists _, _. by rewrite <-app_assoc.
Qed.

(** [core.py]: [publish_artifact_version] writes the row first. It traces
    nothing, or the row write alone when the copy fails, or the row write
    followed by the copy. *)
Lemma core_publish_index_first (self : Core.Repository) (name : string)
    (w : world) :
  let out := Core.publish_artifact_version self name w in
  trace out.2 = trace w \/
  exists sk,
    (out.1 = Raise ClientError /\
     trace out.2 = (trace w ++ [DdbPutItem name sk])%list /\
     is_Some (table out.2 !! (name, sk))) \/
    exists k,
      trace out.2 =
        (trace w ++ [DdbPutItem name sk;
                     S3CopyObject (Core._get_s3path self name LATEST_VERSION) k])%list.
Proof.
  intros out. subst out. unfold Core.publish_artifact_version.
  rewrite bind_run. unfold query_desc. cbv beta iota.
  destruct (take 2 (partition_desc name (table w))) as [|r0 [|r1 rest]];
    cbn [fmap list_fmap]; [by left | |].
  - rewrite bind_run. unfold mret, M_ret, Store.ret. cbv beta iota.
    run. right. eexists.
    destruct (s3 w !! _) as [oL|].
    + right. eexists. run. by rewrite <-app_assoc.
    + left. run. rewrite lookup_insert_eq. by eauto.
  - rewrite !bind_run. unfold lift at 1.
    destruct (int_of_str _) as [n|]; [|by left].
    unfold mret, M_ret, Store.ret. cbn [of_option]. cbv beta iota.
    run. right. eexists.
    destruct (s3 w !! _) as [oL|].
    + right. eexists. run. by rewrite <-app_assoc.
    + left. run. rewrite lookup_insert_eq. by eauto.
Qed.

End WriteOrder.

(** C10. The claim holds for [s3_and_dynamodb_backend.py]
    ([hybrid_put_storage_first], [hybrid_publish_storage_first]) but not
    for the hybrid repository of [core.py]: its
    [publish_artifact_version] saves the index row of version 1 before it
    copies the object. *)
Theorem core_publish_writes_index_before_storage :
  exists a w',
    Core.publish_artifact_version Scenario.crepo "app" Scenario.c1 = (Ok a, w') /\
    Core.version a = "1" /\
    trace w' =
      (trace Scenario.c1 ++
         [DdbPutItem "app" "000001";
          S3CopyObject "versioned/app/LATEST" "versioned/app/000001"])%list.
Proof.
  eexists _, _. split_and!; [vm_compute; reflexivity|reflexivity|].
  vm_compute. reflexivity.
Qed.

(** * Retention *)

Section Purge.
Context (self : Hybrid.Repository).

Lemma live_rows_sorted (name : string) (t : gmap (string * string) item) :
  Sorted sk_ge (filter (fun row => Hybrid.live row = true) (partition_desc name t)).
Proof.
  apply StronglySorted_Sorted.
  assert (StronglySorted sk_ge (partition_desc name t)) as Hs
    by (apply Sorted_StronglySorted; [apply _|apply partition_desc_sorted]).
  induction Hs as [|row l _ IH Hall]; [constructor|].
  rewrite filter_cons. destruct (decide _); [|done].
  constructor; [done|]. apply Forall_forall. intros x Hx.
  apply list_elem_of_filter in Hx as [_ Hx].
  by apply (proj1 (Forall_forall _ _) Hall).
Qed.

Lemma purge_loop_run (name : string) (expire : Z) (cands acc : list Hybrid.Artifact)
    (w : world) :
  Forall (fun a => is_Some (Hybrid.update_at a)) cands ->
  Hybrid.purge_loop name expire cands acc w =
    (Ok (acc ++ filter (fun a => older expire a = true) cands)%list,
     foldl (flag name) w (filter (fun a => older expire a = true) cands)).
Proof.
  intros Hall. revert acc w.
  induction Hall as [|a cands [t Ht] _ IH]; intros acc w; cbn [Hybrid.purge_loop].
  { run. by rewrite app_nil_r. }
  assert (older expire a = (t <? expire)) as Holder
    by (unfold older; by rewrite Ht).
  run. rewrite Ht. run. rewrite filter_cons.
  destruct (t <? expire) eqn:Hold.
  - rewrite decide_True by done. run. rewrite hybrid_delete_run. run.
    rewrite IH. cbn [foldl]. by rewrite <-app_assoc.
  - rewrite decide_False by (rewrite Holder; done). apply IH.
Qed.

Lemma foldl_flag_s3 (name : string) (l : list Hybrid.Artifact) (w : world) :
  s3 (foldl (flag name) w l) = s3 w /\ clock (foldl (flag name) w l) = clock w.
Proof.
  revert w. induction l as [|a l IH]; intros w; [done|].
  cbn [foldl]. by destruct (IH (flag name w a)) as [-> ->].
Qed.

Lemma foldl_flag_trace (name : string) (l : list Hybrid.Artifact) (w : world) :
  trace (foldl (flag name) w l)
    = (trace w ++ ((fun a => DdbUpdateItem name (row_of name a).2) <$> l))%list.
Proof.
  revert w. induction l as [|a l IH]; intros w; cbn [foldl fmap list_fmap].
  { by rewrite app_nil_r. }
  rewrite IH. cbn. by rewrite <-app_assoc.
Qed.

Lemma foldl_flag_rows (name : string) (l : list Hybrid.Artifact) (w : world)
    (key : string * string) (i : item) :
  table w !! key = Some i ->
  exists i', table (foldl (flag name) w l) !! key = Some i' /\
             (i' = i \/ i' = Hybrid.mark_deleted i).
Proof.
  revert w i. induction l as [|a l IH]; intros w i Hrow; cbn [foldl].
  { eauto. }
  destruct (decide (row_of name a = key)) as [<-|Hne].
  - destruct (IH (flag name w a) (Hybrid.mark_deleted i)) as (i' & Hi' & Hor).
    { cbn. by rewrite lookup_insert_eq, Hrow. }
    exists i'. split; [done|]. right. by destruct Hor as [->| ->].
  - destruct (IH (flag name w a) i) as (i' & Hi' & Hor).
    { cbn. by rewrite lookup_insert_ne. }
    by exists i'.
Qed.

Lemma foldl_flag_flagged (name : string) (l : list Hybrid.Artifact) (w : world)
    (a : Hybrid.Artifact) :
  a ∈ l ->
  exists i', table (foldl (flag name) w l) !! row_of name a = Some i' /\
             it_is_deleted i' = Some true.
Proof.
  revert w. induction l as [|b l IH]; intros w Hin; [by apply elem_of_nil in Hin|].
  cbn [foldl]. apply elem_of_cons in Hin as [->|Hin]; [|by apply IH].
  destruct (foldl_flag_rows name l (flag name w b) (row_of name b)
              (Hybrid.mark_deleted (default empty_item (table w !! row_of name b))))
    as (i' & Hi' & Hor).
  { cbn. by rewrite lookup_insert_eq. }
  exists i'. split; [done|]. by destruct Hor as [->| ->].
Qed.

Lemma foldl_flag_other (name : string) (l : list Hybrid.Artifact) (w : world)
    (key : string * string) :
  key ∉ row_of name <$> l ->
  table (foldl (flag name) w l) !! key = table w !! key.
Proof.
  revert w. induction l as [|a l IH]; intros w Hnot; [done|].
  cbn [foldl]. rewrite fmap_cons, not_elem_of_cons in Hnot.
  destruct Hnot as [Hne Hnot]. rewrite IH by done. cbn.
  by rewrite lookup_insert_ne.
Qed.

End Purge.

(** C6 (amended). [purge_artifact_versions] lists the live versions
    newest-first, skips the first [keep_last_n + 1] entries ([LATEST] and
    the [keep_last_n] most recent numbered versions), and soft-deletes
    exactly those of the remaining entries whose [update_at] is strictly
    older than the cutoff [now - purge_older_than_secs]: it sets the
    deleted flag of their rows, the only events are attribute updates, the
    object store is unchanged and every row stays in the index with its
    timestamp and hash. It returns the purge time [now] and the list of
    the purged records. *)
Theorem purge_artifact_versions_soft (self : Hybrid.Repository) (name : string)
    (keep_last_n purge_older_than_secs : Z) (w : world) :
  let listed := live_versions self name w in
  let kept := take (Z.to_nat (keep_last_n + 1)) listed in
  let candidates := drop (Z.to_nat (keep_last_n + 1)) listed in
  let expire := clock w - purge_older_than_secs in
  let purged := filter (fun a => older expire a = true) candidates in
  0 <= keep_last_n ->
  Forall (fun a => is_Some (Hybrid.update_at a)) candidates ->
  exists w',
    Hybrid.purge_artifact_versions self name keep_last_n purge_older_than_secs w
      = (Ok (clock w, purged), w') /\
    listed = (kept ++ candidates)%list /\
    Sorted sk_ge (filter (fun row => Hybrid.live row = true)
                    (partition_desc name (table w))) /\
    s3 w' = s3 w /\
    trace w' =
      (trace w ++ ((fun a => DdbUpdateItem name (row_of name a).2) <$> purged))%list /\
    (forall key i,
       table w !! key = Some i ->
       exists i', table w' !! key = Some i' /\
                  it_update_at i' = it_update_at i /\ it_sha256 i' = it_sha256 i) /\
    (forall a,
       a ∈ purged ->
       exists i', table w' !! row_of name a = Some i' /\
                  it_is_deleted i' = Some true) /\
    (forall key, key ∉ row_of name <$> purged -> table w' !! key = table w !! key).
Proof.
  intros listed kept candidates expire purged Hk Hall.
  exists (foldl (flag name) w purged). split_and!.
  - unfold Hybrid.purge_artifact_versions. rewrite bind_run, hybrid_list_run.
    cbv beta iota. run. unfold slice_from.
    destruct (Z.ltb_spec (keep_last_n + 1) 0); [lia|].
    fold listed. fold candidates. rewrite purge_loop_run by done. done.
  - symmetry. apply take_drop.
  - apply live_rows_sorted.
  - apply foldl_flag_s3.
  - apply foldl_flag_trace.
  - intros key i Hrow.
    destruct (foldl_flag_rows name purged w key i Hrow) as (i' & Hi' & [->| ->]);
      eexists; (split; [exact Hi'|done]).
  - intros a Ha. by apply foldl_flag_flagged.
  - intros key Hkey. by apply foldl_flag_other.
Qed.

Lemma purge_artifact_versions_soft_witness :
  exists w',
    Hybrid.purge_artifact_versions Scenario.hrepo "app" 0 1 (advance 10 Scenario.h4)
      = (Ok (clock (advance 10 Scenario.h4),
             filter (fun a => older (clock (advance 10 Scenario.h4) - 1) a = true)
               (drop (Z.to_nat (0 + 1))
                  (live_versions Scenario.hrepo "app" (advance 10 Scenario.h4)))),
         w') /\
    s3 w' = s3 (advance 10 Scenario.h4).
Proof.
  assert (Forall (fun a => is_Some (Hybrid.update_at a))
            (drop (Z.to_nat (0 + 1))
               (live_versions Scenario.hrepo "app" (advance 10 Scenario.h4))))
    as Hall.
  { vm_compute. repeat constructor; eexists; reflexivity. }
  destruct (purge_artifact_versions_soft Scenario.hrepo "app" 0 1
              (advance 10 Scenario.h4) ltac:(lia) Hall)
    as (w' & H1 & _ & _ & H2 & _).
  exists w'. exact (conj H1 H2).
Defined.

(** C6 as stated is refuted. After two publishes the purge with
    [keep_last_n = 0] and a cutoff of one second reports versions 2 and 1
    as purged, yet the object of version 2 is still in the object store and
    its row is still in the index; and the time it returns is the purge
    time 14, not the cutoff 13. *)
Lemma purge_hard_delete_counterexample :
  exists t purged w',
    Hybrid.purge_artifact_versions Scenario.hrepo "app" 0 1 (advance 10 Scenario.h4)
      = (Ok (t, purged), w') /\
    Hybrid.version <$> purged = ["2"; "1"] /\
    is_Some (s3 w' !! hybrid_version_key Scenario.hrepo "app" 2) /\
    is_Some (table w' !! ("app", hybrid_sort_key 2)) /\
    t = 14 /\
    t <> clock (advance 10 Scenario.h4) - 1.
Proof.
  eexists _, _, _. split; [vm_compute; reflexivity|].
  split; [vm_compute; reflexivity|].
  split; [eexists; vm_compute; reflexivity|].
  split; [eexists; vm_compute; reflexivity|].
  split; [reflexivity|]. vm_compute. discriminate.
Qed.

(** * Further properties of the codecs *)

Section SplitFacts.

Lemma split_app (sep : ascii) (a b : string) :
  split sep (a +:+ String sep b) = (split sep a ++ split sep b)%list.
Proof.
  induction a as [|c a IH].
  - change ("" +:+ String sep b) with (String sep b). cbn [split].
    by rewrite Ascii.eqb_refl.
  - change (String c a +:+ String sep b) with (String c (a +:+ String sep b)).
    cbn [split]. rewrite IH. destruct (Ascii.eqb c sep); [done|].
    pose proof (split_nonempty sep a). by destruct (split sep a).
Qed.

Lemma concat_split (sep : ascii) (s : string) :
  String.concat (String sep "") (split sep s) = s.
Proof.
  induction s as [|c s IH]; [done|]. cbn [split].
  pose proof (split_nonempty sep s) as Hne.
  destruct (Ascii.eqb_spec c sep) as [->|_].
  - destruct (split sep s) as [|x l] eqn:Hs; [done|].
    cbn [String.concat]. cbn [String.concat] in IH. by rewrite IH.
  - destruct (split sep s) as [|x [|y l]] eqn:Hs; [done|..].
    + cbn [String.concat] in *. by rewrite IH.
    + cbn [String.concat] in *. rewrite <-IH. reflexivity.
Qed.

Lemma substring_all (s : string) : String.substring 0 (String.length s) s = s.
Proof. induction s as [|c s IH]; [done|]. cbn. by rewrite IH. Qed.

Lemma removelast_snoc {A} (l : list A) (x : A) : removelast (l ++ [x]) = l.
Proof. apply removelast_last. Qed.

End SplitFacts.

(** X1. [Alias.name] recovers the artifact name from the partition key that
    [Alias.new] builds, for every name (hyphens included), and
    [Alias.alias] is the sort key. *)
Theorem alias_name_of_new (now : Z) (name alias : string) (v sv : pyver)
    (wt : pyweight) (a : Dynamodb.Alias.t) :
  Dynamodb.Alias.new now name alias v sv wt = Ok a ->
  Dynamodb.Alias.name a = name /\
  Dynamodb.Alias.alias a = alias /\
  Dynamodb.Alias.pk a = Dynamodb.encode_alias_pk name.
Proof.
  unfold Dynamodb.Alias.new. intros Hnew.
  assert (Dynamodb.Alias.pk a = "__" +:+ name +:+ "-alias" /\
          Dynamodb.Alias.sk a = alias) as [Hpk Hsk].
  { destruct sv; simpl in Hnew; [by simplify_eq/=|..];
      (destruct (String.eqb _ _); [done|by simplify_eq/=]). }
  split_and!; [|done|done].
  unfold Dynamodb.Alias.name. rewrite Hpk.
  change ("__" +:+ name +:+ "-alias") with ("__" +:+ (name +:+ String "-" "alias")).
  rewrite <-append_assoc, split_app.
  change (split "-" "alias") with ["alias"]. rewrite removelast_snoc, concat_split.
  change ("__" +:+ name) with (String "_" (String "_" name)).
  cbn [String.length String.substring].
  replace (S (S (String.length name)) - 2)%nat with (String.length name) by lia.
  apply substring_all.
Qed.

Lemma alias_name_of_new_witness :
  exists a,
    Dynamodb.Alias.new 0 "my-app" "prod" (VInt 1) (VInt 2) (WInt 20) = Ok a /\
    Dynamodb.Alias.name a = "my-app".
Proof.
  eexists. split; [reflexivity|].
  eapply (alias_name_of_new 0 "my-app" "prod" (VInt 1) (VInt 2) (WInt 20)).
  reflexivity.
Defined.

Section SortKeyFacts.

Lemma hybrid_sort_key_decimal (m : Z) :
  0 <= m < 10 ^ Z.of_nat VERSION_ZFILL ->
  hybrid_sort_key m = decimal VERSION_ZFILL m.
Proof.
  intros Hm. unfold hybrid_sort_key, Dynamodb.encode_version, str_of, str_int.
  destruct (Z.ltb_spec m 0); [lia|].
  apply zfill_str_nonneg; [unfold VERSION_ZFILL; lia|done].
Qed.

Lemma hybrid_sort_key_below_latest (m : Z) :
  0 <= m -> key_lt (hybrid_sort_key m) LATEST_VERSION.
Proof.
  intros Hm. destruct (hybrid_sort_key_head m Hm) as (c & s & d & -> & Hc).
  apply digit_char_digit_val in Hc as [Hd <-]. unfold key_lt.
  assert (exists n, d = Z.of_nat n /\ (n < 10)%nat) as (n & -> & Hn)
    by (exists (Z.to_nat d); lia).
  do 10 (destruct n as [|n]; [reflexivity|]). lia.
Qed.

End SortKeyFacts.

(** X2. The sort keys of the index order like the version numbers: for
    numbered versions [a < b] below [10^6] the key of [a] sorts before the
    key of [b], every such key sorts before [LATEST], and a query of the
    partition in descending order therefore gives [LATEST], then [b], then
    [a]. Beyond the padding width the order breaks: the key of [10^6]
    sorts before the key of [999999]. *)
Theorem hybrid_sort_key_newest_first (a b : Z) (name : string) (ia ib iL : item) :
  1 <= a -> a < b -> b < 10 ^ Z.of_nat VERSION_ZFILL ->
  key_lt (hybrid_sort_key a) (hybrid_sort_key b) /\
  key_lt (hybrid_sort_key b) LATEST_VERSION /\
  partition_desc name
    (<[(name, hybrid_sort_key a) := ia]>
       (<[(name, LATEST_VERSION) := iL]> {[ (name, hybrid_sort_key b) := ib ]}))
    = [(LATEST_VERSION, iL); (hybrid_sort_key b, ib); (hybrid_sort_key a, ia)] /\
  key_lt (hybrid_sort_key (10 ^ Z.of_nat VERSION_ZFILL))
    (hybrid_sort_key (10 ^ Z.of_nat VERSION_ZFILL - 1)).
Proof.
  intros Ha Hab Hb.
  assert (key_lt (hybrid_sort_key a) (hybrid_sort_key b)) as Hlt.
  { rewrite !hybrid_sort_key_decimal by lia. apply decimal_lt; lia. }
  assert (key_lt (hybrid_sort_key b) LATEST_VERSION) as HbL
    by (apply hybrid_sort_key_below_latest; lia).
  assert (key_lt (hybrid_sort_key a) LATEST_VERSION) as HaL
    by (apply hybrid_sort_key_below_latest; lia).
  assert (forall x y, key_lt x y -> x <> y) as Hne.
  { intros x y Hxy ->. unfold key_lt in Hxy. by rewrite compare_refl in Hxy. }
  split_and!; [done|done| |reflexivity].
  apply partition_desc_unique.
  - repeat constructor; unfold sk_ge; cbn [fst]; by apply key_lt_le.
  - repeat (apply NoDup_cons; split);
      rewrite ?elem_of_cons, ?elem_of_nil; [| |tauto|apply NoDup_nil_2].
    + intros [[= Heq _]|[[= Heq _]|[]]]; [by apply Hne in HbL|by apply Hne in HaL].
    + intros [[= Heq _]|[]]. by apply Hne in Hlt.
  - intros sk i. rewrite !elem_of_cons, elem_of_nil.
    destruct (decide (sk = hybrid_sort_key a)) as [->|Hka].
    { rewrite lookup_insert_eq. apply Hne in Hlt, HaL. naive_solver. }
    rewrite lookup_insert_ne by congruence.
    destruct (decide (sk = LATEST_VERSION)) as [->|HkL].
    { rewrite lookup_insert_eq. apply Hne in HbL. naive_solver. }
    rewrite lookup_insert_ne by congruence.
    destruct (decide (sk = hybrid_sort_key b)) as [->|Hkb].
    { rewrite lookup_singleton_eq. naive_solver. }
    rewrite lookup_singleton_ne by congruence. naive_solver.
Qed.

Lemma hybrid_sort_key_newest_first_witness :
  key_lt (hybrid_sort_key 9) (hybrid_sort_key 10) /\
  key_lt (hybrid_sort_key 10) LATEST_VERSION.
Proof.
  destruct (hybrid_sort_key_newest_first 9 10 "app" empty_item empty_item empty_item
              ltac:(lia) ltac:(lia) ltac:(reflexivity)) as (H1 & H2 & _).
  exact (conj H1 H2).
Defined.

(** * Further properties of the index-backed repositories *)

Section IndexFacts.

(** Replacing a row of a partition leaves the order of the partition. *)
Lemma partition_desc_replace (pk sk : string) (i i' : item)
    (t : gmap (string * string) item) :
  t !! (pk, sk) = Some i ->
  partition_desc pk (<[(pk, sk) := i']> t) =
    (fun row => if decide (row.1 = sk) then (sk, i') else row)
      <$> partition_desc pk t.
Proof.
  intros Hrow. apply partition_desc_unique.
  - eapply Sorted_fmap; [|apply partition_desc_sorted].
    intros [k1 j1] [k2 j2]. unfold sk_ge. cbn [fst].
    by repeat (destruct (decide _); simplify_eq/=).
  - apply NoDup_fmap_2_strong; [|apply partition_desc_NoDup].
    intros [k1 j1] [k2 j2] H1%elem_of_partition_desc H2%elem_of_partition_desc.
    cbn [fst]. repeat (destruct (decide _)); intros ?; simplify_eq/=; congruence.
  - intros k j. rewrite list_elem_of_fmap. split.
    + intros ([k1 j1] & Heq & Hin%elem_of_partition_desc). cbn [fst] in Heq.
      destruct (decide (k1 = sk)); simplify_eq.
      * by rewrite lookup_insert_eq.
      * by rewrite lookup_insert_ne by congruence.
    + destruct (decide (k = sk)) as [->|Hk].
      * rewrite lookup_insert_eq. intros [= <-]. exists (sk, i). cbn [fst].
        rewrite decide_True by done. by rewrite elem_of_partition_desc.
      * rewrite lookup_insert_ne by congruence. intros Hin. exists (k, j).
        cbn [fst]. rewrite decide_False by done. by rewrite elem_of_partition_desc.
Qed.

(** Flagging a row removes it from the live rows and keeps the others. *)
Lemma live_rows_after_flag (sk : string) (i : item) (l : list (string * item)) :
  filter (fun row => Hybrid.live row = true)
    ((fun row => if decide (row.1 = sk) then (sk, Hybrid.mark_deleted i) else row)
       <$> l)
  = filter (fun row => Hybrid.live row = true /\ row.1 <> sk) l.
Proof.
  induction l as [|[k j] l IH]; [done|]. rewrite fmap_cons, !filter_cons, IH.
  cbn [fst]. destruct (decide (k = sk)) as [->|Hk].
  - rewrite decide_False by done. by rewrite decide_False by tauto.
  - destruct (decide (Hybrid.live (k, j) = true)) as [Hl|Hl].
    + by rewrite decide_True by done.
    + by rewrite decide_False by tauto.
Qed.

End IndexFacts.

Section CoreFacts.
Context `{Hashes} (self : Core.Repository).

Lemma core_delete_run (name : string) (v : pyver) (w : world) :
  Core.delete_artifact_version name v w =
    (Ok tt,
     log (DdbUpdateItem name (Dynamodb.encode_version (or_latest v)))
       (set_table
          (<[(name, Dynamodb.encode_version (or_latest v))
               := Hybrid.mark_deleted
                    (default empty_item
                       (table w !! (name, Dynamodb.encode_version (or_latest v))))]>
             (table w)) w)).
Proof. unfold Core.delete_artifact_version. run. by destruct v. Qed.

Lemma core_get_run (name : string) (v : pyver) (w : world) :
  Core.get_artifact_version self name v w =
    match table w !! (name, Dynamodb.encode_version (or_latest v)) with
    | Some i =>
        if default false (it_is_deleted i) then (Raise ArtifactNotFoundError, w)
        else (Ok (Core._get_artifact_object self
                    (Dynamodb.Artifact.of_item name
                       (Dynamodb.encode_version (or_latest v)) i)), w)
    | None => (Raise ArtifactNotFoundError, w)
    end.
Proof.
  unfold Core.get_artifact_version, Core._get_artifact_dynamodb_item.
  fold (or_latest v). run.
  destruct (table w !! _) as [i|]; [|done].
  cbn [Dynamodb.Artifact.of_item Dynamodb.Artifact.is_deleted].
  by destruct (default false (it_is_deleted i)).
Qed.

Lemma core_list_run (name : string) (w : world) :
  Core.list_artifact_versions self name w =
    (Ok ((fun row => Core._get_artifact_object self
                       (Dynamodb.Artifact.of_item name row.1 row.2))
           <$> filter (fun row => Hybrid.live row = true)
                 (partition_desc name (table w))), w).
Proof. unfold Core.list_artifact_versions. run. done. Qed.

End CoreFacts.

(** X3. In [core.py], [delete_artifact_version] on an existing version (any
    version value; [None] stands for [LATEST]) only sets the deleted flag of
    its row: the object store is untouched and the only event is an
    attribute update. Afterwards [get_artifact_version] for that version
    raises [ArtifactNotFoundError], and [list_artifact_versions] returns
    the earlier live rows without that version, in the same order. *)
Theorem core_delete_artifact_version_soft (self : Core.Repository) (name : string)
    (v : pyver) (d : Z) (w : world) (i : item) :
  let sk := Dynamodb.encode_version (or_latest v) in
  table w !! (name, sk) = Some i ->
  exists w',
    Core.delete_artifact_version name v w = (Ok tt, w') /\
    s3 w' = s3 w /\
    table w' = <[(name, sk) := Hybrid.mark_deleted i]> (table w) /\
    it_update_at (Hybrid.mark_deleted i) = it_update_at i /\
    it_sha256 (Hybrid.mark_deleted i) = it_sha256 i /\
    trace w' = (trace w ++ [DdbUpdateItem name sk])%list /\
    Core.get_artifact_version self name v (advance d w')
      = (Raise ArtifactNotFoundError, advance d w') /\
    Core.list_artifact_versions self name (advance d w')
      = (Ok ((fun row => Core._get_artifact_object self
                           (Dynamodb.Artifact.of_item name row.1 row.2))
               <$> filter (fun row => Hybrid.live row = true /\ row.1 <> sk)
                     (partition_desc name (table w))),
         advance d w').
Proof.
  intros sk Hrow. eexists. split; [apply core_delete_run|].
  fold sk. rewrite Hrow. cbn [s3 table trace log set_s3 set_table default].
  split_and!; [done..| |].
  - rewrite core_get_run. fold sk. cbn [advance table log set_table].
    by rewrite lookup_insert_eq.
  - rewrite core_list_run. cbn [advance table log set_table].
    by rewrite (partition_desc_replace _ _ i), live_rows_after_flag.
Qed.

Lemma core_delete_artifact_version_soft_witness :
  exists w',
    Core.delete_artifact_version "app" VNone Scenario.c1 = (Ok tt, w') /\
    s3 w' = s3 Scenario.c1 /\
    Core.get_artifact_version Scenario.crepo "app" VNone (advance 1 w')
      = (Raise ArtifactNotFoundError, advance 1 w').
Proof.
  assert (exists i,
    table Scenario.c1 !! ("app", Dynamodb.encode_version (or_latest VNone)) = Some i)
    as (i & Hi).
  { eexists. vm_compute. reflexivity. }
  destruct (core_delete_artifact_version_soft Scenario.crepo "app" VNone 1
              Scenario.c1 i Hi) as (w' & H1 & H2 & _ & _ & _ & _ & H3 & _).
  exists w'. exact (conj H1 (conj H2 H3)).
Defined.

Section RoundTripFacts.
Context `{Hashes} (hrepo : Hybrid.Repository) (crepo : Core.Repository).

Lemma hybrid_get_run (name : string) (v : pyver) (w : world) :
  Hybrid.get_artifact_version hrepo name v w =
    match table w !! (name, Dynamodb.encode_version_sk (or_latest v)) with
    | Some i =>
        if default false (it_is_deleted i) then (Raise ArtifactNotFoundError, w)
        else (Ok (Hybrid._get_artifact_object hrepo
                    (Dynamodb.Artifact.of_item name
                       (Dynamodb.encode_version_sk (or_latest v)) i)), w)
    | None => (Raise ArtifactNotFoundError, w)
    end.
Proof.
  unfold Hybrid.get_artifact_version, Hybrid._get_artifact_dynamodb_item.
  fold (or_latest v). run.
  destruct (table w !! _) as [i|]; [|done].
  cbn [Dynamodb.Artifact.of_item Dynamodb.Artifact.is_deleted].
  by destruct (default false (it_is_deleted i)).
Qed.

Lemma core_put_other (name : string) (c : bytes)
    (md : option (gmap string string)) (w : world) :
  let k := Core._get_s3path crepo name LATEST_VERSION in
  (s3 w !! k = None \/
   exists o h, s3 w !! k = Some o /\
               obj_metadata o !! "artifact_sha256" = Some h /\ h <> of_bytes c) ->
  Core.put_artifact crepo name c md w =
    (Ok {| Core.name := name; Core.version := LATEST_VERSION;
           Core.update_at := Some (clock w);
           Core.s3uri := "s3://" +:+ Core.s3_bucket crepo +:+ "/" +:+ k;
           Core.sha256 := Some (of_bytes c) |},
     log (DdbPutItem name LATEST_VERSION)
       (set_table
          (<[(name, LATEST_VERSION) := artifact_item (clock w) (Some (of_bytes c))]>
             (table w))
          (log (S3PutObject k)
             (set_s3 (<[k := stored (Bytes c) (final_metadata name (of_bytes c) md)
                               (clock w)]> (s3 w)) w)))).
Proof.
  intros k Hcase. unfold Core.put_artifact. run. fold k.
  assert (Core.write_artifact crepo name c md (of_bytes c)
            (Dynamodb.Artifact.set_sha256 (Some (of_bytes c))
               (Dynamodb.Artifact.new (clock w) name VNone)) k w = 
          (Ok {| Core.name := name; Core.version := LATEST_VERSION;
           Core.update_at := Some (clock w);
           Core.s3uri := "s3://" +:+ Core.s3_bucket crepo +:+ "/" +:+ k;
           Core.sha256 := Some (of_bytes c) |},
     log (DdbPutItem name LATEST_VERSION)
       (set_table
          (<[(name, LATEST_VERSION) := artifact_item (clock w) (Some (of_bytes c))]>
             (table w))
          (log (S3PutObject k)
             (set_s3 (<[k := stored (Bytes c) (final_metadata name (of_bytes c) md)
                               (clock w)]> (s3 w)) w))))) as Hwrite.
  { unfold Core.write_artifact. run. by destruct md. }
  destruct Hcase as [Hnone|(o & h & Hk & Hh & Hne)].
  - rewrite Hnone, bool_decide_eq_false_2 by (by intros [??]). exact Hwrite.
  - rewrite Hk, bool_decide_eq_true_2 by eauto. run. rewrite Hk. run.
    rewrite Hh. run. apply String.eqb_neq in Hne. rewrite Hne. exact Hwrite.
Qed.

End RoundTripFacts.

(** X4. Hybrid backend: when [put_artifact] writes (there is no [LATEST]
    object yet, or it holds another hash), [get_artifact_version] without a
    version, or with [LATEST], returns afterwards the very record
    [put_artifact] returned, with the hash of the content. *)
Theorem hybrid_put_then_get `{Hashes} (self : Hybrid.Repository) (name : string)
    (c : bytes) (md : option (gmap string string)) (d : Z) (w : world) :
  let k := Hybrid.get_artifact_s3path self name LATEST_VERSION in
  (s3 w !! k = None \/
   exists o h, s3 w !! k = Some o /\
               obj_metadata o !! "artifact_sha256" = Some h /\ h <> of_bytes c) ->
  exists a w',
    Hybrid.put_artifact self name c md w = (Ok a, w') /\
    Hybrid.version a = LATEST_VERSION /\
    Hybrid.sha256 a = Some (of_bytes c) /\
    Hybrid.update_at a = Some (clock w) /\
    Hybrid.get_artifact_version self name VNone (advance d w')
      = (Ok a, advance d w') /\
    Hybrid.get_artifact_version self name (VStr LATEST_VERSION) (advance d w')
      = (Ok a, advance d w').
Proof.
  intros k Hcase. eexists _, _. split.
  { rewrite hybrid_put_other by done. apply hybrid_write_artifact. }
  split_and!; [done..| |];
    rewrite hybrid_get_run; cbn [advance table log set_table set_s3 or_latest];
    change (Dynamodb.encode_version_sk (VStr LATEST_VERSION)) with LATEST_VERSION;
    by rewrite lookup_insert_eq.
Qed.

Lemma hybrid_put_then_get_witness :
  exists a w',
    Hybrid.put_artifact (H := Scenario.hashes) Scenario.hrepo "app" Scenario.v1 None
      Scenario.empty = (Ok a, w') /\
    Hybrid.get_artifact_version Scenario.hrepo "app" VNone (advance 1 w')
      = (Ok a, advance 1 w').
Proof.
  destruct (hybrid_put_then_get (H := Scenario.hashes) Scenario.hrepo "app"
              Scenario.v1 None 1 Scenario.empty ltac:(left; reflexivity))
    as (a & w' & H1 & _ & _ & _ & H2 & _).
  exists a, w'. exact (conj H1 H2).
Defined.

(** X5. [core.py]: when [put_artifact] writes, [get_artifact_version]
    without a version returns afterwards the record [put_artifact]
    returned; its timestamp is the time of the call. *)
Theorem core_put_then_get `{Hashes} (self : Core.Repository) (name : string)
    (c : bytes) (md : option (gmap string string)) (d : Z) (w : world) :
  let k := Core._get_s3path self name LATEST_VERSION in
  (s3 w !! k = None \/
   exists o h, s3 w !! k = Some o /\
               obj_metadata o !! "artifact_sha256" = Some h /\ h <> of_bytes c) ->
  exists a w',
    Core.put_artifact self name c md w = (Ok a, w') /\
    Core.version a = LATEST_VERSION /\
    Core.sha256 a = Some (of_bytes c) /\
    Core.update_at a = Some (clock w) /\
    trace w' = (trace w ++ [S3PutObject k; DdbPutItem name LATEST_VERSION])%list /\
    Core.get_artifact_version self name VNone (advance d w')
      = (Ok a, advance d w').
Proof.
  intros k Hcase. eexists _, _. split; [by apply core_put_other|].
  split_and!; [done..| |].
  - cbn [trace log set_table set_s3]. by rewrite <-app_assoc.
  - rewrite core_get_run. cbn [advance table log set_table set_s3 or_latest].
    change (Dynamodb.encode_version (VStr LATEST_VERSION)) with LATEST_VERSION.
    by rewrite lookup_insert_eq.
Qed.

Lemma core_put_then_get_witness :
  exists a w',
    Core.put_artifact (H := Scenario.hashes) Scenario.crepo "app" Scenario.v1 None
      Scenario.empty = (Ok a, w') /\
    Core.get_artifact_version Scenario.crepo "app" VNone (advance 1 w')
      = (Ok a, advance 1 w').
Proof.
  destruct (core_put_then_get (H := Scenario.hashes) Scenario.crepo "app"
              Scenario.v1 None 1 Scenario.empty ltac:(left; reflexivity))
    as (a & w' & H1 & _ & _ & _ & _ & H2).
  exists a, w'. exact (conj H1 H2).
Defined.

(** X6. Hybrid backend: [put_artifact] decides from the object store alone
    whether the content changed. After [LATEST] was soft-deleted, putting
    the same bytes again writes nothing and returns the record as before,
    and [get_artifact_version] still raises [ArtifactNotFoundError];
    putting bytes with another hash writes the object and a fresh row, and
    [LATEST] is visible again. *)
Theorem hybrid_put_same_bytes_keeps_deleted `{Hashes} (self : Hybrid.Repository)
    (name : string) (c c' : bytes) (md : option (gmap string string))
    (d1 d2 d3 : Z) (w w1 : world) (a : Hybrid.Artifact) :
  keeps_hash md ->
  Hybrid.put_artifact self name c md w = (Ok a, w1) ->
  exists w2,
    Hybrid.delete_artifact_version name VNone (advance d1 w1) = (Ok tt, w2) /\
    Hybrid.put_artifact self name c md (advance d2 w2) = (Ok a, advance d2 w2) /\
    Hybrid.get_artifact_version self name VNone (advance d2 w2)
      = (Raise ArtifactNotFoundError, advance d2 w2) /\
    (of_bytes c' <> of_bytes c ->
     exists a' w3,
       Hybrid.put_artifact self name c' md (advance d2 w2) = (Ok a', w3) /\
       Hybrid.sha256 a' = Some (of_bytes c') /\
       Hybrid.get_artifact_version self name VNone (advance d3 w3)
         = (Ok a', advance d3 w3)).
Proof.
  intros Hmd Hput.
  destruct (hybrid_put_post self name c md w w1 a Hmd Hput) as (o1 & Hk & Hsha & ->).
  eexists. split; [apply hybrid_delete_run|].
  cbn [or_latest]. change (Dynamodb.encode_version (VStr LATEST_VERSION))
    with LATEST_VERSION.
  split_and!.
  - by apply hybrid_put_same.
  - eapply hybrid_get_deleted.
    + cbn [advance table log set_table or_latest].
      change (Dynamodb.encode_version_sk (VStr LATEST_VERSION)) with LATEST_VERSION.
      by rewrite lookup_insert_eq.
    + done.
  - intros Hne. eexists _, _. split.
    { rewrite hybrid_put_other; [apply hybrid_write_artifact|].
      right. exists o1, (of_bytes c). by split_and!. }
    split; [done|].
    rewrite hybrid_get_run. cbn [advance table log set_table set_s3 or_latest].
    change (Dynamodb.encode_version_sk (VStr LATEST_VERSION)) with LATEST_VERSION.
    by rewrite lookup_insert_eq.
Qed.

Lemma hybrid_put_same_bytes_keeps_deleted_witness :
  exists a w1 w2,
    Hybrid.put_artifact (H := Scenario.hashes) Scenario.hrepo "app" Scenario.v1 None
      Scenario.empty = (Ok a, w1) /\
    Hybrid.delete_artifact_version "app" VNone (advance 1 w1) = (Ok tt, w2) /\
    Hybrid.put_artifact (H := Scenario.hashes) Scenario.hrepo "app" Scenario.v1 None
      (advance 1 w2) = (Ok a, advance 1 w2) /\
    Hybrid.get_artifact_version Scenario.hrepo "app" VNone (advance 1 w2)
      = (Raise ArtifactNotFoundError, advance 1 w2).
Proof.
  assert (exists a w1,
    Hybrid.put_artifact (H := Scenario.hashes) Scenario.hrepo "app" Scenario.v1 None
      Scenario.empty = (Ok a, w1)) as (a & w1 & Hput).
  { eexists _, _. vm_compute. reflexivity. }
  destruct (hybrid_put_same_bytes_keeps_deleted (H := Scenario.hashes)
              Scenario.hrepo "app" Scenario.v1 Scenario.v2 None 1 1 1
              Scenario.empty w1 a I Hput) as (w2 & H1 & H2 & H3 & _).
  exists a, w1, w2. exact (conj Hput (conj H1 (conj H2 H3))).
Defined.

(** X7. [put_artifact] never modifies a published version: whatever its
    outcome, in the object-store-only backend every object other than
    [LATEST] of that artifact is unchanged, and in the hybrid backend so
    are every object other than [LATEST] and every index row other than
    the [LATEST] row of that artifact. *)
Theorem put_artifact_writes_latest_only `{Hashes} (s3repo : S3Only.Repository)
    (hrepo : Hybrid.Repository) (name : string) (c : bytes)
    (md : option (gmap string string)) (w : world) :
  (let out := S3Only.put_artifact s3repo name c md w in
   table out.2 = table w /\
   forall k, k <> s3only_latest_key s3repo name -> s3 out.2 !! k = s3 w !! k) /\
  (let out := Hybrid.put_artifact hrepo name c md w in
   (forall k,
      k <> Hybrid.get_artifact_s3path hrepo name LATEST_VERSION ->
      s3 out.2 !! k = s3 w !! k) /\
   (forall row, row <> (name, LATEST_VERSION) -> table out.2 !! row = table w !! row)).
Proof.
  split.
  - intros out. subst out.
    destruct (s3 w !! s3only_latest_key s3repo name) as [o|] eqn:Hk.
    + destruct (obj_metadata o !! "artifact_sha256") as [h|] eqn:Hh.
      * destruct (decide (h = of_bytes c)) as [->|Hne].
        { by rewrite (s3only_put_same s3repo name c md w o). }
        rewrite s3only_put_other, s3only_write_artifact by eauto 10.
        cbn [snd s3 table log set_s3]. split; [done|]. intros k Hne'.
        by rewrite lookup_insert_ne.
      * unfold S3Only.put_artifact. rewrite s3only_latest_path. run.
        rewrite Hk, bool_decide_eq_true_2 by eauto. run. rewrite Hk. run.
        unfold S3Only.metadata_sha256, METADATA_KEY_ARTIFACT_SHA256.
        rewrite Hh. run. done.
    + rewrite s3only_put_other, s3only_write_artifact by eauto.
      cbn [snd s3 table log set_s3]. split; [done|]. intros k Hne'.
      by rewrite lookup_insert_ne.
  - intros out. subst out.
    destruct (s3 w !! Hybrid.get_artifact_s3path hrepo name LATEST_VERSION)
      as [o|] eqn:Hk.
    + destruct (obj_metadata o !! "artifact_sha256") as [h|] eqn:Hh.
      * destruct (decide (h = of_bytes c)) as [->|Hne].
        { by rewrite (hybrid_put_same hrepo name c md w o). }
        rewrite hybrid_put_other, hybrid_write_artifact by eauto 10.
        cbn [snd s3 table log set_s3 set_table].
        split; intros ??; by rewrite lookup_insert_ne.
      * unfold Hybrid.put_artifact. run.
        rewrite Hk, bool_decide_eq_true_2 by eauto. run. rewrite Hk. run.
        rewrite Hh. run. done.
    + rewrite hybrid_put_other, hybrid_write_artifact by eauto.
      cbn [snd s3 table log set_s3 set_table].
      split; intros ??; by rewrite lookup_insert_ne.
Qed.

Lemma put_artifact_writes_latest_only_witness :
  s3 (S3Only.put_artifact (H := Scenario.hashes) Scenario.s3repo "app" Scenario.v3
        None Scenario.s4).2 !! s3only_version_key Scenario.s3repo "app" 2
    = s3 Scenario.s4 !! s3only_version_key Scenario.s3repo "app" 2.
Proof.
  destruct (put_artifact_writes_latest_only (H := Scenario.hashes) Scenario.s3repo
              Scenario.hrepo "app" Scenario.v3 None Scenario.s4) as [[_ Hs3] _].
  apply Hs3. vm_compute. discriminate.
Defined.

(** * Further properties of the object-store-only repository *)

Section S3OnlyAliasFacts.
Context `{Hashes} (self : S3Only.Repository).

(** What a successful [put_alias] has checked, returned and written. *)
Lemma s3only_put_alias_ok (name alias : string) (v sv : pyver) (wt : pyweight)
    (w w' : world) (a : S3Only.Alias) :
  S3Only.put_alias self name alias v sv wt w = (Ok a, w') ->
  contains "-" alias = false /\
  w' = with_alias (S3Only._get_alias_s3path self name alias) a w /\
  S3Only.alias_name a = name /\ S3Only.alias a = alias /\
  S3Only.alias_update_at a = clock w /\
  S3Only.alias_version a = S3Only.encode_version v /\
  S3Only.secondary_version_weight a = wt /\
  (exists kv,
     S3Only._get_artifact_s3path self name (VStr (S3Only.encode_version v)) = Ok kv /\
     is_Some (s3 w !! kv) /\ S3Only.version_s3uri a = S3Only.uri self kv) /\
  (sv = VNone ->
   S3Only.secondary_version a = None /\ S3Only.secondary_version_s3uri a = None) /\
  (sv <> VNone ->
   exists z ks,
     wt = WInt z /\ 0 <= z < 100 /\
     S3Only.encode_version v <> S3Only.encode_version sv /\
     S3Only.secondary_version a = Some (S3Only.encode_version sv) /\
     S3Only._get_artifact_s3path self name (VStr (S3Only.encode_version sv)) = Ok ks /\
     is_Some (s3 w !! ks) /\ S3Only.secondary_version_s3uri a = Some (S3Only.uri self ks)).
Proof.
  unfold S3Only.put_alias.
  destruct (contains "-" alias) eqn:Hhy; [done|].
  set (sec := match sv with VNone => mret None | _ => _ end).
  assert (forall s w0, sec w = (Ok s, w0) ->
            w0 = w /\
            (sv = VNone -> s = None) /\
            (sv <> VNone ->
             exists z, wt = WInt z /\ 0 <= z < 100 /\
                       S3Only.encode_version v <> S3Only.encode_version sv /\
                       s = Some (S3Only.encode_version sv))) as Hsec.
  { intros s w0. subst sec. destruct sv as [|n|t]; [by intros [= <- <-]|..];
      (destruct wt as [|z|]; [done| |done]);
      (destruct (negb _) eqn:Hrange; [done|]);
      (destruct (String.eqb _ _) eqn:Heq; [done|]);
      apply String.eqb_neq in Heq;
      intros [= <- <-]; (split; [done|]); (split; [done|]); intros _; exists z;
      apply negb_false_iff, andb_true_iff in Hrange as [?%Z.leb_le ?%Z.ltb_lt];
      by split_and!. }
  run. destruct (sec w) as [[s|e] w0] eqn:Hs; [|done].
  destruct (Hsec s w0 eq_refl) as (-> & HsN & HsS). clear Hsec Hs. run.
  destruct (S3Only._get_artifact_s3path self name (VStr (S3Only.encode_version v)))
    as [kv|e] eqn:Hkv; [|done]. run.
  destruct (s3 w !! kv) as [ov|] eqn:Hov;
    [rewrite bool_decide_eq_true_2 by eauto
    |rewrite bool_decide_eq_false_2 by (by intros [??]); done].
  cbn [negb]. destruct s as [s|].
  - destruct (decide (sv = VNone)) as [Hsv|Hsv]; [by specialize (HsN Hsv)|].
    destruct (HsS Hsv) as (z & -> & Hz & Hne & [= ->]). run.
    destruct (S3Only._get_artifact_s3path self name
                (VStr (S3Only.encode_version sv))) as [ks|e] eqn:Hks; [|done].
    run.
    destruct (s3 w !! ks) as [os|] eqn:Hos;
      [rewrite bool_decide_eq_true_2 by eauto
      |rewrite bool_decide_eq_false_2 by (by intros [??]); done].
    cbn [negb]. run. rewrite lookup_insert_eq. run. intros [= <- <-].
    split_and!; [done..|by exists kv; split_and!; eauto|intros ?; contradiction|].
    intros _. exists z, ks. rewrite Hos. split_and!; (done || lia).
  - run. rewrite lookup_insert_eq. run. intros [= <- <-].
    split_and!; [done..|by exists kv; split_and!; eauto| |].
    + done.
    + intros Hsv. by destruct (HsS Hsv) as (? & _ & _ & _ & ?).
Qed.

End S3OnlyAliasFacts.

Section S3OnlyReadFacts.
Context `{Hashes} (self : S3Only.Repository).
Context (int_error_says_not_found : string -> bool).
Context (alias_of_bytes : bytes -> result alias_document).

Lemma alias_of_document_of (a : S3Only.Alias) :
  S3Only.alias_of_document (alias_document_of a) (S3Only.alias_update_at a) = a.
Proof. by destruct a. Qed.

Lemma s3only_get_alias_stored (name alias : string) (w : world) (o : s3object)
    (a : S3Only.Alias) :
  s3 w !! S3Only._get_alias_s3path self name alias = Some o ->
  obj_body o = Json (alias_document_of a) ->
  obj_last_modified o = S3Only.alias_update_at a ->
  S3Only.get_alias self alias_of_bytes name alias w = (Ok a, w).
Proof.
  intros Hk Hbody Htime. unfold S3Only.get_alias, S3Only._get_alias_object.
  run. rewrite Hk. run. rewrite Hbody. run.
  by rewrite Htime, alias_of_document_of.
Qed.

Lemma s3only_get_alias_missing (name alias : string) (w : world) :
  s3 w !! S3Only._get_alias_s3path self name alias = None ->
  S3Only.get_alias self alias_of_bytes name alias w = (Raise AliasNotFoundError, w).
Proof.
  intros Hk. unfold S3Only.get_alias, S3Only._get_alias_object.
  run. rewrite Hk. done.
Qed.

Lemma list_comprehension_raise {A B} (f : A -> result B) (l : list A) (x : A)
    (e : exn) :
  x ∈ l -> f x = Raise e ->
  exists y e', y ∈ l /\ f y = Raise e' /\ list_comprehension f l = Raise e'.
Proof.
  induction l as [|z l IH]; intros Hin Hx; [by apply elem_of_nil in Hin|].
  cbn [list_comprehension]. destruct (f z) as [b|e0] eqn:Hz.
  - apply elem_of_cons in Hin as [->|Hin]; [congruence|].
    destruct (IH Hin Hx) as (y & e' & Hy & Hfy & ->).
    exists y, e'. split_and!; [by right|done..].
  - exists z, e0. split_and!; [by left|done..].
Qed.

Lemma listed_artifact_raises (name : string) (entry : key * s3object) (e : exn) :
  S3Only.listed_artifact self name entry = Raise e ->
  e = IndexError \/ e = ValueError \/ e = KeyError.
Proof.
  unfold S3Only.listed_artifact, S3Only.decode_filename, S3Only.metadata_sha256.
  destruct (startswith _ _).
  - cbn. destruct (obj_metadata entry.2 !! _); cbn; [done|]. intros [= <-]. eauto.
  - destruct (split "_" (fname entry.1) !! 1%nat) as [field|]; cbn;
      [|intros [= <-]; eauto].
    destruct (int_of_str field); cbn; [|intros [= <-]; eauto].
    destruct (obj_metadata entry.2 !! _); cbn; [done|]. intros [= <-]. eauto.
Qed.

Lemma listed_artifact_no_hash (name : string) (k : key) (o : s3object) :
  obj_metadata o !! "artifact_sha256" = None ->
  exists e, S3Only.listed_artifact self name (k, o) = Raise e.
Proof.
  intros Hmd. unfold S3Only.listed_artifact, S3Only.metadata_sha256,
    METADATA_KEY_ARTIFACT_SHA256. cbn [fst snd]. rewrite Hmd.
  destruct (S3Only.decode_filename (fname k)); cbn; eauto.
Qed.

End S3OnlyReadFacts.

(** X8. Object-store-only backend: after a successful [put_alias],
    [get_alias] returns the very record [put_alias] returned; the versions
    it points to existed when it was put, and nothing but the alias object
    was written. *)
Theorem s3only_put_then_get_alias `{Hashes} (self : S3Only.Repository)
    (alias_of_bytes : bytes -> result alias_document)
    (name alias : string) (v sv : pyver) (wt : pyweight) (d : Z)
    (w w' : world) (a : S3Only.Alias) :
  S3Only.put_alias self name alias v sv wt w = (Ok a, w') ->
  S3Only.get_alias self alias_of_bytes name alias (advance d w')
    = (Ok a, advance d w') /\
  (exists kv, S3Only.version_s3uri a = S3Only.uri self kv /\ is_Some (s3 w !! kv)) /\
  (forall u, S3Only.secondary_version_s3uri a = Some u ->
             exists ks, u = S3Only.uri self ks /\ is_Some (s3 w !! ks)) /\
  (forall k, k <> S3Only._get_alias_s3path self name alias ->
             s3 w' !! k = s3 w !! k) /\
  table w' = table w /\
  trace w' = (trace w ++ [S3PutObject (S3Only._get_alias_s3path self name alias)])%list.
Proof.
  intros Hput.
  destruct (s3only_put_alias_ok self name alias v sv wt w w' a Hput)
    as (_ & -> & _ & _ & Htime & _ & _ & (kv & _ & Hkv & Huri) & HsN & HsS).
  split_and!.
  - eapply s3only_get_alias_stored.
    + cbn [advance with_alias s3 log set_s3]. apply lookup_insert_eq.
    + done.
    + done.
  - by exists kv.
  - intros u Hu. destruct (decide (sv = VNone)) as [Hsv|Hsv].
    + destruct (HsN Hsv) as [_ Hnone]. congruence.
    + destruct (HsS Hsv) as (z & ks & _ & _ & _ & _ & _ & Hks & Hsu).
      exists ks. split; [congruence|done].
  - intros k Hk. cbn [with_alias s3 log set_s3]. by rewrite lookup_insert_ne.
  - done.
  - done.
Qed.

Lemma s3only_put_then_get_alias_witness :
  exists a w',
    S3Only.put_alias (H := Scenario.hashes) Scenario.s3repo "app" "prod"
      (VInt 1) (VInt 2) (WInt 20) Scenario.s4 = (Ok a, w') /\
    S3Only.get_alias Scenario.s3repo (fun _ => Raise ValueError) "app" "prod"
      (advance 1 w') = (Ok a, advance 1 w').
Proof.
  assert (exists a w',
    S3Only.put_alias (H := Scenario.hashes) Scenario.s3repo "app" "prod"
      (VInt 1) (VInt 2) (WInt 20) Scenario.s4 = (Ok a, w')) as (a & w' & Hput).
  { eexists _, _. vm_compute. reflexivity. }
  destruct (s3only_put_then_get_alias (H := Scenario.hashes) Scenario.s3repo
              (fun _ => Raise ValueError) "app" "prod" (VInt 1) (VInt 2) (WInt 20)
              1 Scenario.s4 w' a Hput) as (Hget & _).
  exists a, w'. exact (conj Hput Hget).
Defined.

(** X9. Object-store-only backend: [delete_alias] removes the alias object
    and nothing else, whether or not the alias exists; afterwards
    [get_alias] raises [AliasNotFoundError], also for an alias that was
    just put. *)
Theorem s3only_delete_alias_then_get `{Hashes} (self : S3Only.Repository)
    (alias_of_bytes : bytes -> result alias_document)
    (name alias : string) (d : Z) (w : world) :
  let k := S3Only._get_alias_s3path self name alias in
  exists w',
    S3Only.delete_alias self name alias w = (Ok tt, w') /\
    s3 w' = delete k (s3 w) /\
    (forall k', k' <> k -> s3 w' !! k' = s3 w !! k') /\
    table w' = table w /\
    trace w' = (trace w ++ [S3DeleteObject k])%list /\
    S3Only.get_alias self alias_of_bytes name alias (advance d w')
      = (Raise AliasNotFoundError, advance d w') /\
    (forall v sv wt a w0,
       S3Only.put_alias self name alias v sv wt w0 = (Ok a, w) ->
       S3Only.get_alias self alias_of_bytes name alias w = (Ok a, w)).
Proof.
  intros k. eexists. split; [reflexivity|].
  cbn [s3 table trace log set_s3]. split_and!; [done| |done|done| |].
  - intros k' Hk'. by rewrite lookup_delete_ne.
  - apply s3only_get_alias_missing. cbn [advance s3]. apply lookup_delete_eq.
  - intros v sv wt a w0 Hput.
    destruct (s3only_put_alias_ok self name alias v sv wt w0 w a Hput)
      as (_ & -> & _ & _ & Htime & _).
    eapply s3only_get_alias_stored; [apply lookup_insert_eq|done|done].
Qed.

Lemma s3only_delete_alias_then_get_witness :
  exists a w1 w2,
    S3Only.put_alias (H := Scenario.hashes) Scenario.s3repo "app" "prod"
      (VInt 1) VNone WNone Scenario.s4 = (Ok a, w1) /\
    S3Only.get_alias Scenario.s3repo (fun _ => Raise ValueError) "app" "prod" w1
      = (Ok a, w1) /\
    S3Only.delete_alias Scenario.s3repo "app" "prod" w1 = (Ok tt, w2) /\
    S3Only.get_alias Scenario.s3repo (fun _ => Raise ValueError) "app" "prod"
      (advance 1 w2) = (Raise AliasNotFoundError, advance 1 w2).
Proof.
  assert (exists a w1,
    S3Only.put_alias (H := Scenario.hashes) Scenario.s3repo "app" "prod"
      (VInt 1) VNone WNone Scenario.s4 = (Ok a, w1)) as (a & w1 & Hput).
  { eexists _, _. vm_compute. reflexivity. }
  destruct (s3only_delete_alias_then_get (H := Scenario.hashes) Scenario.s3repo
              (fun _ => Raise ValueError) "app" "prod" 1 w1)
    as (w2 & Hdel & _ & _ & _ & _ & Hget & Hround).
  exists a, w1, w2.
  exact (conj Hput (conj (Hround _ _ _ _ _ Hput) (conj Hdel Hget))).
Defined.

(** X10. Object-store-only backend: [list_artifact_versions] walks every
    object below the directory of the artifact, the alias objects
    included. Once an alias has been put, it raises ([IndexError],
    [ValueError] or [KeyError], by the alias name) and returns no listing. *)
Theorem s3only_list_raises_with_alias `{Hashes} (self : S3Only.Repository)
    (name alias : string) (v sv : pyver) (wt : pyweight) (d : Z)
    (w w' : world) (a : S3Only.Alias) :
  S3Only.put_alias self name alias v sv wt w = (Ok a, w') ->
  exists e,
    S3Only.list_artifact_versions self name (advance d w')
      = (Raise e, advance d w') /\
    (e = IndexError \/ e = ValueError \/ e = KeyError).
Proof.
  intros Hput.
  destruct (s3only_put_alias_ok self name alias v sv wt w w' a Hput)
    as (_ & -> & _).
  set (k := S3Only._get_alias_s3path self name alias).
  set (o := stored (Json (alias_document_of a)) ∅ (clock w)).
  assert ((k, o) ∈ objects_under (S3Only._get_artifact_s3dir self name)
                     (s3 (advance d (with_alias k a w)))) as Hin.
  { apply elem_of_objects_under. cbn [advance with_alias s3 log set_s3].
    split; [apply lookup_insert_eq|]. subst k. unfold S3Only._get_alias_s3path.
    apply prefix_app. }
  destruct (listed_artifact_no_hash self name k o) as (e0 & He0); [done|].
  destruct (list_comprehension_raise _ _ _ _ Hin He0) as (y & e & _ & Hy & Hlist).
  exists e. split; [|by eapply listed_artifact_raises].
  unfold S3Only.list_artifact_versions. rewrite bind_run.
  unfold iter_objects, lift. cbv beta iota. by rewrite Hlist.
Qed.

Lemma s3only_list_raises_with_alias_witness :
  exists a w' e,
    S3Only.put_alias (H := Scenario.hashes) Scenario.s3repo "app" "prod"
      (VInt 1) VNone WNone Scenario.s4 = (Ok a, w') /\
    S3Only.list_artifact_versions Scenario.s3repo "app" (advance 1 w')
      = (Raise e, advance 1 w').
Proof.
  assert (exists a w',
    S3Only.put_alias (H := Scenario.hashes) Scenario.s3repo "app" "prod"
      (VInt 1) VNone WNone Scenario.s4 = (Ok a, w')) as (a & w' & Hput).
  { eexists _, _. vm_compute. reflexivity. }
  destruct (s3only_list_raises_with_alias (H := Scenario.hashes) Scenario.s3repo
              "app" "prod" (VInt 1) VNone WNone 1 Scenario.s4 w' a Hput)
    as (e & Hlist & _).
  exists a, w', e. exact (conj Hput Hlist).
Defined.

(** X11. Routing of an alias made by [put_alias] of the object-store-only
    backend, for a draw [r] between 1 and 100. Without a secondary version
    and weight the primary URI is always chosen. With a secondary version
    the weight [z] is an integer in [0, 100), the primary URI is chosen
    exactly for [r <= 100 - z], and the chosen URI is never [None]. A
    weight given without a secondary version is stored as it is, and the
    draws above [100 - z] then give [None]. *)
Theorem s3only_alias_routes `{Hashes} (self : S3Only.Repository)
    (name alias : string) (v sv : pyver) (wt : pyweight) (r : Z)
    (w w' : world) (a : S3Only.Alias) :
  S3Only.put_alias self name alias v sv wt w = (Ok a, w') ->
  1 <= r <= 100 ->
  (sv = VNone -> wt = WNone ->
   S3Only.random_artifact r a = Some (Some (S3Only.version_s3uri a))) /\
  (sv <> VNone ->
   exists z u,
     wt = WInt z /\ 0 <= z < 100 /\
     S3Only.secondary_version_s3uri a = Some u /\
     S3Only.random_artifact r a =
       Some (Some (if r <=? 100 - z then S3Only.version_s3uri a else u))) /\
  (forall z,
     sv = VNone -> wt = WInt z ->
     S3Only.random_artifact r a =
       Some (if r <=? 100 - z then Some (S3Only.version_s3uri a) else None)).
Proof.
  intros Hput Hr.
  destruct (s3only_put_alias_ok self name alias v sv wt w w' a Hput)
    as (_ & _ & _ & _ & _ & _ & Hwt & _ & HsN & HsS).
  unfold S3Only.random_artifact, S3Only._version_weight. rewrite Hwt.
  split_and!.
  - intros _ ->. cbn. by destruct (Z.leb_spec r 100); [|lia].
  - intros Hsv. destruct (HsS Hsv) as (z & ks & -> & Hz & _ & _ & _ & _ & Hu).
    exists z, (S3Only.uri self ks). split_and!; [done|lia|lia|done|].
    cbn. rewrite Hu. by destruct (r <=? 100 - z).
  - intros z Hsv ->. destruct (HsN Hsv) as [_ ->]. done.
Qed.

Lemma s3only_alias_routes_witness :
  exists a w' u,
    S3Only.put_alias (H := Scenario.hashes) Scenario.s3repo "app" "prod"
      (VInt 1) (VInt 2) (WInt 20) Scenario.s4 = (Ok a, w') /\
    S3Only.secondary_version_s3uri a = Some u /\
    S3Only.random_artifact 80 a = Some (Some (S3Only.version_s3uri a)) /\
    S3Only.random_artifact 81 a = Some (Some u).
Proof.
  assert (exists a w',
    S3Only.put_alias (H := Scenario.hashes) Scenario.s3repo "app" "prod"
      (VInt 1) (VInt 2) (WInt 20) Scenario.s4 = (Ok a, w')) as (a & w' & Hput).
  { eexists _, _. vm_compute. reflexivity. }
  destruct (s3only_alias_routes (H := Scenario.hashes) Scenario.s3repo "app" "prod"
              (VInt 1) (VInt 2) (WInt 20) 80 Scenario.s4 w' a Hput ltac:(lia))
    as (_ & H80 & _).
  destruct (s3only_alias_routes (H := Scenario.hashes) Scenario.s3repo "app" "prod"
              (VInt 1) (VInt 2) (WInt 20) 81 Scenario.s4 w' a Hput ltac:(lia))
    as (_ & H81 & _).
  destruct (H80 ltac:(discriminate)) as (z & u & [= <-] & _ & Hu & Hr80).
  destruct (H81 ltac:(discriminate)) as (z' & u' & [= <-] & _ & Hu' & Hr81).
  exists a, w', u. rewrite Hu in Hu'. injection Hu' as <-.
  exact (conj Hput (conj Hu (conj Hr80 Hr81))).
Defined.

Section S3OnlyGetFacts.
Context `{Hashes} (self : S3Only.Repository).
Context (int_error_says_not_found : string -> bool).

(** The key [_get_artifact_s3path] builds from a file name. *)
Lemma s3only_path_of_filename (name : string) (v : pyver) (f : string) :
  S3Only.encode_filename v = Ok f ->
  S3Only._get_artifact_s3path self name v =
    Ok (S3Only._get_artifact_s3dir self name +:+ "versions/" +:+ f
          +:+ S3Only.suffix self).
Proof. intros Hf. unfold S3Only._get_artifact_s3path. by rewrite Hf. Qed.

Lemma s3only_get_run (name : string) (v : pyver) (f : string) (w : world) :
  S3Only.encode_filename v = Ok f ->
  let k := S3Only._get_artifact_s3dir self name +:+ "versions/" +:+ f
             +:+ S3Only.suffix self in
  S3Only.get_artifact_version self int_error_says_not_found name v w =
    match s3 w !! k with
    | None => (Raise ArtifactNotFoundError, w)
    | Some o =>
        match obj_metadata o !! "artifact_sha256" with
        | Some sha =>
            (Ok {| S3Only.name := name; S3Only.version := S3Only.encode_version v;
                   S3Only.update_at := obj_last_modified o;
                   S3Only.s3uri := S3Only.uri self k; S3Only.sha256 := sha |}, w)
        | None => (Raise KeyError, w)
        end
    end.
Proof.
  intros Hf k. unfold S3Only.get_artifact_version, S3Only._get_artifact_object.
  rewrite (s3only_path_of_filename name v f Hf). fold k.
  unfold S3Only.artifact_at, S3Only.metadata_sha256, METADATA_KEY_ARTIFACT_SHA256.
  run. destruct (s3 w !! k) as [o|]; [|done]. run.
  by destruct (obj_metadata o !! "artifact_sha256").
Qed.

End S3OnlyGetFacts.

(** X12. Object-store-only backend: after a successful [put_artifact],
    [get_artifact_version] without a version, or with [LATEST], returns the
    record [put_artifact] returned, whether the call wrote the object or
    found the same content already stored. *)
Theorem s3only_put_then_get `{Hashes} (self : S3Only.Repository)
    (int_error_says_not_found : string -> bool) (name : string) (c : bytes)
    (md : option (gmap string string)) (d : Z) (w w1 : world)
    (a : S3Only.Artifact) :
  keeps_hash md ->
  S3Only.put_artifact self name c md w = (Ok a, w1) ->
  S3Only.sha256 a = of_bytes c /\
  S3Only.get_artifact_version self int_error_says_not_found name VNone
    (advance d w1) = (Ok a, advance d w1) /\
  S3Only.get_artifact_version self int_error_says_not_found name
    (VStr LATEST_VERSION) (advance d w1) = (Ok a, advance d w1).
Proof.
  intros Hmd Hput.
  destruct (s3only_put_post self name c md w w1 a Hmd Hput) as (o1 & Hk & Hsha & ->).
  split; [done|]. unfold s3only_latest_key in Hk.
  split.
  - rewrite (s3only_get_run self _ name VNone "000000_LATEST" _ eq_refl).
    cbn [advance s3]. by rewrite Hk, Hsha.
  - rewrite (s3only_get_run self _ name (VStr LATEST_VERSION) "000000_LATEST" _
               eq_refl).
    cbn [advance s3]. by rewrite Hk, Hsha.
Qed.

Lemma s3only_put_then_get_witness :
  exists a w1,
    S3Only.put_artifact (H := Scenario.hashes) Scenario.s3repo "app" Scenario.v1
      None Scenario.empty = (Ok a, w1) /\
    S3Only.get_artifact_version Scenario.s3repo (fun _ => false) "app" VNone
      (advance 1 w1) = (Ok a, advance 1 w1).
Proof.
  assert (exists a w1,
    S3Only.put_artifact (H := Scenario.hashes) Scenario.s3repo "app" Scenario.v1
      None Scenario.empty = (Ok a, w1)) as (a & w1 & Hput).
  { eexists _, _. vm_compute. reflexivity. }
  destruct (s3only_put_then_get (H := Scenario.hashes) Scenario.s3repo
              (fun _ => false) "app" Scenario.v1 None 1 Scenario.empty w1 a I Hput)
    as (_ & Hget & _).
  exists a, w1. exact (conj Hput Hget).
Defined.

(** X13. Object-store-only backend: for a version whose file name can be
    computed, [get_artifact_version] raises [ArtifactNotFoundError] when
    the object of that version is missing. [delete_artifact_version]
    removes that object and no other (without a version: the [LATEST]
    object), succeeds whether or not the object exists, and makes
    [get_artifact_version] raise [ArtifactNotFoundError]. *)
Theorem s3only_delete_then_get `{Hashes} (self : S3Only.Repository)
    (int_error_says_not_found : string -> bool) (name : string) (v : pyver)
    (f : string) (d : Z) (w : world) :
  S3Only.encode_filename v = Ok f ->
  let k := S3Only._get_artifact_s3dir self name +:+ "versions/" +:+ f
             +:+ S3Only.suffix self in
  (s3 w !! k = None ->
   S3Only.get_artifact_version self int_error_says_not_found name v w
     = (Raise ArtifactNotFoundError, w)) /\
  exists w',
    S3Only.delete_artifact_version self name v w = (Ok tt, w') /\
    s3 w' = delete k (s3 w) /\
    (forall k', k' <> k -> s3 w' !! k' = s3 w !! k') /\
    table w' = table w /\
    trace w' = (trace w ++ [S3DeleteObject k])%list /\
    S3Only.get_artifact_version self int_error_says_not_found name v (advance d w')
      = (Raise ArtifactNotFoundError, advance d w').
Proof.
  intros Hf k. split.
  - intros Hk. rewrite (s3only_get_run self _ name v f w Hf). fold k. by rewrite Hk.
  - eexists. split.
    { unfold S3Only.delete_artifact_version.
      rewrite (s3only_path_of_filename self name v f Hf). fold k. run. reflexivity. }
    cbn [s3 table trace log set_s3]. split_and!; [done| |done|done|].
    + intros k' Hk'. by rewrite lookup_delete_ne.
    + rewrite (s3only_get_run self _ name v f _ Hf). fold k.
      cbn [advance s3 log set_s3]. by rewrite lookup_delete_eq.
Qed.

Lemma s3only_delete_then_get_witness :
  exists w',
    S3Only.delete_artifact_version Scenario.s3repo "app" (VInt 2) Scenario.s4
      = (Ok tt, w') /\
    S3Only.get_artifact_version Scenario.s3repo (fun _ => false) "app" (VInt 2)
      (advance 1 w') = (Raise ArtifactNotFoundError, advance 1 w').
Proof.
  destruct (s3only_delete_then_get (H := Scenario.hashes) Scenario.s3repo
              (fun _ => false) "app" (VInt 2) "999998_000002" 1 Scenario.s4
              ltac:(reflexivity)) as (_ & w' & H1 & _ & _ & _ & _ & H2).
  exists w'. exact (conj H1 H2).
Defined.

Section S3OnlyNumberFacts.
Context (self : S3Only.Repository).

(** A decoded file name that reads as a number is the text of that number. *)
Lemma decode_filename_number (f prev : string) (n : Z) :
  S3Only.decode_filename f = Ok prev -> int_of_str prev = Some n ->
  prev = str_int n.
Proof.
  unfold S3Only.decode_filename. destruct (startswith _ _).
  - intros [= <-]. done.
  - destruct (split "_" f !! 1%nat) as [field|]; [|done]. cbn.
    destruct (int_of_str field) as [m|]; [|done]. cbn. intros [= <-].
    rewrite int_of_str_str_int. by intros [= ->].
Qed.

End S3OnlyNumberFacts.

(** X14. Object-store-only backend: [publish_artifact_version] never skips
    a number. When it succeeds in a world where
    [get_latest_published_artifact_version_number] gives [n], the version
    it returns is [n] with nothing written (the content of [LATEST] is the
    one already published), or it is [n + 1], written by one copy of
    [LATEST]. *)
Theorem s3only_publish_latest_or_next (self : S3Only.Repository) (name : string)
    (n : Z) (w w0 w' : world) (a : S3Only.Artifact) :
  S3Only.get_latest_published_artifact_version_number self name w = (Ok n, w0) ->
  S3Only.publish_artifact_version self name w = (Ok a, w') ->
  w0 = w /\
  ((S3Only.version a = str_int n /\ w' = w) \/
   (S3Only.version a = str_int (n + 1) /\
    exists k,
      S3Only._get_artifact_s3path self name (VInt (n + 1)) = Ok k /\
      S3Only.s3uri a = S3Only.uri self k /\
      trace w' = (trace w ++ [S3CopyObject (s3only_latest_key self name) k])%list /\
      forall k', k' <> k -> s3 w' !! k' = s3 w !! k')).
Proof.
  unfold S3Only.get_latest_published_artifact_version_number,
    S3Only.publish_artifact_version.
  rewrite s3only_latest_path. run.
  destruct (take 2 (objects_under _ (s3 w))) as [|e0 [|[k1 o1] rest]].
  - done.
  - intros [= <- <-]. change (VStr "1") with (VStr (str_int 1)).
    rewrite (proj1 (s3only_version_path self name 1)). run.
    unfold S3Only.artifact_at. run.
    destruct (s3 w !! s3only_latest_key self name) as [oL|]; [|done]. run.
    rewrite lookup_insert_eq. run.
    destruct (S3Only.metadata_sha256 _) as [sha|]; [|done]. run.
    intros [= <- <-]. split; [done|]. right. split; [done|].
    exists (s3only_version_key self name 1).
    split_and!; [apply s3only_version_path|done..|].
    intros k' Hk'. cbn [s3 log set_s3]. by rewrite lookup_insert_ne.
  - run. destruct (S3Only.decode_filename (fname k1)) as [prev|] eqn:Hprev; [|done].
    run. destruct (int_of_str prev) as [m|] eqn:Hm; [|done]. run.
    intros [= -> <-].
    rewrite (proj1 (s3only_version_path self name (n + 1))). run.
    destruct (s3 w !! s3only_latest_key self name) as [oL|]; [|done]. run.
    destruct (String.eqb _ _).
    + run. destruct (S3Only.metadata_sha256 _) as [sha|]; [|done]. run.
      intros [= <- <-]. split; [done|]. left. split; [|done].
      by eapply decode_filename_number.
    + run. unfold S3Only.artifact_at. run.
      destruct (s3 w !! s3only_latest_key self name) as [oL'|] eqn:HL; [|done].
      run. rewrite lookup_insert_eq. run.
      destruct (S3Only.metadata_sha256 _) as [sha|]; [|done]. run.
      intros [= <- <-]. split; [done|]. right. split; [done|].
      exists (s3only_version_key self name (n + 1)).
      split_and!; [apply s3only_version_path|done..|].
      intros k' Hk'. cbn [s3 log set_s3]. by rewrite lookup_insert_ne.
Qed.

Lemma s3only_publish_latest_or_next_witness :
  exists a w',
    S3Only.get_latest_published_artifact_version_number Scenario.s3repo "app"
      Scenario.s3 = (Ok 1, Scenario.s3) /\
    S3Only.publish_artifact_version Scenario.s3repo "app" Scenario.s3 = (Ok a, w') /\
    S3Only.version a = str_int (1 + 1).
Proof.
  assert (S3Only.get_latest_published_artifact_version_number Scenario.s3repo "app"
            Scenario.s3 = (Ok 1, Scenario.s3)) as Hn by (vm_compute; reflexivity).
  assert (exists a w',
    S3Only.publish_artifact_version Scenario.s3repo "app" Scenario.s3 = (Ok a, w') /\
    S3Only.version a <> str_int 1) as (a & w' & Hpub & Hne).
  { eexists _, _. split; vm_compute; [reflexivity|discriminate]. }
  destruct (s3only_publish_latest_or_next Scenario.s3repo "app" 1 Scenario.s3
              Scenario.s3 w' a Hn Hpub) as (_ & [[Hv _]|[Hv _]]);
    [destruct (Hne Hv)|].
  exists a, w'. exact (conj Hn (conj Hpub Hv)).
Defined.

Section S3OnlyListFacts.
Context (self : S3Only.Repository).

Lemma fname_latest_default_suffix (name : string) :
  S3Only.suffix self = "" ->
  fname (s3only_latest_key self name) = "000000_LATEST".
Proof.
  intros Hsuf.
  replace (s3only_latest_key self name) with
    ((S3Only.s3_prefix self +:+ "/" +:+ name +:+ "/" +:+ "versions")
       +:+ String "/" "000000_LATEST").
  { by apply fname_app. }
  unfold s3only_latest_key, S3Only._get_artifact_s3dir. rewrite Hsuf.
  rewrite !append_assoc. reflexivity.
Qed.

End S3OnlyListFacts.

(** X15. Object-store-only backend with the default (empty) suffix: for an
    artifact that has only its [LATEST] object, [publish_artifact_version]
    returns version 1; afterwards [list_artifact_versions] returns
    [LATEST] first and then version 1, both with the hash of the content,
    and [get_latest_published_artifact_version_number] goes from 0 to 1. *)
Theorem s3only_list_after_first_publish (self : S3Only.Repository) (name : string)
    (d : Z) (w : world) (oL : s3object) (sha : string) :
  S3Only.suffix self = "" ->
  objects_under (S3Only._get_artifact_s3dir self name) (s3 w)
    = [(s3only_latest_key self name, oL)] ->
  obj_metadata oL !! "artifact_sha256" = Some sha ->
  S3Only.get_latest_published_artifact_version_number self name w = (Ok 0, w) /\
  exists a1 w1,
    S3Only.publish_artifact_version self name w = (Ok a1, w1) /\
    S3Only.version a1 = "1" /\ S3Only.sha256 a1 = sha /\
    S3Only.list_artifact_versions self name (advance d w1) =
      (Ok [ {| S3Only.name := name; S3Only.version := LATEST_VERSION;
               S3Only.update_at := obj_last_modified oL;
               S3Only.s3uri := S3Only.uri self (s3only_latest_key self name);
               S3Only.sha256 := sha |};
            a1 ],
       advance d w1) /\
    S3Only.get_latest_published_artifact_version_number self name (advance d w1)
      = (Ok 1, advance d w1).
Proof.
  intros Hsuf Hl Hsha.
  assert (s3 w !! s3only_latest_key self name = Some oL) as Hk.
  { eapply elem_of_objects_under. rewrite Hl. by left. }
  split.
  { unfold S3Only.get_latest_published_artifact_version_number. run.
    by rewrite Hl. }
  eexists _, _. split.
  { eapply s3only_publish_first; [by rewrite Hl|done..]. }
  split; [done|]. split; [done|].
  assert (objects_under (S3Only._get_artifact_s3dir self name)
            (s3 (advance d
                   (log (S3CopyObject (s3only_latest_key self name)
                           (s3only_version_key self name 1))
                      (set_s3 (<[s3only_version_key self name 1
                                   := copied oL (clock w)]> (s3 w)) w))))
          = [(s3only_latest_key self name, oL);
             (s3only_version_key self name 1, copied oL (clock w))]) as Hl'.
  { cbn [advance s3 log set_s3]. by apply s3only_listing_after_first. }
  split.
  - unfold S3Only.list_artifact_versions. rewrite bind_run.
    unfold iter_objects, lift. cbv beta iota. rewrite Hl'.
    cbn [list_comprehension]. unfold S3Only.listed_artifact. cbn [fst snd].
    rewrite fname_latest_default_suffix, fname_default_suffix by done.
    unfold S3Only.metadata_sha256, METADATA_KEY_ARTIFACT_SHA256.
    cbn [copied obj_metadata obj_last_modified]. rewrite Hsha. reflexivity.
  - unfold S3Only.get_latest_published_artifact_version_number. rewrite bind_run.
    unfold iter_objects. cbv beta iota. rewrite Hl'. cbn [take].
    rewrite fname_default_suffix by done. reflexivity.
Qed.

Lemma s3only_list_after_first_publish_witness :
  exists a0 a1 w1,
    S3Only.publish_artifact_version Scenario.s3repo "app" Scenario.s1 = (Ok a1, w1) /\
    S3Only.list_artifact_versions Scenario.s3repo "app" (advance 1 w1)
      = (Ok [a0; a1], advance 1 w1) /\
    S3Only.version a0 = LATEST_VERSION /\ S3Only.version a1 = "1".
Proof.
  assert (exists oL,
    objects_under (S3Only._get_artifact_s3dir Scenario.s3repo "app") (s3 Scenario.s1)
      = [(s3only_latest_key Scenario.s3repo "app", oL)] /\
    obj_metadata oL !! "artifact_sha256" = Some "sha256:v1") as (oL & Hl & Hsha).
  { eexists. split; vm_compute; reflexivity. }
  destruct (s3only_list_after_first_publish Scenario.s3repo "app" 1 Scenario.s1 oL
              "sha256:v1" eq_refl Hl Hsha) as (_ & a1 & w1 & H1 & Hv & _ & H2 & _).
  eexists _, a1, w1. exact (conj H1 (conj H2 (conj eq_refl Hv))).
Defined.

Section DeleteDirFacts.

Lemma delete_dir_lookup (dir k : key) (w : world) :
  s3 (delete_dir dir w).2 !! k = if String.prefix dir k then None else s3 w !! k.
Proof.
  cbn [delete_dir snd s3]. destruct (String.prefix dir k) eqn:Hp.
  - apply map_lookup_filter_None. right. intros o _. cbn [fst]. congruence.
  - destruct (s3 w !! k) as [o|] eqn:Hk.
    + by apply map_lookup_filter_Some.
    + apply map_lookup_filter_None. by left.
Qed.

Lemma objects_under_none (dir : key) (m : gmap key s3object) :
  (forall k, String.prefix dir k = true -> m !! k = None) ->
  objects_under dir m = [].
Proof.
  intros Hnone. apply objects_under_unique; [constructor|constructor|].
  intros k o. rewrite elem_of_nil. split; [done|]. intros [Hk Hp].
  rewrite (Hnone k Hp) in Hk. done.
Qed.

Lemma prefix_app_l (a b k : string) :
  String.prefix (a +:+ b) k = true -> String.prefix a k = true.
Proof.
  revert k. induction a as [|c a IH]; intros k; [by destruct k|].
  change (String c a +:+ b) with (String c (a +:+ b)). destruct k as [|c' k]; [done|].
  cbn [String.prefix]. destruct (ascii_dec c c'); [apply IH|done].
Qed.

Lemma objects_under_singleton (dir k : key) (o : s3object) (m : gmap key s3object) :
  String.prefix dir k = true ->
  (forall k', String.prefix dir k' = true -> m !! k' = None) ->
  objects_under dir (<[k := o]> m) = [(k, o)].
Proof.
  intros Hk Hnone. apply objects_under_unique.
  - repeat constructor.
  - apply NoDup_singleton.
  - intros k' o'. rewrite list_elem_of_singleton.
    destruct (decide (k' = k)) as [->|Hne].
    + rewrite lookup_insert_eq. naive_solver.
    + rewrite lookup_insert_ne by done. split; [congruence|].
      intros [Hk' Hp]. rewrite (Hnone k' Hp) in Hk'. done.
Qed.

End DeleteDirFacts.

Section S3OnlyPurgeFacts.
Context `{Hashes} (self : S3Only.Repository).
Context (int_error_says_not_found : string -> bool).
Context (alias_of_bytes : bytes -> result alias_document).

(** What every operation of an artifact finds when no object is left below
    its directory, and what the first put and publish then do. *)
Lemma s3only_empty_artifact (name : string) (w : world) :
  (forall k, String.prefix (S3Only._get_artifact_s3dir self name) k = true ->
             s3 w !! k = None) ->
  S3Only.publish_artifact_version self name w = (Raise ArtifactNotFoundError, w) /\
  S3Only.list_artifact_versions self name w = (Ok [], w) /\
  S3Only.get_latest_published_artifact_version_number self name w = (Ok 0, w) /\
  (forall alias,
     S3Only.get_alias self alias_of_bytes name alias w
       = (Raise AliasNotFoundError, w)) /\
  (forall v f,
     S3Only.encode_filename v = Ok f ->
     S3Only.get_artifact_version self int_error_says_not_found name v w
       = (Raise ArtifactNotFoundError, w)) /\
  (forall c md d,
     keeps_hash md ->
     exists a0 w1 a1 w2,
       S3Only.put_artifact self name c md w = (Ok a0, w1) /\
       S3Only.publish_artifact_version self name (advance d w1) = (Ok a1, w2) /\
       S3Only.version a1 = "1" /\ S3Only.sha256 a1 = of_bytes c).
Proof.
  intros Hnone. pose proof (objects_under_none _ _ Hnone) as Hl. split_and!.
  - apply s3only_publish_none. by rewrite Hl.
  - unfold S3Only.list_artifact_versions. rewrite bind_run.
    unfold iter_objects, lift. cbv beta iota. by rewrite Hl.
  - unfold S3Only.get_latest_published_artifact_version_number. rewrite bind_run.
    unfold iter_objects. cbv beta iota. by rewrite Hl.
  - intros alias. apply s3only_get_alias_missing, Hnone. apply prefix_app.
  - intros v f Hf. rewrite (s3only_get_run self _ name v f w Hf).
    rewrite Hnone; [done|]. apply prefix_app.
  - intros c md d Hmd.
    assert (String.prefix (S3Only._get_artifact_s3dir self name)
              (s3only_latest_key self name) = true) as Hp by apply prefix_app.
    eexists _, _, _, _. split.
    { rewrite s3only_put_other by (left; by apply Hnone).
      apply s3only_write_artifact. }
    split.
    { eapply s3only_publish_first.
      - cbn [advance s3 log set_s3]. by rewrite objects_under_singleton.
      - cbn [advance s3 log set_s3]. apply lookup_insert_eq.
      - cbn [stored obj_metadata]. by apply final_metadata_hash. }
    split; reflexivity.
Qed.

End S3OnlyPurgeFacts.

(** X16. Object-store-only backend: [purge_artifact] deletes every object
    below the directory of the artifact (versions and aliases) and no
    other. Afterwards the artifact is gone: publishing raises
    [ArtifactNotFoundError], the listing is empty, the latest published
    number is 0, no alias and no version is found; and version numbers
    start again: the first publish after a new put returns version 1. *)
Theorem s3only_purge_artifact_clears `{Hashes} (self : S3Only.Repository)
    (int_error_says_not_found : string -> bool)
    (alias_of_bytes : bytes -> result alias_document)
    (name : string) (d : Z) (w : world) :
  let dir := S3Only._get_artifact_s3dir self name in
  exists w',
    S3Only.purge_artifact self name w = (Ok tt, w') /\
    (forall k, s3 w' !! k = if String.prefix dir k then None else s3 w !! k) /\
    table w' = table w /\
    trace w' =
      (trace w ++ ((fun kv => S3DeleteObject kv.1) <$> objects_under dir (s3 w)))%list /\
    S3Only.publish_artifact_version self name (advance d w')
      = (Raise ArtifactNotFoundError, advance d w') /\
    S3Only.list_artifact_versions self name (advance d w') = (Ok [], advance d w') /\
    S3Only.get_latest_published_artifact_version_number self name (advance d w')
      = (Ok 0, advance d w') /\
    (forall alias,
       S3Only.get_alias self alias_of_bytes name alias (advance d w')
         = (Raise AliasNotFoundError, advance d w')) /\
    (forall v f,
       S3Only.encode_filename v = Ok f ->
       S3Only.get_artifact_version self int_error_says_not_found name v
         (advance d w') = (Raise ArtifactNotFoundError, advance d w')) /\
    (forall c md d',
       keeps_hash md ->
       exists a0 w1 a1 w2,
         S3Only.put_artifact self name c md (advance d w') = (Ok a0, w1) /\
         S3Only.publish_artifact_version self name (advance d' w1) = (Ok a1, w2) /\
         S3Only.version a1 = "1" /\ S3Only.sha256 a1 = of_bytes c).
Proof.
  intros dir. exists (delete_dir dir w).2.
  assert (forall k, String.prefix dir k = true ->
                    s3 (advance d (delete_dir dir w).2) !! k = None) as Hnone.
  { intros k Hk. change (s3 (advance d (delete_dir dir w).2))
      with (s3 (delete_dir dir w).2). by rewrite delete_dir_lookup, Hk. }
  destruct (s3only_empty_artifact self int_error_says_not_found alias_of_bytes
              name _ Hnone) as (H1 & H2 & H3 & H4 & H5 & H6).
  split_and!; [done|intros k; apply delete_dir_lookup|done..].
Qed.

Lemma s3only_purge_artifact_clears_witness :
  exists w' a0 w1 a1 w2,
    S3Only.purge_artifact Scenario.s3repo "app" Scenario.s4 = (Ok tt, w') /\
    S3Only.get_artifact_version Scenario.s3repo (fun _ => false) "app" (VInt 2)
      (advance 1 w') = (Raise ArtifactNotFoundError, advance 1 w') /\
    S3Only.put_artifact (H := Scenario.hashes) Scenario.s3repo "app" Scenario.v3
      None (advance 1 w') = (Ok a0, w1) /\
    S3Only.publish_artifact_version Scenario.s3repo "app" (advance 1 w1)
      = (Ok a1, w2) /\
    S3Only.version a1 = "1".
Proof.
  destruct (s3only_purge_artifact_clears (H := Scenario.hashes) Scenario.s3repo
              (fun _ => false) (fun _ => Raise ValueError) "app" 1 Scenario.s4)
    as (w' & H1 & _ & _ & _ & _ & _ & _ & _ & Hget & Hput).
  destruct (Hput Scenario.v3 None 1 I) as (a0 & w1 & a1 & w2 & H2 & H3 & H4 & _).
  exists w', a0, w1, a1, w2.
  exact (conj H1 (conj (Hget (VInt 2) "999998_000002" eq_refl)
           (conj H2 (conj H3 H4)))).
Defined.

(** X17. Object-store-only backend: [purge_all] deletes every object below
    the prefix of the repository and no other. Afterwards every artifact
    name is gone: publishing raises [ArtifactNotFoundError], the listing
    is empty, no alias and no version is found, and after a new put the
    first publish returns version 1. *)
Theorem s3only_purge_all_clears `{Hashes} (self : S3Only.Repository)
    (int_error_says_not_found : string -> bool)
    (alias_of_bytes : bytes -> result alias_document) (d : Z) (w : world) :
  let root := S3Only.s3dir_artifact_store self in
  exists w',
    S3Only.purge_all self w = (Ok tt, w') /\
    (forall k, s3 w' !! k = if String.prefix root k then None else s3 w !! k) /\
    table w' = table w /\
    trace w' =
      (trace w ++ ((fun kv => S3DeleteObject kv.1) <$> objects_under root (s3 w)))%list /\
    forall name,
      S3Only.publish_artifact_version self name (advance d w')
        = (Raise ArtifactNotFoundError, advance d w') /\
      S3Only.list_artifact_versions self name (advance d w') = (Ok [], advance d w') /\
      (forall alias,
         S3Only.get_alias self alias_of_bytes name alias (advance d w')
           = (Raise AliasNotFoundError, advance d w')) /\
      (forall v f,
         S3Only.encode_filename v = Ok f ->
         S3Only.get_artifact_version self int_error_says_not_found name v
           (advance d w') = (Raise ArtifactNotFoundError, advance d w')) /\
      (forall c md d',
         keeps_hash md ->
         exists a0 w1 a1 w2,
           S3Only.put_artifact self name c md (advance d w') = (Ok a0, w1) /\
           S3Only.publish_artifact_version self name (advance d' w1) = (Ok a1, w2) /\
           S3Only.version a1 = "1" /\ S3Only.sha256 a1 = of_bytes c).
Proof.
  intros root. exists (delete_dir root w).2.
  split_and!; [done|intros k; apply delete_dir_lookup|done..|].
  intros name.
  assert (forall k, String.prefix (S3Only._get_artifact_s3dir self name) k = true ->
                    s3 (advance d (delete_dir root w).2) !! k = None) as Hnone.
  { intros k Hk. change (s3 (advance d (delete_dir root w).2))
      with (s3 (delete_dir root w).2). rewrite delete_dir_lookup.
    assert (String.prefix root k = true) as ->; [|done].
    apply (prefix_app_l _ (name +:+ "/")). subst root.
    unfold S3Only.s3dir_artifact_store. by rewrite append_assoc. }
  destruct (s3only_empty_artifact self int_error_says_not_found alias_of_bytes
              name _ Hnone) as (H1 & H2 & _ & H4 & H5 & H6).
  by split_and!.
Qed.

Lemma s3only_purge_all_clears_witness :
  exists w',
    S3Only.purge_all Scenario.s3repo Scenario.s4 = (Ok tt, w') /\
    S3Only.get_artifact_version Scenario.s3repo (fun _ => false) "app" (VInt 1)
      (advance 1 w') = (Raise ArtifactNotFoundError, advance 1 w').
Proof.
  destruct (s3only_purge_all_clears (H := Scenario.hashes) Scenario.s3repo
              (fun _ => false) (fun _ => Raise ValueError) 1 Scenario.s4)
    as (w' & H1 & _ & _ & _ & Hall).
  destruct (Hall "app") as (_ & _ & _ & Hget & _).
  exists w'. exact (conj H1 (Hget (VInt 1) "999999_000001" eq_refl)).
Defined.

Section BatchFacts.

Lemma elem_of_partition_asc (pk : string) (t : gmap (string * string) item)
    (sk : string) (i : item) :
  (sk, i) ∈ partition_asc pk t <-> t !! (pk, sk) = Some i.
Proof.
  unfold partition_asc. rewrite merge_sort_Permutation, list_elem_of_fmap.
  split.
  - intros ([[pk' sk'] i'] & Heq & Hin). simpl in Heq.
    apply list_elem_of_filter in Hin as [Hpk Hin]. simpl in Hpk.
    apply elem_of_map_to_list in Hin. by simplify_eq.
  - intros Hin. exists ((pk, sk), i). split; [done|].
    apply list_elem_of_filter. by rewrite elem_of_map_to_list.
Qed.

Lemma elem_of_partition_keys (pk : string) (t : gmap (string * string) item)
    (k : string * string) :
  k ∈ (fun row : string * item => (pk, row.1)) <$> partition_asc pk t <->
  k.1 = pk /\ is_Some (t !! k).
Proof.
  rewrite list_elem_of_fmap. split.
  - intros ([sk i] & -> & Hin%elem_of_partition_asc). cbn. by rewrite Hin.
  - destruct k as [pk' sk]. cbn [fst]. intros [-> [i Hi]].
    exists (sk, i). split; [done|]. by apply elem_of_partition_asc.
Qed.

Lemma batch_delete_spec (keys : list (string * string)) (w : world) :
  exists w',
    batch_delete keys w = (Ok tt, w') /\
    s3 w' = s3 w /\ clock w' = clock w /\
    (forall k, table w' !! k = if decide (k ∈ keys) then None else table w !! k) /\
    trace w' = (trace w ++ ((fun k => DdbDeleteItem k.1 k.2) <$> keys))%list.
Proof.
  revert w. induction keys as [|[pk sk] keys IH]; intros w.
  - exists w. split_and!; [done..| |by rewrite app_nil_r].
    intros k. by rewrite decide_False by apply not_elem_of_nil.
  - destruct (IH (log (DdbDeleteItem pk sk)
                    (set_table (delete (pk, sk) (table w)) w)))
      as (w' & Hrun & Hs3 & Hclock & Htable & Htrace).
    exists w'. split_and!; [|done|done| |].
    + cbn [batch_delete]. unfold Store.bind, delete_item. by rewrite Hrun.
    + intros k. rewrite Htable. cbn [table log set_table].
      destruct (decide (k = (pk, sk))) as [->|Hne].
      * rewrite lookup_delete_eq, (decide_True (P := _ ∈ _ :: _)) by left.
        by destruct (decide _).
      * rewrite lookup_delete_ne by done.
        destruct (decide (k ∈ keys)) as [Hin|Hin].
        -- by rewrite decide_True by (by right).
        -- rewrite decide_False; [done|]. rewrite elem_of_cons. tauto.
    + rewrite Htrace. cbn [trace log set_table fmap list_fmap fst snd].
      by rewrite <-app_assoc.
Qed.

Lemma parent_app (a b : string) :
  contains "/" b = false -> parent (a +:+ String "/" b) = a +:+ "/".
Proof.
  intros Hb. unfold parent. rewrite split_app, (split_no_sep _ b) by done.
  rewrite removelast_snoc. pose proof (split_nonempty "/" a) as Hne.
  pose proof (concat_split "/" a) as Hcat.
  destruct (split "/" a); [done|]. by rewrite Hcat.
Qed.

Lemma contains_app (c : ascii) (a b : string) :
  contains c (a +:+ b) = contains c a || contains c b.
Proof.
  induction a as [|x a IH]; [done|].
  change (String x a +:+ b) with (String x (a +:+ b)). cbn [contains].
  by rewrite IH, orb_assoc.
Qed.

Lemma partition_desc_none (pk : string) (t : gmap (string * string) item) :
  (forall sk, t !! (pk, sk) = None) -> partition_desc pk t = [].
Proof.
  intros Hnone. apply partition_desc_unique; [constructor|constructor|].
  intros sk i. rewrite elem_of_nil, Hnone. done.
Qed.

Lemma partition_desc_singleton (pk sk : string) (i : item)
    (t : gmap (string * string) item) :
  (forall sk', t !! (pk, sk') = None) ->
  partition_desc pk (<[(pk, sk) := i]> t) = [(sk, i)].
Proof.
  intros Hnone. apply partition_desc_unique.
  - repeat constructor.
  - apply NoDup_singleton.
  - intros sk' i'. rewrite list_elem_of_singleton.
    destruct (decide (sk' = sk)) as [->|Hne].
    + rewrite lookup_insert_eq. naive_solver.
    + rewrite lookup_insert_ne by congruence. rewrite Hnone. naive_solver.
Qed.

End BatchFacts.

Section HybridPurgeFacts.
Context `{Hashes} (self : Hybrid.Repository).

Lemma hybrid_latest_parent (name : string) :
  contains "/" (Hybrid.suffix self) = false ->
  parent (Hybrid.get_artifact_s3path self name LATEST_VERSION)
    = Hybrid.s3_prefix self +:+ "/" +:+ name +:+ "/".
Proof.
  intros Hsuf.
  replace (Hybrid.get_artifact_s3path self name LATEST_VERSION) with
    ((Hybrid.s3_prefix self +:+ "/" +:+ name)
       +:+ String "/" ("LATEST" +:+ Hybrid.suffix self)).
  { rewrite parent_app by (by rewrite contains_app, Hsuf).
    by rewrite !append_assoc. }
  unfold Hybrid.get_artifact_s3path. rewrite !append_assoc. reflexivity.
Qed.

Lemma hybrid_latest_under_dir (name : string) :
  String.prefix (Hybrid.s3_prefix self +:+ "/" +:+ name +:+ "/")
    (Hybrid.get_artifact_s3path self name LATEST_VERSION) = true.
Proof.
  replace (Hybrid.get_artifact_s3path self name LATEST_VERSION) with
    ((Hybrid.s3_prefix self +:+ "/" +:+ name +:+ "/")
       +:+ (Dynamodb.encode_version_sk (VStr LATEST_VERSION) +:+ Hybrid.suffix self)).
  { apply prefix_app. }
  unfold Hybrid.get_artifact_s3path. by rewrite !append_assoc.
Qed.

(** What the operations of an artifact find when its partition has no row
    and its [LATEST] object is missing, and what the first put and publish
    then do. *)
Lemma hybrid_empty_artifact (name : string) (w : world) :
  (forall sk, table w !! (name, sk) = None) ->
  s3 w !! Hybrid.get_artifact_s3path self name LATEST_VERSION = None ->
  Hybrid.publish_artifact_version self name w = (Raise ArtifactNotFoundError, w) /\
  Hybrid.list_artifact_versions self name w = (Ok [], w) /\
  (forall v,
     Hybrid.get_artifact_version self name v w = (Raise ArtifactNotFoundError, w)) /\
  (forall c md d,
     exists a0 w1 a1 w2,
       Hybrid.put_artifact self name c md w = (Ok a0, w1) /\
       Hybrid.publish_artifact_version self name (advance d w1) = (Ok a1, w2) /\
       Hybrid.version a1 = "1" /\ Hybrid.sha256 a1 = Some (of_bytes c)).
Proof.
  intros Hnone Hk. pose proof (partition_desc_none name (table w) Hnone) as Hl.
  split_and!.
  - apply hybrid_publish_none. by rewrite Hl.
  - rewrite hybrid_list_run. unfold live_versions. by rewrite Hl.
  - intros v. rewrite hybrid_get_run. by rewrite Hnone.
  - intros c md d. eexists _, _, _, _. split.
    { rewrite hybrid_put_other by (by left). apply hybrid_write_artifact. }
    split.
    { eapply hybrid_publish_first.
      - cbn [advance table log set_table set_s3].
        by rewrite partition_desc_singleton.
      - cbn [advance s3 log set_table set_s3]. apply lookup_insert_eq. }
    split; reflexivity.
Qed.

End HybridPurgeFacts.

(** X18. Hybrid backend, for a suffix without a slash: [purge_artifact]
    deletes every object below the directory of the artifact, every index
    row of the artifact and every row of its aliases, and nothing else.
    Afterwards publishing raises [ArtifactNotFoundError], the listing is
    empty, no version is found, and after a new put the first publish
    returns version 1. *)
Theorem hybrid_purge_artifact_clears `{Hashes} (self : Hybrid.Repository)
    (name : string) (d : Z) (w : world) :
  contains "/" (Hybrid.suffix self) = false ->
  let dir := Hybrid.s3_prefix self +:+ "/" +:+ name +:+ "/" in
  exists w',
    Hybrid.purge_artifact self name w = (Ok tt, w') /\
    (forall k, s3 w' !! k = if String.prefix dir k then None else s3 w !! k) /\
    (forall pk sk,
       table w' !! (pk, sk) =
         if decide (pk = name \/ pk = Dynamodb.encode_alias_pk name) then None
         else table w !! (pk, sk)) /\
    Hybrid.publish_artifact_version self name (advance d w')
      = (Raise ArtifactNotFoundError, advance d w') /\
    Hybrid.list_artifact_versions self name (advance d w') = (Ok [], advance d w') /\
    (forall v,
       Hybrid.get_artifact_version self name v (advance d w')
         = (Raise ArtifactNotFoundError, advance d w')) /\
    (forall c md d',
       exists a0 w1 a1 w2,
         Hybrid.put_artifact self name c md (advance d w') = (Ok a0, w1) /\
         Hybrid.publish_artifact_version self name (advance d' w1) = (Ok a1, w2) /\
         Hybrid.version a1 = "1" /\ Hybrid.sha256 a1 = Some (of_bytes c)).
Proof.
  intros Hsuf dir. unfold Hybrid.purge_artifact.
  rewrite hybrid_latest_parent by done. fold dir.
  set (w1 := (delete_dir dir w).2).
  set (keys1 := (fun row : string * item => (name, row.1))
                  <$> partition_asc name (table w1)).
  destruct (batch_delete_spec keys1 w1) as (w2 & Hrun2 & Hs2 & _ & Ht2 & _).
  set (keys2 := (fun row : string * item => (Dynamodb.encode_alias_pk name, row.1))
                  <$> partition_asc (Dynamodb.encode_alias_pk name) (table w2)).
  destruct (batch_delete_spec keys2 w2) as (w3 & Hrun3 & Hs3 & _ & Ht3 & _).
  assert (forall k, s3 w3 !! k = if String.prefix dir k then None else s3 w !! k)
    as Hobj.
  { intros k. rewrite Hs3, Hs2. apply delete_dir_lookup. }
  assert (forall pk sk,
            table w3 !! (pk, sk) =
              if decide (pk = name \/ pk = Dynamodb.encode_alias_pk name) then None
              else table w !! (pk, sk)) as Hrows.
  { intros pk sk. rewrite Ht3, Ht2. subst keys1 keys2.
    destruct (decide ((pk, sk) ∈ _ <$> partition_asc _ (table w2))) as [Hin2|Hin2].
    { apply elem_of_partition_keys in Hin2 as [Hpk _]. cbn [fst] in Hpk.
      by rewrite decide_True by (by right). }
    destruct (decide ((pk, sk) ∈ _ <$> partition_asc _ (table w1))) as [Hin1|Hin1].
    { apply elem_of_partition_keys in Hin1 as [Hpk _]. cbn [fst] in Hpk.
      by rewrite decide_True by (by left). }
    rewrite elem_of_partition_keys in Hin1, Hin2. cbn [fst] in Hin1, Hin2.
    change (table w1) with (table w) in *.
    destruct (decide (pk = name \/ _)) as [[->| ->]|_]; [| |done].
    - apply eq_None_not_Some. intros Hsome. apply Hin1. by split.
    - assert (table w2 !! (Dynamodb.encode_alias_pk name, sk) = None) as Hrow.
      { apply eq_None_not_Some. intros Hsome. apply Hin2. by split. }
      rewrite Ht2 in Hrow. destruct (decide _) as [Hin|_]; [|done].
      apply elem_of_partition_keys in Hin as [Hpk _]. cbn [fst] in Hpk.
      apply (f_equal String.length) in Hpk. unfold Dynamodb.encode_alias_pk in Hpk.
      rewrite !length_append in Hpk. cbn in Hpk. lia. }
  exists w3. split.
  { rewrite bind_run. change (delete_dir dir w) with (Ok tt, w1). cbv beta iota.
    rewrite bind_run. unfold query_asc at 1. cbv beta iota.
    rewrite bind_run. fold keys1. change Store.batch_delete with batch_delete.
    rewrite Hrun2. rewrite bind_run. unfold query_asc. cbv beta iota.
    fold keys2. exact Hrun3. }
  split; [done|]. split; [done|].
  assert (forall sk, table (advance d w3) !! (name, sk) = None) as Hnone.
  { intros sk. cbn [advance table]. by rewrite Hrows, decide_True by (by left). }
  assert (s3 (advance d w3) !! Hybrid.get_artifact_s3path self name LATEST_VERSION
          = None) as Hk.
  { cbn [advance s3]. rewrite Hobj. unfold dir.
    by rewrite hybrid_latest_under_dir. }
  destruct (hybrid_empty_artifact self name _ Hnone Hk) as (H1 & H2 & H3 & H4).
  by split_and!.
Qed.

Lemma hybrid_purge_artifact_clears_witness :
  exists w' a0 w1 a1 w2,
    Hybrid.purge_artifact Scenario.hrepo "app" Scenario.h4 = (Ok tt, w') /\
    Hybrid.get_artifact_version Scenario.hrepo "app" (VInt 2) (advance 1 w')
      = (Raise ArtifactNotFoundError, advance 1 w') /\
    Hybrid.put_artifact (H := Scenario.hashes) Scenario.hrepo "app" Scenario.v3 None
      (advance 1 w') = (Ok a0, w1) /\
    Hybrid.publish_artifact_version Scenario.hrepo "app" (advance 1 w1)
      = (Ok a1, w2) /\
    Hybrid.version a1 = "1".
Proof.
  destruct (hybrid_purge_artifact_clears (H := Scenario.hashes) Scenario.hrepo "app"
              1 Scenario.h4 eq_refl)
    as (w' & H1 & _ & _ & _ & _ & Hget & Hput).
  destruct (Hput Scenario.v3 None 1) as (a0 & w1 & a1 & w2 & H2 & H3 & H4 & _).
  exists w', a0, w1, a1, w2.
  exact (conj H1 (conj (Hget (VInt 2)) (conj H2 (conj H3 H4)))).
Defined.

(** X19. Hybrid backend: [purge_all] deletes every object below the prefix
    of the repository and every row of the index table, the alias rows
    included. Afterwards, for every artifact name, publishing raises
    [ArtifactNotFoundError], the listing is empty, no version is found, and
    after a new put the first publish returns version 1. *)
Theorem hybrid_purge_all_clears `{Hashes} (self : Hybrid.Repository)
    (d : Z) (w : world) :
  let root := Hybrid.s3dir_artifact_store self in
  exists w',
    Hybrid.purge_all self w = (Ok tt, w') /\
    (forall k, s3 w' !! k = if String.prefix root k then None else s3 w !! k) /\
    table w' = ∅ /\
    forall name,
      Hybrid.publish_artifact_version self name (advance d w')
        = (Raise ArtifactNotFoundError, advance d w') /\
      Hybrid.list_artifact_versions self name (advance d w')
        = (Ok [], advance d w') /\
      (forall v,
         Hybrid.get_artifact_version self name v (advance d w')
           = (Raise ArtifactNotFoundError, advance d w')) /\
      (forall c md d',
         exists a0 w1 a1 w2,
           Hybrid.put_artifact self name c md (advance d w') = (Ok a0, w1) /\
           Hybrid.publish_artifact_version self name (advance d' w1) = (Ok a1, w2) /\
           Hybrid.version a1 = "1" /\ Hybrid.sha256 a1 = Some (of_bytes c)).
Proof.
  intros root. unfold Hybrid.purge_all. fold root.
  set (w1 := (delete_dir root w).2).
  destruct (batch_delete_spec (fst <$> map_to_list (table w1)) w1)
    as (w2 & Hrun & Hs2 & _ & Ht2 & _).
  assert (forall k, s3 w2 !! k = if String.prefix root k then None else s3 w !! k)
    as Hobj.
  { intros k. rewrite Hs2. apply delete_dir_lookup. }
  assert (table w2 = ∅) as Hempty.
  { apply map_eq. intros k. rewrite Ht2, lookup_empty.
    destruct (decide _) as [|Hin]; [done|].
    apply eq_None_not_Some. intros [i Hi]. apply Hin.
    apply list_elem_of_fmap. exists (k, i). split; [done|].
    by apply elem_of_map_to_list. }
  exists w2. split.
  { rewrite bind_run. change (delete_dir root w) with (Ok tt, w1). cbv beta iota.
    rewrite bind_run. unfold scan. cbv beta iota.
    change Store.batch_delete with batch_delete. exact Hrun. }
  split; [done|]. split; [done|]. intros name.
  apply hybrid_empty_artifact.
  - intros sk. cbn [advance table]. by rewrite Hempty, lookup_empty.
  - cbn [advance s3]. rewrite Hobj.
    assert (String.prefix root (Hybrid.get_artifact_s3path self name LATEST_VERSION)
            = true) as ->; [|done].
    apply (prefix_app_l _ (name +:+ "/")). subst root.
    unfold Hybrid.s3dir_artifact_store. rewrite append_assoc.
    apply hybrid_latest_under_dir.
Qed.

Lemma hybrid_purge_all_clears_witness :
  exists w',
    Hybrid.purge_all Scenario.hrepo Scenario.h4 = (Ok tt, w') /\
    table w' = ∅ /\
    Hybrid.get_artifact_version Scenario.hrepo "app" (VInt 1) (advance 1 w')
      = (Raise ArtifactNotFoundError, advance 1 w').
Proof.
  destruct (hybrid_purge_all_clears (H := Scenario.hashes) Scenario.hrepo 1
              Scenario.h4) as (w' & H1 & _ & H2 & Hall).
  destruct (Hall "app") as (_ & _ & Hget & _).
  exists w'. exact (conj H1 (conj H2 (Hget (VInt 1)))).
Defined.

Section PublishGetFacts.
Context (self : Hybrid.Repository).

(** The row and the record of the numbered version [m]. *)
Lemma hybrid_get_numbered (name : string) (m : Z) (t : Z) (sha : option string)
    (w : world) :
  0 < m ->
  table w !! (name, hybrid_sort_key m) = Some (artifact_item t sha) ->
  let a := {| Hybrid.name := name; Hybrid.version := str_int m;
              Hybrid.update_at := Some t;
              Hybrid.s3uri := Hybrid.uri self (hybrid_version_key self name m);
              Hybrid.sha256 := sha |} in
  Hybrid.get_artifact_version self name (VInt m) w = (Ok a, w) /\
  Hybrid.get_artifact_version self name (VStr (str_int m)) w = (Ok a, w).
Proof.
  intros Hm Hrow a.
  destruct (hybrid_sort_key_positive m Hm) as (_ & Hsk & Hstrip).
  assert (Hybrid.get_artifact_version self name (VStr (str_int m)) w = (Ok a, w))
    as Hget.
  { rewrite hybrid_get_run. cbn [or_latest]. rewrite Hsk, Hrow.
    cbn [artifact_item it_is_deleted default]. unfold Hybrid._get_artifact_object.
    cbn [Dynamodb.Artifact.of_item Dynamodb.Artifact.name Dynamodb.Artifact.version
         Dynamodb.Artifact.pk Dynamodb.Artifact.sk Dynamodb.Artifact.update_at
         Dynamodb.Artifact.sha256 artifact_item it_update_at it_sha256].
    change (Dynamodb.Artifact.version
              (Dynamodb.Artifact.of_item name (hybrid_sort_key m) (artifact_item t sha)))
      with (lstrip0 (hybrid_sort_key m)).
    by rewrite Hstrip. }
  split; [|done]. rewrite <-Hget. rewrite !hybrid_get_run. reflexivity.
Qed.

End PublishGetFacts.

(** X20. Hybrid backend: a version that [publish_artifact_version] has
    just created, the first one or the one after version [n], is returned
    by [get_artifact_version], by number or by string, as the record
    [publish_artifact_version] returned. Its object has the body and the
    metadata of [LATEST], and the [LATEST] object is unchanged. *)
Theorem hybrid_publish_then_get `{Hashes} (self : Hybrid.Repository)
    (name : string) (d : Z) (w : world) (oL : s3object) :
  let latest := Hybrid.get_artifact_s3path self name LATEST_VERSION in
  s3 w !! latest = Some oL ->
  (forall sk0 i0,
     take 2 (partition_desc name (table w)) = [(sk0, i0)] ->
     exists a w',
       Hybrid.publish_artifact_version self name w = (Ok a, w') /\
       Hybrid.version a = "1" /\
       Hybrid.get_artifact_version self name (VInt 1) (advance d w')
         = (Ok a, advance d w') /\
       s3 w' !! hybrid_version_key self name 1 = Some (copied oL (clock w)) /\
       s3 w' !! latest = Some oL) /\
  (forall r0 sk1 i1 n,
     take 2 (partition_desc name (table w)) = [r0; (sk1, i1)] ->
     int_of_str (lstrip0 sk1) = Some n -> 0 <= n ->
     exists a w',
       Hybrid.publish_artifact_version self name w = (Ok a, w') /\
       Hybrid.version a = str_int (n + 1) /\
       Hybrid.get_artifact_version self name (VInt (n + 1)) (advance d w')
         = (Ok a, advance d w') /\
       Hybrid.get_artifact_version self name (VStr (str_int (n + 1))) (advance d w')
         = (Ok a, advance d w') /\
       s3 w' !! hybrid_version_key self name (n + 1) = Some (copied oL (clock w)) /\
       s3 w' !! latest = Some oL).
Proof.
  intros latest HL. split.
  - intros sk0 i0 Hrows. eexists _, _. split.
    { by eapply hybrid_publish_first. }
    split; [done|].
    cbn [advance s3 table log set_s3 set_table]. split_and!.
    + apply (hybrid_get_numbered self name 1); [lia|].
      cbn [advance table log set_table set_s3]. by rewrite lookup_insert_eq.
    + by rewrite lookup_insert_eq.
    + rewrite lookup_insert_ne; [done|].
      symmetry. apply hybrid_latest_not_version. lia.
  - intros r0 sk1 i1 n Hrows Hn Hpos. eexists _, _. split.
    { by eapply hybrid_publish_next. }
    split; [done|].
    cbn [advance s3 table log set_s3 set_table]. split_and!.
    + apply (hybrid_get_numbered self name (n + 1)); [lia|].
      cbn [advance table log set_table set_s3]. by rewrite lookup_insert_eq.
    + apply (hybrid_get_numbered self name (n + 1)); [lia|].
      cbn [advance table log set_table set_s3]. by rewrite lookup_insert_eq.
    + by rewrite lookup_insert_eq.
    + rewrite lookup_insert_ne; [done|].
      symmetry. apply hybrid_latest_not_version. lia.
Qed.

Lemma hybrid_publish_then_get_witness :
  exists a w',
    Hybrid.publish_artifact_version Scenario.hrepo "app" Scenario.h3 = (Ok a, w') /\
    Hybrid.version a = str_int (1 + 1) /\
    Hybrid.get_artifact_version Scenario.hrepo "app" (VInt (1 + 1)) (advance 1 w')
      = (Ok a, advance 1 w').
Proof.
  assert (exists oL r0 i1,
    s3 Scenario.h3 !! Hybrid.get_artifact_s3path Scenario.hrepo "app" LATEST_VERSION
      = Some oL /\
    take 2 (partition_desc "app" (table Scenario.h3)) = [r0; ("000001", i1)])
    as (oL & r0 & i1 & HL & Hrows).
  { eexists _, _, _. split; vm_compute; reflexivity. }
  destruct (hybrid_publish_then_get (H := Scenario.hashes) Scenario.hrepo "app" 1
              Scenario.h3 oL HL) as [_ Hnext].
  destruct (Hnext r0 "000001" i1 1 Hrows eq_refl ltac:(lia))
    as (a & w' & H1 & H2 & H3 & _).
  exists a, w'. exact (conj H1 (conj H2 H3)).
Defined.

Section S3OnlyPublishGetFacts.
Context `{Hashes} (self : S3Only.Repository).
Context (int_error_says_not_found : string -> bool).

(** The object and the record of the numbered version [m]. *)
Lemma s3only_get_numbered (name : string) (m : Z) (o : s3object) (sha : string)
    (w : world) :
  s3 w !! s3only_version_key self name m = Some o ->
  obj_metadata o !! "artifact_sha256" = Some sha ->
  let a := {| S3Only.name := name; S3Only.version := str_int m;
              S3Only.update_at := obj_last_modified o;
              S3Only.s3uri := S3Only.uri self (s3only_version_key self name m);
              S3Only.sha256 := sha |} in
  S3Only.get_artifact_version self int_error_says_not_found name (VInt m) w
    = (Ok a, w) /\
  S3Only.get_artifact_version self int_error_says_not_found name
    (VStr (str_int m)) w = (Ok a, w).
Proof.
  intros Hk Hsha a. destruct (s3only_version_path self name m) as [Hstr Hint].
  unfold S3Only.get_artifact_version, S3Only._get_artifact_object.
  rewrite Hstr, Hint.
  unfold S3Only.artifact_at, S3Only.metadata_sha256, METADATA_KEY_ARTIFACT_SHA256.
  split; run; rewrite Hk; run; by rewrite Hsha.
Qed.

End S3OnlyPublishGetFacts.

(** X21. Object-store-only backend: a version that
    [publish_artifact_version] has just created by copying [LATEST], the
    first one or the one after version [n], is returned by
    [get_artifact_version], by number or by string, as the record
    [publish_artifact_version] returned, and its object has the body and
    the metadata of [LATEST]. *)
Theorem s3only_publish_then_get (self : S3Only.Repository)
    (int_error_says_not_found : string -> bool) (name : string) (d : Z)
    (w : world) (oL : s3object) (sha : string) :
  let latest := s3only_latest_key self name in
  let listing := take 2 (objects_under (S3Only._get_artifact_s3dir self name) (s3 w)) in
  s3 w !! latest = Some oL ->
  obj_metadata oL !! "artifact_sha256" = Some sha ->
  (forall e,
     listing = [e] ->
     exists a w',
       S3Only.publish_artifact_version self name w = (Ok a, w') /\
       S3Only.version a = "1" /\ S3Only.sha256 a = sha /\
       S3Only.get_artifact_version self int_error_says_not_found name (VInt 1)
         (advance d w') = (Ok a, advance d w') /\
       s3 w' !! s3only_version_key self name 1 = Some (copied oL (clock w))) /\
  (forall e0 k1 o1 prev n,
     listing = [e0; (k1, o1)] ->
     S3Only.decode_filename (fname k1) = Ok prev ->
     int_of_str prev = Some n ->
     obj_etag o1 <> obj_etag oL ->
     exists a w',
       S3Only.publish_artifact_version self name w = (Ok a, w') /\
       S3Only.version a = str_int (n + 1) /\ S3Only.sha256 a = sha /\
       S3Only.get_artifact_version self int_error_says_not_found name
         (VInt (n + 1)) (advance d w') = (Ok a, advance d w') /\
       S3Only.get_artifact_version self int_error_says_not_found name
         (VStr (str_int (n + 1))) (advance d w') = (Ok a, advance d w') /\
       s3 w' !! s3only_version_key self name (n + 1) = Some (copied oL (clock w))).
Proof.
  intros latest listing HL Hsha. split.
  - intros e Hl. eexists _, _. split.
    { by eapply s3only_publish_first. }
    split; [done|]. split; [done|]. split.
    + apply (s3only_get_numbered self _ name 1 (copied oL (clock w)) sha);
        [|done]. cbn [advance s3 log set_s3]. apply lookup_insert_eq.
    + cbn [s3 log set_s3]. apply lookup_insert_eq.
  - intros e0 k1 o1 prev n Hl Hprev Hn Hetag. eexists _, _. split.
    { by eapply s3only_publish_next. }
    split; [done|]. split; [done|]. split_and!.
    + apply (s3only_get_numbered self _ name (n + 1) (copied oL (clock w)) sha);
        [|done]. cbn [advance s3 log set_s3]. apply lookup_insert_eq.
    + apply (s3only_get_numbered self _ name (n + 1) (copied oL (clock w)) sha);
        [|done]. cbn [advance s3 log set_s3]. apply lookup_insert_eq.
    + cbn [s3 log set_s3]. apply lookup_insert_eq.
Qed.

Lemma s3only_publish_then_get_witness :
  exists a w',
    S3Only.publish_artifact_version Scenario.s3repo "app" Scenario.s3 = (Ok a, w') /\
    S3Only.version a = str_int (1 + 1) /\
    S3Only.get_artifact_version Scenario.s3repo (fun _ => false) "app" (VInt (1 + 1))
      (advance 1 w') = (Ok a, advance 1 w').
Proof.
  assert (exists oL e0 k1 o1,
    s3 Scenario.s3 !! s3only_latest_key Scenario.s3repo "app" = Some oL /\
    obj_metadata oL !! "artifact_sha256" = Some "sha256:v2" /\
    take 2 (objects_under (S3Only._get_artifact_s3dir Scenario.s3repo "app")
              (s3 Scenario.s3)) = [e0; (k1, o1)] /\
    S3Only.decode_filename (fname k1) = Ok "1" /\
    obj_etag o1 <> obj_etag oL)
    as (oL & e0 & k1 & o1 & HL & Hsha & Hl & Hprev & Hetag).
  { eexists _, _, _, _. split; [vm_compute; reflexivity|].
    split; [vm_compute; reflexivity|]. split; [vm_compute; reflexivity|].
    split; [vm_compute; reflexivity|]. vm_compute. discriminate. }
  destruct (s3only_publish_then_get Scenario.s3repo (fun _ => false) "app" 1
              Scenario.s3 oL "sha256:v2" HL Hsha) as [_ Hnext].
  destruct (Hnext e0 k1 o1 "1" 1 Hl Hprev eq_refl Hetag)
    as (a & w' & H1 & H2 & _ & H3 & _).
  exists a, w'. exact (conj H1 (conj H2 H3)).
Defined.

Section HybridEdgeFacts.
Context (self : Hybrid.Repository).

Lemma hybrid_rows_after_version (name : string) (m : Z)
    (t : gmap (string * string) item) (i0 i1 : item) :
  0 <= m ->
  partition_desc name t = [(LATEST_VERSION, i0)] ->
  partition_desc name (<[(name, hybrid_sort_key m) := i1]> t)
    = [(LATEST_VERSION, i0); (hybrid_sort_key m, i1)].
Proof.
  intros Hm Hl. pose proof (hybrid_sort_key_below_latest m Hm) as Hlt.
  assert (hybrid_sort_key m <> LATEST_VERSION) as Hne.
  { intros Heq. unfold key_lt in Hlt. by rewrite Heq, compare_refl in Hlt. }
  assert (forall sk i, t !! (name, sk) = Some i <-> (sk, i) = (LATEST_VERSION, i0))
    as Helem.
  { intros sk i. rewrite <-elem_of_partition_desc, Hl. apply list_elem_of_singleton. }
  apply partition_desc_unique.
  - repeat constructor. unfold sk_ge. cbn [fst]. by apply key_lt_le.
  - apply NoDup_cons. split; [|apply NoDup_singleton].
    rewrite list_elem_of_singleton. intros [= Heq _]. by symmetry in Heq.
  - intros sk i. rewrite !elem_of_cons, elem_of_nil.
    destruct (decide (sk = hybrid_sort_key m)) as [->|Hk].
    + rewrite lookup_insert_eq. naive_solver.
    + rewrite lookup_insert_ne by congruence. rewrite Helem. naive_solver.
Qed.

End HybridEdgeFacts.

(** X22. Hybrid backend: [delete_artifact_version] on a version that was
    never published creates its row, flagged as deleted, and
    [publish_artifact_version] counts that row. For an artifact that has
    only [LATEST], deleting the absent version [m >= 1] makes the next
    publish return version [m + 1]. *)
Theorem hybrid_delete_absent_version_shifts_numbering (self : Hybrid.Repository)
    (name : string) (m d : Z) (w : world) (i0 : item) (oL : s3object) :
  1 <= m ->
  partition_desc name (table w) = [(LATEST_VERSION, i0)] ->
  s3 w !! Hybrid.get_artifact_s3path self name LATEST_VERSION = Some oL ->
  exists w1 a w2,
    Hybrid.delete_artifact_version name (VInt m) w = (Ok tt, w1) /\
    table w !! (name, hybrid_sort_key m) = None /\
    table w1 !! (name, hybrid_sort_key m) = Some (Hybrid.mark_deleted empty_item) /\
    s3 w1 = s3 w /\
    Hybrid.get_artifact_version self name (VInt m) (advance d w1)
      = (Raise ArtifactNotFoundError, advance d w1) /\
    Hybrid.publish_artifact_version self name (advance d w1) = (Ok a, w2) /\
    Hybrid.version a = str_int (m + 1).
Proof.
  intros Hm Hl HL.
  assert (table w !! (name, hybrid_sort_key m) = None) as Hnone.
  { apply eq_None_not_Some. intros [i Hi]. apply elem_of_partition_desc in Hi.
    rewrite Hl in Hi. apply list_elem_of_singleton in Hi. injection Hi as Heq _.
    pose proof (hybrid_sort_key_below_latest m ltac:(lia)) as Hlt.
    unfold key_lt in Hlt. by rewrite Heq, compare_refl in Hlt. }
  destruct (hybrid_sort_key_positive m ltac:(lia)) as (_ & Hsk & Hstrip).
  eexists _, _, _. split; [apply hybrid_delete_run|].
  cbn [or_latest]. fold (hybrid_sort_key m). rewrite Hnone. cbn [default].
  split; [done|]. split; [cbn [table log set_table]; apply lookup_insert_eq|].
  split; [done|]. split.
  { eapply (hybrid_get_deleted self name (VInt m) _ (Hybrid.mark_deleted empty_item));
      [|reflexivity].
    cbn [advance table log set_table or_latest].
    change (Dynamodb.encode_version_sk (VInt m))
      with (Dynamodb.encode_version_sk (VStr (str_int m))).
    rewrite Hsk. apply lookup_insert_eq. }
  split.
  { eapply (hybrid_publish_next self name _ (LATEST_VERSION, i0) (hybrid_sort_key m)
              (Hybrid.mark_deleted empty_item) m oL).
    - cbn [advance table log set_table].
      erewrite hybrid_rows_after_version by (done || lia). reflexivity.
    - rewrite Hstrip. apply int_of_str_str_int.
    - lia.
    - done. }
  reflexivity.
Qed.

Lemma hybrid_delete_absent_version_shifts_numbering_witness :
  exists w1 a w2,
    Hybrid.delete_artifact_version "app" (VInt 5) Scenario.h1 = (Ok tt, w1) /\
    Hybrid.publish_artifact_version Scenario.hrepo "app" (advance 1 w1)
      = (Ok a, w2) /\
    Hybrid.version a = str_int (5 + 1).
Proof.
  assert (exists i0 oL,
    partition_desc "app" (table Scenario.h1) = [(LATEST_VERSION, i0)] /\
    s3 Scenario.h1 !! Hybrid.get_artifact_s3path Scenario.hrepo "app" LATEST_VERSION
      = Some oL) as (i0 & oL & Hl & HL).
  { eexists _, _. split; vm_compute; reflexivity. }
  destruct (hybrid_delete_absent_version_shifts_numbering Scenario.hrepo "app" 5 1
              Scenario.h1 i0 oL ltac:(lia) Hl HL)
    as (w1 & a & w2 & H1 & _ & _ & _ & _ & H2 & H3).
  exists w1, a, w2. exact (conj H1 (conj H2 H3)).
Defined.

(** X23. Hybrid backend: [put_alias] refuses a numbered version that has
    no live row. When the row of version [m >= 1] is missing or flagged as
    deleted it raises [ArtifactNotFoundError] and writes nothing; in
    particular an alias cannot be pointed at a version right after
    [delete_artifact_version] of that version. *)
Theorem hybrid_put_alias_needs_live_version (self : Hybrid.Repository)
    (name alias : string) (m d : Z) (wt : pyweight) (w : world) :
  contains "-" alias = false -> 1 <= m ->
  ((table w !! (name, hybrid_sort_key m) = None \/
    exists i, table w !! (name, hybrid_sort_key m) = Some i /\
              it_is_deleted i = Some true) ->
   Hybrid.put_alias self name alias (VInt m) VNone wt w
     = (Raise ArtifactNotFoundError, w)) /\
  exists w1,
    Hybrid.delete_artifact_version name (VInt m) w = (Ok tt, w1) /\
    Hybrid.put_alias self name alias (VInt m) VNone wt (advance d w1)
      = (Raise ArtifactNotFoundError, advance d w1).
Proof.
  intros Hhy Hm. split.
  - intros Hrow. apply hybrid_put_alias_lookup; [done|lia|done].
  - eexists. split; [apply hybrid_delete_run|].
    apply hybrid_put_alias_lookup; [done|lia|]. right.
    cbn [or_latest advance table log set_table]. fold (hybrid_sort_key m).
    eexists. split; [apply lookup_insert_eq|done].
Qed.

Lemma hybrid_put_alias_needs_live_version_witness :
  exists w1,
    Hybrid.delete_artifact_version "app" (VInt 2) Scenario.h4 = (Ok tt, w1) /\
    Hybrid.put_alias Scenario.hrepo "app" "prod" (VInt 2) VNone WNone (advance 1 w1)
      = (Raise ArtifactNotFoundError, advance 1 w1).
Proof.
  destruct (hybrid_put_alias_needs_live_version Scenario.hrepo "app" "prod" 2 1
              WNone Scenario.h4 eq_refl ltac:(lia)) as [_ (w1 & H1 & H2)].
  exists w1. exact (conj H1 H2).
Defined.

(** * Publishing again *)

Section ListingFacts.

Lemma key_lt_irrefl (a : string) : ~ key_lt a a.
Proof. unfold key_lt. by rewrite compare_refl. Qed.

Lemma key_lt_le_trans (a b c : string) :
  key_lt a b -> String.le b c -> key_lt a c.
Proof.
  intros Hab Hbc. unfold key_lt.
  destruct (a ?= c)%string eqn:Hac; [|done|].
  - exfalso. apply String.compare_eq_iff in Hac. subst c.
    pose proof (key_lt_le _ _ Hab) as Hab'.
    assert (a = b) as -> by (by apply (anti_symm String.le)).
    by apply key_lt_irrefl in Hab.
  - exfalso.
    assert (String.le c a) as Hca.
    { unfold String.le, String.leb. rewrite String.compare_antisym, Hac. done. }
    assert (String.le b a) as Hba by (by etrans).
    pose proof (key_lt_le _ _ Hab) as Hab'.
    assert (a = b) as -> by (by apply (anti_symm String.le)).
    by apply key_lt_irrefl in Hab.
Qed.

(** An object put under a key below every listed key is listed first. *)
Lemma objects_under_insert_first (dir k : key) (o : s3object)
    (m : gmap key s3object) (l : list (key * s3object)) :
  String.prefix dir k = true ->
  objects_under dir m = l ->
  (forall e, e ∈ l -> key_lt k e.1) ->
  objects_under dir (<[k := o]> m) = (k, o) :: l.
Proof.
  intros Hpre Hl Hlt.
  assert (forall o', (k, o') ∉ l) as Hnot.
  { intros o' Hin. apply Hlt in Hin. by apply key_lt_irrefl in Hin. }
  apply objects_under_unique.
  - constructor; [rewrite <-Hl; apply objects_under_sorted|].
    destruct l as [|e l]; constructor.
    apply key_lt_le, (Hlt e). by left.
  - apply NoDup_cons. split; [apply Hnot|].
    rewrite <-Hl. apply objects_under_NoDup.
  - intros k' o'. rewrite elem_of_cons.
    destruct (decide (k' = k)) as [->|Hk].
    + rewrite lookup_insert_eq. split.
      * intros [[= ->]|Hin]; [done|]. by apply Hnot in Hin.
      * intros [[= ->] _]. by left.
    + rewrite lookup_insert_ne by done.
      rewrite <-Hl, elem_of_objects_under. split.
      * intros [[= ? ?]|?]; done.
      * intros ?. by right.
Qed.

(** Every listed key is at or above the first one. *)
Lemma objects_under_head_le (dir : key) (m : gmap key s3object)
    (e0 : key * s3object) (rest : list (key * s3object)) (e : key * s3object) :
  objects_under dir m = e0 :: rest -> e ∈ e0 :: rest -> String.le e0.1 e.1.
Proof.
  intros Hl Hin.
  pose proof (objects_under_sorted dir m) as Hs. rewrite Hl in Hs.
  apply Sorted_StronglySorted in Hs; [|apply _].
  apply StronglySorted_inv in Hs as [_ Hall].
  apply elem_of_cons in Hin as [->|Hin].
  - unfold String.le, String.leb. by rewrite compare_refl.
  - rewrite Forall_forall in Hall. by apply Hall.
Qed.

End ListingFacts.

Section PublishWithAlias.
Context `{Hashes} (self : S3Only.Repository).

Lemma s3only_alias_before_latest (name alias : string) :
  key_lt (S3Only._get_alias_s3path self name alias) (s3only_latest_key self name).
Proof.
  unfold S3Only._get_alias_s3path, s3only_latest_key, key_lt.
  rewrite compare_app_same. reflexivity.
Qed.

(** The listing of an artifact right after its first alias was put. *)
Lemma s3only_listing_with_alias (name alias : string) (a : S3Only.Alias)
    (w : world) (oL : s3object) (rest : list (key * s3object)) :
  objects_under (S3Only._get_artifact_s3dir self name) (s3 w)
    = (s3only_latest_key self name, oL) :: rest ->
  objects_under (S3Only._get_artifact_s3dir self name)
    (s3 (with_alias (S3Only._get_alias_s3path self name alias) a w))
    = (S3Only._get_alias_s3path self name alias,
       stored (Json (alias_document_of a)) ∅ (clock w))
        :: (s3only_latest_key self name, oL) :: rest.
Proof.
  intros Hl. cbn [with_alias s3 log set_s3].
  apply objects_under_insert_first; [apply prefix_app|done|].
  intros e He. eapply key_lt_le_trans; [apply s3only_alias_before_latest|].
  by apply (objects_under_head_le _ _ _ _ e Hl).
Qed.

Lemma rfind_dot_other (c : ascii) (s : string) (i : nat) :
  Ascii.eqb c "." = false -> rfind_dot (String c s) i = rfind_dot s (S i).
Proof. intros Hc. cbn [rfind_dot]. rewrite Hc. by destruct (rfind_dot s (S i)). Qed.

Lemma rfind_dot_ge (s : string) (i j : nat) :
  rfind_dot s i = Some j -> (i <= j)%nat.
Proof.
  revert i. induction s as [|c s IH]; intros i; cbn [rfind_dot]; [done|].
  destruct (rfind_dot s (S i)) as [j'|] eqn:Hj.
  - intros [= <-]. apply IH in Hj. lia.
  - destruct (Ascii.eqb c "."); [|done]. intros [= <-]. lia.
Qed.

(** Whatever the suffix, the file name of the [LATEST] object starts with
    the zeros [decode_filename] looks for. *)
Lemma fname_latest_zeros (name : string) :
  contains "/" (S3Only.suffix self) = false ->
  startswith (fname (s3only_latest_key self name)) (zeros VERSION_ZFILL) = true.
Proof.
  intros Hsuf.
  replace (s3only_latest_key self name) with
    ((S3Only.s3_prefix self +:+ "/" +:+ name +:+ "/" +:+ "versions")
       +:+ String "/" ("000000_LATEST" +:+ S3Only.suffix self)).
  2: { unfold s3only_latest_key, S3Only._get_artifact_s3dir.
       rewrite !append_assoc. reflexivity. }
  unfold fname. rewrite basename_app by (by rewrite contains_app).
  set (suf := S3Only.suffix self).
  change ("000000_LATEST" +:+ suf)
    with (String "0" (String "0" (String "0" (String "0" (String "0"
           (String "0" (String "_" (String "L" (String "A" (String "T"
           (String "E" (String "S" (String "T" suf))))))))))))).
  rewrite !rfind_dot_other by reflexivity.
  destruct (rfind_dot suf 13) as [i|] eqn:Hi; [|reflexivity].
  destruct (bool_decide _); [|reflexivity].
  apply rfind_dot_ge in Hi.
  do 13 (destruct i as [|i]; [lia|]). reflexivity.
Qed.

(** When [LATEST] is the second object listed, [publish_artifact_version]
    reads the version [LATEST] as the previous number and fails. *)
Lemma s3only_publish_latest_second (name : string) (w : world)
    (e0 : key * s3object) (oL : s3object) :
  contains "/" (S3Only.suffix self) = false ->
  take 2 (objects_under (S3Only._get_artifact_s3dir self name) (s3 w))
    = [e0; (s3only_latest_key self name, oL)] ->
  S3Only.publish_artifact_version self name w = (Raise ValueError, w) /\
  S3Only.get_latest_published_artifact_version_number self name w
    = (Raise ValueError, w).
Proof.
  intros Hsuf Hl. pose proof (fname_latest_zeros name Hsuf) as Hz. split.
  - unfold S3Only.publish_artifact_version. run.
    rewrite s3only_latest_path. run. rewrite Hl.
    unfold S3Only.decode_filename. rewrite Hz. reflexivity.
  - unfold S3Only.get_latest_published_artifact_version_number. run.
    rewrite Hl. unfold S3Only.decode_filename. rewrite Hz. reflexivity.
Qed.

Lemma s3only_publish_with_alias (name alias : string) (v sv : pyver)
    (wt : pyweight) (d : Z) (w0 w : world) (a : S3Only.Alias) (oL : s3object)
    (rest : list (key * s3object)) :
  contains "/" (S3Only.suffix self) = false ->
  objects_under (S3Only._get_artifact_s3dir self name) (s3 w0)
    = (s3only_latest_key self name, oL) :: rest ->
  S3Only.put_alias self name alias v sv wt w0 = (Ok a, w) ->
  S3Only.publish_artifact_version self name (advance d w)
    = (Raise ValueError, advance d w) /\
  S3Only.get_latest_published_artifact_version_number self name (advance d w)
    = (Raise ValueError, advance d w).
Proof.
  intros Hsuf Hl Hput.
  destruct (s3only_put_alias_ok self name alias v sv wt w0 w a Hput) as (_ & -> & _).
  apply (s3only_publish_latest_second name _
           (S3Only._get_alias_s3path self name alias,
            stored (Json (alias_document_of a)) ∅ (clock w0)) oL Hsuf).
  change (s3 (advance d ?x)) with (s3 x).
  by rewrite (s3only_listing_with_alias name alias a w0 oL rest Hl).
Qed.

End PublishWithAlias.

Section VersionKeyFacts.
Context (self : S3Only.Repository).

Lemma contains_digits (c : ascii) (s : string) :
  digit_val c = None -> all_digits s = true -> contains c s = false.
Proof.
  intros Hc. induction s as [|x s IH]; cbn [all_digits contains]; [done|].
  intros [Hx Hs]%andb_true_iff. apply bool_decide_eq_true in Hx as [dx Hx].
  rewrite IH by done. rewrite orb_false_r. apply Ascii.eqb_neq.
  intros ->. congruence.
Qed.

(** The file name of a numbered version inside the padding width. *)
Lemma version_filename (m : Z) :
  1 <= m < 10 ^ Z.of_nat VERSION_ZFILL ->
  zfill VERSION_ZFILL (str_int (10 ^ Z.of_nat VERSION_ZFILL - m))
    +:+ "_" +:+ zfill VERSION_ZFILL (str_int m)
  = decimal VERSION_ZFILL (10 ^ Z.of_nat VERSION_ZFILL - m)
      +:+ "_" +:+ decimal VERSION_ZFILL m.
Proof.
  intros Hm. unfold str_int.
  destruct (Z.ltb_spec (10 ^ Z.of_nat VERSION_ZFILL - m) 0); [lia|].
  destruct (Z.ltb_spec m 0); [lia|].
  rewrite !zfill_str_nonneg by (unfold VERSION_ZFILL in *; lia). done.
Qed.

Lemma s3only_version_keys_desc (name : string) (a b : Z) :
  1 <= a -> a < b -> b < 10 ^ Z.of_nat VERSION_ZFILL ->
  key_lt (s3only_version_key self name b) (s3only_version_key self name a).
Proof.
  intros Ha Hab Hb. unfold s3only_version_key, key_lt.
  rewrite !version_filename by lia. rewrite !compare_app_same.
  rewrite !append_assoc.
  apply compare_app_lt; [by rewrite !length_decimal|].
  apply decimal_lt; unfold VERSION_ZFILL in *; lia.
Qed.

Lemma s3only_latest_before_version (name : string) (m : Z) :
  1 <= m < 10 ^ Z.of_nat VERSION_ZFILL ->
  key_lt (s3only_latest_key self name) (s3only_version_key self name m).
Proof.
  intros Hm. unfold s3only_version_key, s3only_latest_key, key_lt.
  rewrite !version_filename by lia. rewrite !compare_app_same.
  rewrite !append_assoc.
  change ("000000_LATEST" +:+ S3Only.suffix self)
    with (zeros VERSION_ZFILL +:+ ("_LATEST" +:+ S3Only.suffix self)).
  apply compare_app_lt; [by rewrite length_zeros, length_decimal|].
  rewrite <-decimal_zero. apply decimal_lt; unfold VERSION_ZFILL in *; lia.
Qed.

(** With the default (empty) suffix [fname] and [decode_filename] recover
    the number of a version from its key. *)
Lemma decode_fname_version_key (name : string) (m : Z) :
  S3Only.suffix self = "" -> 1 <= m < 10 ^ Z.of_nat VERSION_ZFILL ->
  S3Only.decode_filename (fname (s3only_version_key self name m)) = Ok (str_int m).
Proof.
  intros Hsuf Hm.
  replace (s3only_version_key self name m) with
    ((S3Only.s3_prefix self +:+ "/" +:+ name +:+ "/" +:+ "versions")
       +:+ String "/" (decimal VERSION_ZFILL (10 ^ Z.of_nat VERSION_ZFILL - m)
                         +:+ "_" +:+ decimal VERSION_ZFILL m)).
  2: { unfold s3only_version_key, S3Only._get_artifact_s3dir.
       rewrite version_filename, Hsuf, append_nil_r by done.
       rewrite !append_assoc. reflexivity. }
  rewrite fname_app.
  - pose proof (decode_encode_filename_int m Hm) as Hdec.
    by rewrite encode_filename_int in Hdec.
  - rewrite !contains_app.
    rewrite (contains_digits "/" (decimal VERSION_ZFILL m)),
      (contains_digits "/" (decimal VERSION_ZFILL (10 ^ Z.of_nat VERSION_ZFILL - m)))
      by (done || apply all_digits_decimal).
    reflexivity.
  - rewrite !contains_app.
    rewrite (contains_digits "." (decimal VERSION_ZFILL m)),
      (contains_digits "." (decimal VERSION_ZFILL (10 ^ Z.of_nat VERSION_ZFILL - m)))
      by (done || apply all_digits_decimal).
    reflexivity.
Qed.

End VersionKeyFacts.

Section ListingSecond.

Lemma sorted_head_le (e0 : key * s3object) (l : list (key * s3object))
    (e : key * s3object) :
  Sorted key_le (e0 :: l) -> e ∈ e0 :: l -> String.le e0.1 e.1.
Proof.
  intros Hs Hin.
  apply Sorted_StronglySorted in Hs; [|apply _].
  apply StronglySorted_inv in Hs as [_ Hall].
  apply elem_of_cons in Hin as [->|Hin].
  - unfold String.le, String.leb. by rewrite compare_refl.
  - rewrite Forall_forall in Hall. by apply Hall.
Qed.

(** An object put under a key between the first listed key and the others
    is listed second. *)
Lemma objects_under_insert_second (dir k : key) (o : s3object)
    (m : gmap key s3object) (e0 : key * s3object) (l : list (key * s3object)) :
  String.prefix dir k = true ->
  objects_under dir m = e0 :: l ->
  key_lt e0.1 k ->
  (forall e, e ∈ l -> key_lt k e.1) ->
  objects_under dir (<[k := o]> m) = e0 :: (k, o) :: l.
Proof.
  intros Hpre Hl H0 Hlt.
  pose proof (objects_under_sorted dir m) as Hs. rewrite Hl in Hs.
  pose proof (objects_under_NoDup dir m) as Hnd. rewrite Hl in Hnd.
  apply Sorted_inv in Hs as [Hs _]. apply NoDup_cons in Hnd as [Hn0 Hnd].
  assert (forall o', (k, o') ∉ l) as Hnot.
  { intros o' Hin. apply Hlt in Hin. by apply key_lt_irrefl in Hin. }
  assert (forall o', e0 <> (k, o')) as Hne.
  { intros o' ->. by apply key_lt_irrefl in H0. }
  apply objects_under_unique.
  - constructor; [constructor; [done|]|].
    + destruct l as [|e l]; constructor. apply key_lt_le, (Hlt e). by left.
    + constructor. by apply key_lt_le.
  - apply NoDup_cons. split.
    + rewrite elem_of_cons. intros [?|?]; [by eapply Hne|done].
    + apply NoDup_cons. split; [apply Hnot|done].
  - intros k' o'. rewrite !elem_of_cons.
    destruct (decide (k' = k)) as [->|Hk].
    + rewrite lookup_insert_eq. split.
      * intros [Heq|[[= ->]|Hin]]; [by symmetry in Heq; apply Hne in Heq|done|].
        by apply Hnot in Hin.
      * intros [[= ->] _]. right. by left.
    + rewrite lookup_insert_ne by done.
      rewrite <-elem_of_objects_under, Hl, elem_of_cons. split.
      * intros [?|[[= ? ?]|?]]; [by left|done|by right].
      * intros [?|?]; [by left|by right; right].
Qed.

End ListingSecond.

Section PublishAgainGeneral.
Context (self : S3Only.Repository).

(** An artifact without aliases whose most recent version is [n]: a
    publish returns [n] (same entity tag, nothing written) or creates
    [n + 1], and the publish after it returns the same record and writes
    nothing. *)
Lemma s3only_publish_again (name : string) (d n : Z) (w : world)
    (oL o1 : s3object) (rest : list (key * s3object)) (sha sha1 : string) :
  S3Only.suffix self = "" ->
  1 <= n -> n + 1 < 10 ^ Z.of_nat VERSION_ZFILL ->
  objects_under (S3Only._get_artifact_s3dir self name) (s3 w)
    = (s3only_latest_key self name, oL) :: (s3only_version_key self name n, o1) :: rest ->
  obj_metadata oL !! "artifact_sha256" = Some sha ->
  obj_metadata o1 !! "artifact_sha256" = Some sha1 ->
  exists a w1,
    S3Only.publish_artifact_version self name w = (Ok a, w1) /\
    ((obj_etag o1 = obj_etag oL /\ S3Only.version a = str_int n /\ w1 = w) \/
     (obj_etag o1 <> obj_etag oL /\ S3Only.version a = str_int (n + 1) /\
      trace w1 = (trace w ++ [S3CopyObject (s3only_latest_key self name)
                                (s3only_version_key self name (n + 1))])%list)) /\
    S3Only.publish_artifact_version self name (advance d w1) = (Ok a, advance d w1).
Proof.
  intros Hsuf Hn Hn1 Hl Hsha Hsha1.
  assert (s3 w !! s3only_latest_key self name = Some oL) as Hk.
  { eapply elem_of_objects_under. rewrite Hl. by left. }
  pose proof (decode_fname_version_key self name n Hsuf ltac:(lia)) as Hdec.
  pose proof (decode_fname_version_key self name (n + 1) Hsuf ltac:(lia)) as Hdec1.
  destruct (decide (obj_etag o1 = obj_etag oL)) as [Hetag|Hetag].
  - eexists _, w. split.
    { eapply (s3only_publish_unchanged self name w _ _ o1 oL (str_int n) sha1 n);
        [by rewrite Hl|done|apply int_of_str_str_int|done..]. }
    split; [by left|].
    eapply (s3only_publish_unchanged self name (advance d w) _ _ o1 oL (str_int n) sha1 n);
      [by cbn [advance s3]; rewrite Hl|done|apply int_of_str_str_int|done..].
  - eexists _, _. split.
    { eapply (s3only_publish_next self name w _ _ o1 oL (str_int n) sha n);
        [by rewrite Hl|done|apply int_of_str_str_int|done..]. }
    split; [right; by split_and!|].
    pose proof (s3only_latest_before_version self name (n + 1) ltac:(lia)) as Hlt.
    etrans; [|reflexivity].
    eapply (s3only_publish_unchanged self name _ (s3only_latest_key self name, oL)
              (s3only_version_key self name (n + 1)) (copied oL (clock w)) oL
              (str_int (n + 1)) sha (n + 1)).
    + cbn [advance s3 log set_s3].
      erewrite objects_under_insert_second; [reflexivity|apply prefix_app|exact Hl|done|].
      intros e He. eapply key_lt_le_trans.
      * apply (s3only_version_keys_desc self name n (n + 1)); lia.
      * pose proof (objects_under_sorted (S3Only._get_artifact_s3dir self name) (s3 w))
          as Hs. rewrite Hl in Hs. apply Sorted_inv in Hs as [Hs _].
        by apply (sorted_head_le _ _ e Hs).
    + done.
    + apply int_of_str_str_int.
    + cbn [advance s3 log set_s3]. rewrite lookup_insert_ne; [done|].
      intros Heq. rewrite <-Heq in Hlt. by apply key_lt_irrefl in Hlt.
    + done.
    + done.
Qed.

End PublishAgainGeneral.

Section TwoExtensions.
Context (self : S3Only.Repository).

Lemma fname_two_extensions (name : string) :
  S3Only.suffix self = ".tar.gz" ->
  fname (s3only_version_key self name 1) = "999999_000001.tar".
Proof.
  intros Hsuf.
  replace (s3only_version_key self name 1) with
    ((S3Only.s3_prefix self +:+ "/" +:+ name +:+ "/" +:+ "versions")
       +:+ String "/" "999999_000001.tar.gz").
  2: { unfold s3only_version_key, S3Only._get_artifact_s3dir. rewrite Hsuf.
       rewrite !append_assoc. reflexivity. }
  unfold fname. rewrite basename_app by reflexivity. reflexivity.
Qed.

(** With a suffix of two extensions [fname] leaves the first extension in
    the file name, and the publish after the first one fails. *)
Lemma s3only_publish_again_two_extensions (name : string) (d : Z) (w : world)
    (oL : s3object) (sha : string) :
  S3Only.suffix self = ".tar.gz" ->
  objects_under (S3Only._get_artifact_s3dir self name) (s3 w)
    = [(s3only_latest_key self name, oL)] ->
  obj_metadata oL !! "artifact_sha256" = Some sha ->
  exists a1 w1,
    S3Only.publish_artifact_version self name w = (Ok a1, w1) /\
    S3Only.version a1 = "1" /\
    S3Only.publish_artifact_version self name (advance d w1)
      = (Raise ValueError, advance d w1).
Proof.
  intros Hsuf Hl Hsha.
  assert (s3 w !! s3only_latest_key self name = Some oL) as Hk.
  { eapply elem_of_objects_under. rewrite Hl. by left. }
  eexists _, _. split.
  { eapply s3only_publish_first; [by rewrite Hl|done..]. }
  split; [done|].
  unfold S3Only.publish_artifact_version. run.
  rewrite s3only_latest_path. run.
  erewrite s3only_listing_after_first by done. cbn [take].
  rewrite fname_two_extensions by done. reflexivity.
Qed.

End TwoExtensions.

(** C7. Publishing again. For an artifact of the object-store-only backend
    that has no alias (default suffix), a publish that follows a publish
    finds the entity tag of the most recent numbered version equal to the
    one of [LATEST], returns the same record and writes nothing; this holds
    for a fresh artifact and for one whose most recent version is [n]. The
    hybrid backend writes a new index row and a new copy under the next
    number each time. But the object-store-only backend lists the whole
    directory of the artifact: once an alias has been put, the alias
    object is listed first and [LATEST] second, and every
    [publish_artifact_version] raises [ValueError] (so does
    [get_latest_published_artifact_version_number]), whether [LATEST] has
    changed or not. *)
Theorem publish_again_fails_with_alias `{Hashes} (s3repo : S3Only.Repository)
    (hrepo : Hybrid.Repository) (name : string) (d : Z) (w : world) :
  let dir := S3Only._get_artifact_s3dir s3repo name in
  let latest := s3only_latest_key s3repo name in
  let hlatest := Hybrid.get_artifact_s3path hrepo name LATEST_VERSION in
  (S3Only.suffix s3repo = "" ->
   forall oL sha,
     objects_under dir (s3 w) = [(latest, oL)] ->
     obj_metadata oL !! "artifact_sha256" = Some sha ->
     exists a1 w1,
       S3Only.publish_artifact_version s3repo name w = (Ok a1, w1) /\
       S3Only.version a1 = "1" /\
       trace w1 = (trace w ++ [S3CopyObject latest
                                 (s3only_version_key s3repo name 1)])%list /\
       S3Only.publish_artifact_version s3repo name (advance d w1)
         = (Ok a1, advance d w1)) /\
  (S3Only.suffix s3repo = "" ->
   forall oL o1 rest n sha sha1,
     1 <= n -> n + 1 < 10 ^ Z.of_nat VERSION_ZFILL ->
     objects_under dir (s3 w)
       = (latest, oL) :: (s3only_version_key s3repo name n, o1) :: rest ->
     obj_metadata oL !! "artifact_sha256" = Some sha ->
     obj_metadata o1 !! "artifact_sha256" = Some sha1 ->
     exists a w1,
       S3Only.publish_artifact_version s3repo name w = (Ok a, w1) /\
       ((obj_etag o1 = obj_etag oL /\ S3Only.version a = str_int n /\ w1 = w) \/
        (obj_etag o1 <> obj_etag oL /\ S3Only.version a = str_int (n + 1) /\
         trace w1 = (trace w ++ [S3CopyObject latest
                                   (s3only_version_key s3repo name (n + 1))])%list)) /\
       S3Only.publish_artifact_version s3repo name (advance d w1)
         = (Ok a, advance d w1)) /\
  (forall r0 sk1 i1 n oL,
     take 2 (partition_desc name (table w)) = [r0; (sk1, i1)] ->
     int_of_str (lstrip0 sk1) = Some n -> 0 <= n ->
     s3 w !! hlatest = Some oL ->
     exists a w',
       Hybrid.publish_artifact_version hrepo name w = (Ok a, w') /\
       Hybrid.version a = str_int (n + 1) /\
       table w' !! (name, hybrid_sort_key (n + 1))
         = Some (artifact_item (clock w) (it_sha256 r0.2)) /\
       s3 w' !! hybrid_version_key hrepo name (n + 1) = Some (copied oL (clock w)) /\
       trace w' =
         (trace w ++ [S3CopyObject hlatest (hybrid_version_key hrepo name (n + 1));
                      DdbPutItem name (hybrid_sort_key (n + 1))])%list) /\
  (forall i0 oL,
     partition_desc name (table w) = [(LATEST_VERSION, i0)] ->
     s3 w !! hlatest = Some oL ->
     exists a1 w1 a2 w2,
       Hybrid.publish_artifact_version hrepo name w = (Ok a1, w1) /\
       Hybrid.version a1 = "1" /\
       Hybrid.publish_artifact_version hrepo name (advance d w1) = (Ok a2, w2) /\
       Hybrid.version a2 = "2" /\
       table w1 !! (name, hybrid_sort_key 2) = None /\
       table w2 !! (name, hybrid_sort_key 2)
         = Some (artifact_item (clock w + d) (it_sha256 i0)) /\
       s3 w2 !! hybrid_version_key hrepo name 2 = Some (copied oL (clock w + d)) /\
       trace w2 =
         (trace w1 ++ [S3CopyObject hlatest (hybrid_version_key hrepo name 2);
                       DdbPutItem name (hybrid_sort_key 2)])%list) /\
  (contains "/" (S3Only.suffix s3repo) = false ->
   forall alias v sv wt a w' oL rest,
     objects_under dir (s3 w) = (latest, oL) :: rest ->
     S3Only.put_alias s3repo name alias v sv wt w = (Ok a, w') ->
     S3Only.publish_artifact_version s3repo name (advance d w')
       = (Raise ValueError, advance d w') /\
     S3Only.get_latest_published_artifact_version_number s3repo name (advance d w')
       = (Raise ValueError, advance d w')).
Proof.
  intros dir latest hlatest. split_and!.
  - intros Hsuf oL sha Hl Hsha.
    by eapply s3only_publish_twice; [apply fname_default_suffix|..].
  - intros Hsuf oL o1 rest n sha sha1 Hn Hn1 Hl Hsha Hsha1.
    by eapply s3only_publish_again.
  - intros r0 sk1 i1 n oL Hl Hn Hpos Hk. eexists _, _. split.
    { by eapply hybrid_publish_next. }
    cbn [s3 table trace log set_s3 set_table]. rewrite !lookup_insert_eq.
    split_and!; [done..|]. by rewrite <-app_assoc.
  - intros. by eapply hybrid_publish_twice.
  - intros Hsuf alias v sv wt a w' oL rest Hl Hput.
    by eapply s3only_publish_with_alias.
Qed.

Lemma publish_again_fails_with_alias_witness :
  (exists a1 w1,
     S3Only.publish_artifact_version Scenario.s3repo "app" Scenario.s1 = (Ok a1, w1) /\
     S3Only.version a1 = "1" /\
     S3Only.publish_artifact_version Scenario.s3repo "app" (advance 1 w1)
       = (Ok a1, advance 1 w1)) /\
  (exists a w1,
     S3Only.publish_artifact_version Scenario.s3repo "app" Scenario.s3 = (Ok a, w1) /\
     S3Only.publish_artifact_version Scenario.s3repo "app" (advance 1 w1)
       = (Ok a, advance 1 w1)) /\
  (exists a1 w1 a2 w2,
     Hybrid.publish_artifact_version Scenario.hrepo "app" Scenario.h1 = (Ok a1, w1) /\
     Hybrid.version a1 = "1" /\
     Hybrid.publish_artifact_version Scenario.hrepo "app" (advance 1 w1) = (Ok a2, w2) /\
     Hybrid.version a2 = "2") /\
  (exists a w',
     S3Only.put_alias (H := Scenario.hashes) Scenario.s3repo "app" "prod"
       (VInt 1) VNone WNone Scenario.s2 = (Ok a, w') /\
     S3Only.publish_artifact_version Scenario.s3repo "app" (advance 1 w')
       = (Raise ValueError, advance 1 w')).
Proof.
  assert (S3Only.suffix Scenario.s3repo = "") as Hsuf by reflexivity.
  assert (contains "/" (S3Only.suffix Scenario.s3repo) = false) as Hslash
    by reflexivity.
  split_and!.
  - destruct (publish_again_fails_with_alias (H := Scenario.hashes) Scenario.s3repo
                Scenario.hrepo "app" 1 Scenario.s1) as (Hfresh & _).
    assert (exists oL,
      objects_under (S3Only._get_artifact_s3dir Scenario.s3repo "app") (s3 Scenario.s1)
        = [(s3only_latest_key Scenario.s3repo "app", oL)] /\
      obj_metadata oL !! "artifact_sha256" = Some "sha256:v1") as (oL & Hl & Hsha).
    { eexists. split; vm_compute; reflexivity. }
    destruct (Hfresh Hsuf oL _ Hl Hsha) as (a1 & w1 & H1 & H2 & _ & H3).
    exists a1, w1. exact (conj H1 (conj H2 H3)).
  - destruct (publish_again_fails_with_alias (H := Scenario.hashes) Scenario.s3repo
                Scenario.hrepo "app" 1 Scenario.s3) as (_ & Hnext & _).
    assert (exists oL o1,
      objects_under (S3Only._get_artifact_s3dir Scenario.s3repo "app") (s3 Scenario.s3)
        = [(s3only_latest_key Scenario.s3repo "app", oL);
           (s3only_version_key Scenario.s3repo "app" 1, o1)] /\
      obj_metadata oL !! "artifact_sha256" = Some "sha256:v2" /\
      obj_metadata o1 !! "artifact_sha256" = Some "sha256:v1")
      as (oL & o1 & Hl & Hsha & Hsha1).
    { eexists _, _. split_and!; vm_compute; reflexivity. }
    assert (1 <= 1) as Hn by lia.
    assert (1 + 1 < 10 ^ Z.of_nat VERSION_ZFILL) as Hn1 by (vm_compute; reflexivity).
    destruct (Hnext Hsuf oL o1 [] 1 _ _ Hn Hn1 Hl Hsha Hsha1)
      as (a & w1 & H1 & _ & H2).
    exists a, w1. exact (conj H1 H2).
  - destruct (publish_again_fails_with_alias (H := Scenario.hashes) Scenario.s3repo
                Scenario.hrepo "app" 1 Scenario.h1) as (_ & _ & _ & Hhy & _).
    assert (exists i0 oL,
      partition_desc "app" (table Scenario.h1) = [(LATEST_VERSION, i0)] /\
      s3 Scenario.h1 !! Hybrid.get_artifact_s3path Scenario.hrepo "app" LATEST_VERSION
        = Some oL) as (i0 & oL & Hl & Hk).
    { eexists _, _. split; vm_compute; reflexivity. }
    destruct (Hhy i0 oL Hl Hk) as (a1 & w1 & a2 & w2 & H1 & H2 & H3 & H4 & _).
    exists a1, w1, a2, w2. exact (conj H1 (conj H2 (conj H3 H4))).
  - assert (exists a w',
      S3Only.put_alias (H := Scenario.hashes) Scenario.s3repo "app" "prod"
        (VInt 1) VNone WNone Scenario.s2 = (Ok a, w')) as (a & w' & Hput).
    { eexists _, _. vm_compute. reflexivity. }
    assert (exists oL rest,
      objects_under (S3Only._get_artifact_s3dir Scenario.s3repo "app") (s3 Scenario.s2)
        = (s3only_latest_key Scenario.s3repo "app", oL) :: rest) as (oL & rest & Hl).
    { eexists _, _. vm_compute. reflexivity. }
    destruct (publish_again_fails_with_alias (H := Scenario.hashes) Scenario.s3repo
                Scenario.hrepo "app" 1 Scenario.s2) as (_ & _ & _ & _ & Halias).
    destruct (Halias Hslash "prod" (VInt 1) VNone WNone a w' oL rest Hl Hput)
      as (Hpub & _).
    exists a, w'. exact (conj Hput Hpub).
Defined.
